(** * Taraia time-series imagery pipeline: a shallow embedding

    The development follows the two scripts of the repository:

    - [scripts/getdata_nikumaroro.py], the per-year downloader
      (module [Getdata]);
    - [scripts/nikumaroro_analysis.py], the older analysis script with its
      own download loop, the frame aligner and a second manifest writer
      (module [Analysis]).

    Earth Engine, [requests] and Pillow are external services and libraries.
    Their answers are inputs of the model (records [World] and [Pillow]);
    the decision logic of the scripts is translated statement by statement. *)

From Stdlib Require Import ZArith QArith Lqa Strings.Byte Ascii String List Sorted Permutation OrderedTypeEx Lia.
From stdpp Require Import gmap strings list pretty.

Open Scope string_scope.
Open Scope Z_scope.

(** ** Python helpers *)

Module Py.

(** [needle in hay] on [str]: [needle] occurs as a contiguous substring. *)
Fixpoint str_in (needle hay : string) : bool :=
  String.prefix needle hay ||
  match hay with
  | EmptyString => false
  | String _ rest => str_in needle rest
  end.

(** [s.replace(c, '')] for a one-character [c]. *)
Fixpoint remove_char (c : ascii) (s : string) : string :=
  match s with
  | EmptyString => EmptyString
  | String a rest =>
      if Ascii.eqb a c then remove_char c rest else String a (remove_char c rest)
  end.

(** [f"{n}"] for an [int]. *)
Definition str_of_int (n : Z) : string := pretty n.

(** [list.sort(key=...)]: ascending, stable, comparing keys with [<] only.
    A stable sort has one possible result, so the insertion sort below
    returns the list that Python's sort returns.  [foldr] inserts the
    elements from the right; an element is placed before the first element
    of the sorted tail whose key is not smaller than its own, so it stays in
    front of the later elements with an equal key. *)
Section Sort.
Context {A K : Type} (ltb : K -> K -> bool) (key : A -> K).

Fixpoint insert_by (x : A) (l : list A) : list A :=
  match l with
  | [] => [x]
  | y :: l' => if ltb (key y) (key x) then y :: insert_by x l' else x :: y :: l'
  end.

Definition sort_by (l : list A) : list A := foldr insert_by [] l.
End Sort.

(** [l[0]] and [l[-1]]; [None] stands for [IndexError]. *)
Definition first_item {A} (l : list A) : option A := head l.
Definition last_item {A} (l : list A) : option A := last l.

End Py.

(** ** Earth Engine collections *)

Module EE.

(** An instant in UTC.  [system:time_start] is a number of milliseconds
    since the epoch; the civil fields below, compared lexicographically,
    order instants the same way, and [filterDate] and [date().format] only
    use that order and the calendar fields. *)
Record DateTime := mkDateTime {
  dt_year : Z;
  dt_month : Z;
  dt_day : Z;
  dt_millis : Z  (* milliseconds since 00:00:00 UTC of that day *)
}.

Definition dt_ltb (a b : DateTime) : bool :=
  (dt_year a <? dt_year b) ||
  ((dt_year a =? dt_year b) &&
   ((dt_month a <? dt_month b) ||
    ((dt_month a =? dt_month b) &&
     ((dt_day a <? dt_day b) ||
      ((dt_day a =? dt_day b) && (dt_millis a <? dt_millis b)))))).

Definition dt_leb (a b : DateTime) : bool := negb (dt_ltb b a).

(** The instant a date string ["YYYY-MM-DD"] denotes: midnight UTC. *)
Definition midnight (y m d : Z) : DateTime := mkDateTime y m d 0.

(** A bounding box in degrees. *)
Record Geometry := mkGeometry {
  west : Q; south : Q; east : Q; north : Q
}.

Definition intersects (a b : Geometry) : bool :=
  Qle_bool (west a) (east b) && Qle_bool (west b) (east a) &&
  Qle_bool (south a) (north b) && Qle_bool (south b) (north a).

(** One image of a collection: its index, acquisition instant, footprint
    and numeric properties (finite doubles, read as rationals: the
    comparisons agree). *)
Record Image := mkImage {
  index : string;
  time_start : DateTime;
  footprint : Geometry;
  properties : gmap string Q
}.

Definition ImageCollection := list Image.

Definition filterBounds (roi : Geometry) (c : ImageCollection) : ImageCollection :=
  List.filter (fun i => intersects (footprint i) roi) c.

(** [filterDate(start, end)]: start inclusive, end exclusive, on
    [system:time_start]. *)
Definition filterDate (start stop : DateTime) (c : ImageCollection) : ImageCollection :=
  List.filter (fun i => dt_leb start (time_start i) && dt_ltb (time_start i) stop) c.

Definition Qltb (a b : Q) : bool := negb (Qle_bool b a).

(** [filter(ee.Filter.lt(prop, bound))]: images without the property do
    not match. *)
Definition filter_lt (prop : string) (bound : Q) (c : ImageCollection) : ImageCollection :=
  List.filter (fun i => match properties i !! prop with
                        | Some v => Qltb v bound
                        | None => false
                        end) c.

Definition prop_key (prop : string) (i : Image) : option Q := properties i !! prop.

(** Order of the sort keys: a missing property sorts first. *)
Definition key_ltb (a b : option Q) : bool :=
  match a, b with
  | Some x, Some y => Qltb x y
  | None, Some _ => true
  | _, None => false
  end.

(** [sort(prop)]: ascending by the property.  The order of images with
    equal values is not documented; the model keeps collection order. *)
Definition sort (prop : string) (c : ImageCollection) : ImageCollection :=
  Py.sort_by key_ltb (prop_key prop) c.

Definition size (c : ImageCollection) : Z := Z.of_nat (length c).
Definition first (c : ImageCollection) : option Image := head c.

Definition pad (width : nat) (n : Z) : string :=
  let s := pretty n in
  String.concat "" (replicate (width - String.length s)%nat "0") +:+ s.

(** [date().format("YYYY-MM-dd")]. *)
Definition format_date (t : DateTime) : string :=
  pad 4 (dt_year t) +:+ "-" +:+ pad 2 (dt_month t) +:+ "-" +:+ pad 2 (dt_day t).

End EE.

(** ** Effects shared by the two scripts *)

(** A call either returns or raises an exception that nothing in the
    callee catches. *)
Inductive Reply (A : Type) : Type :=
  | Returned (a : A)
  | Raised.
Arguments Returned {A} a.
Arguments Raised {A}.

(** What [requests.get] on a thumbnail URL comes to: an exception before
    any response (URL resolution, connection, timeout), or a response with
    its status, its [Content-Type] header when present, and its body. *)
Inductive Fetch : Type :=
  | Transport_error
  | Response (status_code : Z) (content_type : option string) (content : list byte).

(** [response.headers.get("Content-Type", "")]. *)
Definition header_or_empty (h : option string) : string := default "" h.

(** ** scripts/getdata_nikumaroro.py *)

Module Getdata.
Import EE.

Definition TARAIA_LAT : Q := (-4686167 # 1000000)%Q.
Definition TARAIA_LON : Q := (-174498083 # 1000000)%Q.
Definition BUFFER_M : Z := 1500.
Definition IMAGE_PX : Z := 1024.
Definition START_YEAR : Z := 2013.
Definition END_YEAR : Z := 2024.

Definition S2_COLLECTION : string := "COPERNICUS/S2_SR_HARMONIZED".
Definition L8_COLLECTION : string := "LANDSAT/LC08/C02/T1_L2".

Record VisParams := mkVis {
  bands : list string;
  vis_min : Z;
  vis_max : Z;
  gamma : Q
}.

Definition S2_VIS : VisParams := mkVis ["B4"; "B3"; "B2"] 0 3000 (14 # 10)%Q.
Definition L8_VIS : VisParams := mkVis ["SR_B4"; "SR_B3"; "SR_B2"] 7000 30000 (14 # 10)%Q.

(** One element of [images_info]. *)
Record Entry := mkEntry {
  date : string;
  filename : string;
  aligned_filename : string;
  source : string;
  width : Z;
  height : Z
}.

Record Location := mkLocation {
  loc_name : string;
  lat : Q;
  lon : Q;
  description : string
}.

(** The dictionary [config] of [write_viewer_config]. *)
Record Config := mkConfig {
  location : Location;
  images : list Entry;
  generated : string;
  total_images : Z;
  date_range_start : string;
  date_range_end : string
}.

(** A file of the output directory: the bytes of a download, or the
    manifest (its JSON text is a serialization of the [Config]). *)
Inductive File : Type :=
  | Raw (content : list byte)
  | Json (config : Config).

(** Everything the run reads from outside. *)
Record World := mkWorld {
  (** the images of [ee.ImageCollection(id)] *)
  collection : string -> ImageCollection;
  (** whether the [getInfo] round trips of the query of a collection for a
      year come back (otherwise [ee.EEException]) *)
  getInfo_ok : string -> Z -> bool;
  (** [getThumbURL] and [requests.get] for an image, a rendering, a region
      and a pixel size *)
  thumb : Image -> VisParams -> Geometry -> Z -> Fetch;
  (** [Image.open(...)] followed by [verify()]: the size of the picture,
      or [None] when either raises *)
  pil_verify : list byte -> option (Z * Z);
  (** [datetime.now().isoformat()] *)
  now : string
}.

(** The effects of a run that outlive a call: the output directory, and
    the catalogue queries made so far (collection and year), oldest first. *)
Record Effects := mkEffects {
  disk : gmap string File;
  queries : list (string * Z)
}.

Definition M (A : Type) : Type := Effects -> Reply A * Effects.

Definition ret {A} (a : A) : M A := fun s => (Returned a, s).
Definition raise {A} : M A := fun s => (Raised, s).
Definition bind {A B} (c : M A) (k : A -> M B) : M B :=
  fun s => match c s with
           | (Returned a, s') => k a s'
           | (Raised, s') => (Raised, s')
           end.
Definition query (id : string) (year : Z) : M unit :=
  fun s => (Returned tt, mkEffects (disk s) (queries s ++ [(id, year)])).
Definition write_file (name : string) (f : File) : M unit :=
  fun s => (Returned tt, mkEffects (<[name := f]> (disk s)) (queries s)).

#[global] Instance M_ret : MRet M := @ret.
#[global] Instance M_bind : MBind M := fun A B k c => bind c k.

(** The collection both selectors build: region, the window of the year,
    the cloud bound, ascending by cloud. *)
Definition candidates (w : World) (id prop : string) (year : Z) (roi : Geometry)
  : ImageCollection :=
  EE.sort prop
    (filter_lt prop 30%Q
       (filterDate (midnight year 1 1) (midnight year 12 31)
          (filterBounds roi (collection w id)))).

Definition get_best_sentinel2 (w : World) (year : Z) (roi : Geometry)
  : M (option (Image * string)) :=
  let coll := candidates w S2_COLLECTION "CLOUDY_PIXEL_PERCENTAGE" year roi in
  query S2_COLLECTION year ;;
  if negb (getInfo_ok w S2_COLLECTION year) then raise
  else if size coll =? 0 then ret None
  else match first coll with
       | Some image => ret (Some (image, format_date (time_start image)))
       | None => raise
       end.

Definition get_best_landsat8 (w : World) (year : Z) (roi : Geometry)
  : M (option (Image * string)) :=
  let coll := candidates w L8_COLLECTION "CLOUD_COVER" year roi in
  query L8_COLLECTION year ;;
  if negb (getInfo_ok w L8_COLLECTION year) then raise
  else if size coll =? 0 then ret None
  else match first coll with
       | Some image => ret (Some (image, format_date (time_start image)))
       | None => raise
       end.

(** The [try] block catches every exception: the function always returns. *)
Definition download_image (w : World) (image : Image) (roi : Geometry)
    (vis_params : VisParams) (filename : string) : M bool :=
  match thumb w image vis_params roi IMAGE_PX with
  | Transport_error => ret false
  | Response status_code ct content =>
      let content_type := header_or_empty ct in
      if negb (status_code =? 200) || negb (Py.str_in "image" content_type)
      then ret false
      else match pil_verify w content with
           | None => ret false
           | Some _ => write_file filename (Raw content) ;; ret true
           end
  end.

Definition by_date (l : list Entry) : list Entry := Py.sort_by String.ltb date l.

Definition TARAIA : Location :=
  mkLocation "Taraia Object, Nikumaroro Island" TARAIA_LAT TARAIA_LON
    "Suspected location of Amelia Earhart's Lockheed Electra 10E".

(** [images_info] is sorted in place; the configuration holds the sorted
    list. *)
Definition write_viewer_config (w : World) (images_info : list Entry) : M Config :=
  let images_info := by_date images_info in
  let config :=
    mkConfig TARAIA images_info (now w) (Z.of_nat (length images_info))
      (match Py.first_item images_info with Some e => date e | None => "unknown" end)
      (match Py.last_item images_info with Some e => date e | None => "unknown" end) in
  write_file "viewer_config.json" (Json config) ;; ret config.

(** The variables [image, date_str, source_label, vis_params, filename]
    once an image is chosen. *)
Record Selection := mkSelection {
  sel_image : Image;
  sel_date : string;
  sel_source : string;
  sel_vis : VisParams;
  sel_filename : string
}.

(** Lines 230-246 of [main]: Sentinel-2 from 2015 on, Landsat 8 when no
    image is chosen yet. *)
Definition select (w : World) (roi : Geometry) (year : Z) : M (option Selection) :=
  s2 ← (if 2015 <=? year then
           r ← get_best_sentinel2 w year roi;
           ret (match r with
                | Some (image, date_str) =>
                    Some (mkSelection image date_str "Sentinel-2" S2_VIS
                            ("sentinel2_" +:+ Py.str_of_int year +:+ ".png"))
                | None => None
                end)
         else ret None);
  match s2 with
  | Some sel => ret (Some sel)
  | None =>
      r ← get_best_landsat8 w year roi;
      ret (match r with
           | Some (image, date_str) =>
               Some (mkSelection image date_str "Landsat 8" L8_VIS
                       ("landsat8_" +:+ Py.str_of_int year +:+ ".png"))
           | None => None
           end)
  end.

(** The local lists of [main]. *)
Record Lists := mkLists {
  images_info : list Entry;
  failed_years : list Z
}.

(** One iteration of the loop over the years. *)
Definition year_body (w : World) (roi : Geometry) (year : Z) (l : Lists) : M Lists :=
  sel ← select w roi year;
  match sel with
  | None => ret (mkLists (images_info l) (failed_years l ++ [year]))
  | Some s =>
      ok ← download_image w (sel_image s) roi (sel_vis s) (sel_filename s);
      if ok : bool then
        ret (mkLists
               (images_info l ++
                  [mkEntry (sel_date s) (sel_filename s) (sel_filename s)
                     (sel_source s) IMAGE_PX IMAGE_PX])
               (failed_years l))
      else ret (mkLists (images_info l) (failed_years l ++ [year]))
  end.

Fixpoint for_years (w : World) (roi : Geometry) (years : list Z) (l : Lists) : M Lists :=
  match years with
  | [] => ret l
  | year :: rest => l' ← year_body w roi year l; for_years w roi rest l'
  end.

(** [range(START_YEAR, END_YEAR + 1)]. *)
Definition YEARS : list Z := seqZ START_YEAR (END_YEAR + 1 - START_YEAR).

(** What [main] leaves behind: the two lists and the configuration when
    one was written. *)
Record Summary := mkSummary {
  accepted : list Entry;
  skipped : list Z;
  config : option Config
}.

Definition main (w : World) (roi : Geometry) : M Summary :=
  l ← for_years w roi YEARS (mkLists [] []);
  match images_info l with
  | [] => ret (mkSummary [] (failed_years l) None)
  | _ :: _ =>
      c ← write_viewer_config w (images_info l);
      ret (mkSummary (images c) (failed_years l) (Some c))
  end.

(** [initialize_ee]: what [ee.Initialize] may do, and the calls made to
    Earth Engine, oldest first. *)
Inductive InitOutcome : Type :=
  | Init_ok
  | Init_EEException
  | Init_other_error.

Inductive EECall : Type :=
  | Initialize (project : string)
  | Authenticate.

(** The environment variable [GOOGLE_PROJECT_ID], the outcome of the first
    [ee.Initialize], whether [ee.Authenticate] returns, and the outcome of
    the second [ee.Initialize]. *)
Record Session := mkSession {
  project_id : option string;
  first_init : InitOutcome;
  authenticate_ok : bool;
  second_init : InitOutcome
}.

(** [if not project] holds for an unset and for an empty variable; only
    [ee.EEException] is caught around the first [ee.Initialize]. *)
Definition initialize_ee (e : Session) : Reply unit * list EECall :=
  match project_id e with
  | None => (Raised, [])
  | Some project =>
      if String.eqb project "" then (Raised, [])
      else match first_init e with
           | Init_ok => (Returned tt, [Initialize project])
           | Init_other_error => (Raised, [Initialize project])
           | Init_EEException =>
               if authenticate_ok e then
                 match second_init e with
                 | Init_ok =>
                     (Returned tt, [Initialize project; Authenticate; Initialize project])
                 | _ => (Raised, [Initialize project; Authenticate; Initialize project])
                 end
               else (Raised, [Initialize project; Authenticate])
           end
  end.

(** [main] from its first line: the session is opened, then the years are
    gone through ([roi] is what [get_roi] returned). *)
Definition main_with_init (e : Session) (w : World) (roi : Geometry)
  : Effects -> (Reply Summary * Effects) * list EECall :=
  fun s =>
    match initialize_ee e with
    | (Returned _, calls) => (main w roi s, calls)
    | (Raised, calls) => ((Raised, s), calls)
    end.

End Getdata.

(** ** Pillow and NumPy *)

(** [np.array(img)]: [shape[:2]] is (rows, columns), that is (height,
    width); the pixel buffer is kept as bytes. *)
Record Raster := mkRaster {
  rows : Z;
  cols : Z;
  pixels : list byte
}.

Definition shape2 (r : Raster) : Z * Z := (rows r, cols r).

(** The three library calls of the aligner.  [pil_open] is [Image.open]
    followed by [np.array] ([None]: it raises, the bytes are no picture);
    [pil_save] is the encoding [Image.fromarray(a).save(path)] writes;
    [lanczos a w h] is the pixel buffer of
    [Image.fromarray(a).resize((w, h), LANCZOS)], a picture [w] wide and
    [h] high. *)
Record Pillow := mkPillow {
  pil_open : list byte -> option Raster;
  pil_save : Raster -> list byte;
  lanczos : Raster -> Z -> Z -> list byte
}.

Definition resize (pil : Pillow) (a : Raster) (w h : Z) : Raster :=
  mkRaster h w (lanczos pil a w h).

(** ** scripts/nikumaroro_analysis.py *)

Module Analysis.

Definition TARAIA_LAT : Q := (-4686167 # 1000000)%Q.
Definition TARAIA_LON : Q := (-174498083 # 1000000)%Q.

(** A dictionary of [images_info]: the download loops set [date],
    [filename], [source] and either [timestamp] or [zoom]; the aligner adds
    the last three keys.  A key that is absent is [None]. *)
Record Info := mkInfo {
  date : option string;
  timestamp : option Z;
  filename : string;
  source : string;
  zoom : option Z;
  aligned_filename : option string;
  width : option Z;
  height : option Z
}.

Record Location := mkLocation {
  loc_name : string;
  lat : Q;
  lon : Q;
  description : string
}.

Record Config := mkConfig {
  location : Location;
  images : list Info;
  generated : string;
  total_images : Z;
  date_range_start : string;
  date_range_end : string
}.

Inductive File : Type :=
  | Raw (content : list byte)
  | Json (config : Config).

(** The output directory is the only state. *)
Definition M (A : Type) : Type := gmap string File -> Reply A * gmap string File.

Definition ret {A} (a : A) : M A := fun d => (Returned a, d).
Definition raise {A} : M A := fun d => (Raised, d).
Definition bind {A B} (c : M A) (k : A -> M B) : M B :=
  fun d => match c d with
           | (Returned a, d') => k a d'
           | (Raised, d') => (Raised, d')
           end.
Definition write_file (name : string) (f : File) : M unit :=
  fun d => (Returned tt, <[name := f]> d).
Definition read_disk : M (gmap string File) := fun d => (Returned d, d).

#[global] Instance M_ret : MRet M := @ret.
#[global] Instance M_bind : MBind M := fun A B k c => bind c k.

(** One pass of the loop of [download_sentinel2_images] (lines 111-130),
    for a date and the outcome of the request: only the status is looked
    at, and every exception is caught. *)
Definition download_sentinel2_step (f : Fetch) (date_str : string) (date_ms : Z)
    (images_info : list Info) : M (list Info) :=
  match f with
  | Transport_error => ret images_info
  | Response status_code _ content =>
      if status_code =? 200 then
        let name := "sentinel2_" +:+ Py.remove_char "-"%char date_str +:+ ".png" in
        write_file name (Raw content);;
        ret (images_info ++
               [mkInfo (Some date_str) (Some date_ms) name "Sentinel-2" None None None None])%list
      else ret images_info
  end.

(** First loop of [align_images]: the files that exist are opened, in
    order; a file that is no picture makes [Image.open] raise. *)
Fixpoint load_images (pil : Pillow) (d : gmap string File) (images_info : list Info)
  : Reply (list Raster) :=
  match images_info with
  | [] => Returned []
  | info :: rest =>
      match d !! filename info with
      | None => load_images pil d rest
      | Some (Json _) => Raised
      | Some (Raw b) =>
          match pil_open pil b with
          | None => Raised
          | Some a =>
              match load_images pil d rest with
              | Returned l => Returned (a :: l)
              | Raised => Raised
              end
          end
      end
  end.

(** The array written for a loaded image: resampled when its shape is not
    the reference, the loaded array itself otherwise. *)
Definition fit (pil : Pillow) (ref_height ref_width : Z) (img : Raster) : Raster :=
  if decide (shape2 img = (ref_height, ref_width)) then img
  else resize pil img ref_width ref_height.

(** Second loop: the [i]-th loaded image goes with [images_info[i]]. *)
Fixpoint save_aligned (pil : Pillow) (ref_height ref_width : Z)
    (images : list Raster) (images_info : list Info) : M (list Info) :=
  match images, images_info with
  | img :: images', info :: infos' =>
      let aligned_name := "aligned_" +:+ filename info in
      write_file aligned_name (Raw (pil_save pil (fit pil ref_height ref_width img)));;
      rest ← save_aligned pil ref_height ref_width images' infos';
      ret (mkInfo (date info) (timestamp info) (filename info) (source info) (zoom info)
             (Some aligned_name) (Some ref_width) (Some ref_height) :: rest)
  | _, _ => ret []
  end.

Definition align_images (pil : Pillow) (images_info : list Info) : M (list Info) :=
  match images_info with
  | [] => ret []
  | _ :: _ =>
      d ← read_disk;
      match load_images pil d images_info with
      | Raised => raise
      | Returned [] => ret []
      | Returned ((ref :: _) as images) =>
          save_aligned pil (rows ref) (cols ref) images images_info
      end
  end.

(** The sort key [x.get('timestamp', 0) or x.get('date', '')]: the
    timestamp when it is there and not zero, the date otherwise. *)
Inductive Key : Type :=
  | KInt (n : Z)
  | KStr (s : string).

Definition sort_key (x : Info) : Key :=
  match timestamp x with
  | Some n => if n =? 0 then KStr (default "" (date x)) else KInt n
  | None => KStr (default "" (date x))
  end.

Definition key_ltb (a b : Key) : bool :=
  match a, b with
  | KInt m, KInt n => m <? n
  | KStr s, KStr t => String.ltb s t
  | _, _ => false
  end.

Definition same_kind (a b : Key) : bool :=
  match a, b with
  | KInt _, KInt _ | KStr _, KStr _ => true
  | _, _ => false
  end.

(** Keys that [<] can compare pairwise.  With at least two elements a
    sort has to compare every element with some other one, so a list that
    mixes numbers and strings ends in [TypeError]. *)
Definition comparable (l : list Info) : bool :=
  match l with
  | [] => true
  | x :: rest => forallb (fun y => same_kind (sort_key x) (sort_key y)) rest
  end.

Definition sort_images (l : list Info) : Reply (list Info) :=
  if comparable l then Returned (Py.sort_by key_ltb sort_key l) else Raised.

Definition TARAIA : Location :=
  mkLocation "Taraia Object, Nikumaroro Island" TARAIA_LAT TARAIA_LON
    "Suspected location of Amelia Earhart's Lockheed Electra 10E".

(** [aligned_images[0]] and [aligned_images[-1]] raise [IndexError] on an
    empty list; [.get('date', 'unknown')] covers a missing key only. *)
Definition create_viewer_config (now : string) (aligned_images : list Info) : M Config :=
  match sort_images aligned_images with
  | Raised => raise
  | Returned sorted =>
      match Py.first_item sorted, Py.last_item sorted with
      | Some a, Some b =>
          let config :=
            mkConfig TARAIA sorted now (Z.of_nat (length sorted))
              (default "unknown" (date a)) (default "unknown" (date b)) in
          write_file "viewer_config.json" (Json config);;
          ret config
      | _, _ => raise
      end
  end.

(** Lines 323-341 of [main]: align, then write the configuration when at
    least one image was aligned. *)
Definition main_tail (pil : Pillow) (now : string) (all_images : list Info)
  : M (option Config) :=
  aligned_images ← align_images pil all_images;
  match aligned_images with
  | [] => ret None
  | _ :: _ => c ← create_viewer_config now aligned_images; ret (Some c)
  end.

(** [download_sentinel2_images] from line 88 on, given the timestamps the
    catalogue returned: the first fifty are gone through.  The date of a
    timestamp is taken in local time: [local_date date_ms] is [None] when
    [datetime.fromtimestamp] (line 95) or the day added at line 98 raises,
    for a timestamp out of the range of [datetime]; both stand before the
    [try] of line 111, so the function raises there, with the files of the
    earlier timestamps written and the list lost.  The image fetched is the
    first one of the collection on that date, so the request depends on the
    date only ([fetch]). *)
Fixpoint download_each (local_date : Z -> option string) (fetch : string -> Fetch)
    (dates : list Z) (images_info : list Info) : M (list Info) :=
  match dates with
  | [] => ret images_info
  | date_ms :: rest =>
      match local_date date_ms with
      | None => raise
      | Some date_str =>
          images_info' ← download_sentinel2_step (fetch date_str) date_str date_ms
                           images_info;
          download_each local_date fetch rest images_info'
      end
  end.

Definition download_sentinel2_images (local_date : Z -> option string)
    (fetch : string -> Fetch) (dates : list Z) : M (list Info) :=
  download_each local_date fetch (take 50 dates) [].

(** [download_sentinel_hub_images]: without a key nothing is done; with
    one the body is [pass] and the function returns [None]. *)
Definition download_sentinel_hub_images (api_key : option string) : option (list Info) :=
  match api_key with
  | None => Some []
  | Some k => if String.eqb k "" then Some [] else None
  end.

(** One pass of the loop of [download_static_satellite_tiles], for a tile
    server and the outcome of its request (zoom 18). *)
Definition static_tile_step (name : string) (f : Fetch) (images_info : list Info)
  : M (list Info) :=
  match f with
  | Transport_error => ret images_info
  | Response status_code _ content =>
      if status_code =? 200 then
        let file := name +:+ "_z" +:+ Py.str_of_int 18 +:+ ".png" in
        write_file file (Raw content);;
        ret (images_info ++
               [mkInfo (Some "current") None file name (Some 18) None None None])%list
      else ret images_info
  end.

(** The two servers, in the order of the dictionary. *)
Definition download_static_satellite_tiles (esri_world google_satellite : Fetch)
  : M (list Info) :=
  images_info ← static_tile_step "esri_world" esri_world [];
  static_tile_step "google_satellite" google_satellite images_info.

(** Lines 310-316 of [main]: the [try] around the Sentinel-2 download.
    Whatever it raises is caught and [all_images] stays empty; what it
    wrote before raising stays written. *)
Definition try_extend (download : M (list Info)) : M (list Info) :=
  fun d => match download d with
           | (Returned gee_images, d') => (Returned gee_images, d')
           | (Raised, d') => (Returned [], d')
           end.

(** [main]: [dates] is [None] when [download_sentinel2_images] raises
    before its loop (no session, no answer of the catalogue); it can also
    raise inside the loop.  [main] catches both. *)
Definition main (pil : Pillow) (now : string) (local_date : Z -> option string)
    (fetch : string -> Fetch) (dates : option (list Z))
    (esri_world google_satellite : Fetch) : M (option Config) :=
  gee_images ← try_extend match dates with
                           | Some ds => download_sentinel2_images local_date fetch ds
                           | None => raise
                           end;
  static_images ← download_static_satellite_tiles esri_world google_satellite;
  main_tail pil now (gee_images ++ static_images).

End Analysis.

(** * Sample data *)

Module Sample.
Import EE.

(** A box around the Taraia point and a tile that covers it. *)
Definition roi : Geometry :=
  mkGeometry (-174512 # 1000)%Q (-4700 # 1000)%Q (-174484 # 1000)%Q (-4672 # 1000)%Q.
Definition tile : Geometry := mkGeometry (-175 # 1)%Q (-5 # 1)%Q (-174 # 1)%Q (-4 # 1)%Q.
Definition far_tile : Geometry := mkGeometry (10 # 1)%Q (40 # 1)%Q (11 # 1)%Q (41 # 1)%Q.

Definition s2 (name : string) (t : DateTime) (cloud : Q) : Image :=
  mkImage name t tile {[ "CLOUDY_PIXEL_PERCENTAGE" := cloud ]}.
Definition l8 (name : string) (t : DateTime) (cloud : Q) : Image :=
  mkImage name t tile {[ "CLOUD_COVER" := cloud ]}.

Definition png : list byte := [x89; x50; x4e; x47; x0d; x0a; x1a; x0a].
Definition html : list byte := [x3c; x68; x74; x6d; x6c; x3e].

Definition no_effects : Getdata.Effects := Getdata.mkEffects ∅ [].

(** A catalogue whose only Sentinel-2 image of 2020 was acquired on
    December 31 at 22:00 UTC, with 5 % of cloud. *)
Definition s2_dec31 : Image := s2 "20201231T220000" (mkDateTime 2020 12 31 79200000) 5%Q.

Definition world_dec31 : Getdata.World :=
  Getdata.mkWorld
    (fun id => if String.eqb id Getdata.S2_COLLECTION then [s2_dec31] else [])
    (fun _ _ => true)
    (fun _ _ _ _ => Response 200 (Some "image/png") png)
    (fun _ => Some (1024, 1024))
    "2026-01-01T00:00:00".

(** A catalogue for a whole run.  Sentinel-2: two clear images in 2016,
    a cloudy one in 2017, a clear one in 2018 and one in 2019 that lies
    elsewhere.  Landsat 8: one image each in 2013, 2016 and 2017. *)
Definition s2_2016_a : Image := s2 "s2_2016_a" (mkDateTime 2016 5 10 43200000) 12%Q.
Definition s2_2016_b : Image := s2 "s2_2016_b" (mkDateTime 2016 8 2 43200000) 3%Q.
Definition s2_2017 : Image := s2 "s2_2017" (mkDateTime 2017 3 3 43200000) 50%Q.
Definition s2_2018 : Image := s2 "s2_2018" (mkDateTime 2018 6 6 43200000) 1%Q.
Definition s2_2019 : Image :=
  mkImage "s2_2019" (mkDateTime 2019 2 2 43200000) far_tile
    {[ "CLOUDY_PIXEL_PERCENTAGE" := 7%Q ]}.
Definition l8_2013 : Image := l8 "l8_2013" (mkDateTime 2013 7 10 43200000) 20%Q.
Definition l8_2016 : Image := l8 "l8_2016" (mkDateTime 2016 1 1 43200000) 0%Q.
Definition l8_2017 : Image := l8 "l8_2017" (mkDateTime 2017 9 9 43200000) 10%Q.

(** The thumbnail of the 2018 image comes back as a page of HTML with
    status 200; Pillow finds pictures of 512 by 512 pixels. *)
Definition world : Getdata.World :=
  Getdata.mkWorld
    (fun id =>
       if String.eqb id Getdata.S2_COLLECTION
       then [s2_2016_a; s2_2016_b; s2_2017; s2_2018; s2_2019]
       else if String.eqb id Getdata.L8_COLLECTION
            then [l8_2013; l8_2016; l8_2017]
            else [])
    (fun _ _ => true)
    (fun image _ _ _ =>
       if String.eqb (index image) "s2_2018"
       then Response 200 (Some "text/html") html
       else Response 200 (Some "image/png") png)
    (fun _ => Some (512, 512))
    "2026-01-01T00:00:00".

Definition run : Reply Getdata.Summary * Getdata.Effects :=
  Getdata.main world roi no_effects.

Definition summary : Getdata.Summary :=
  match fst run with
  | Returned r => r
  | Raised => Getdata.mkSummary [] [] None
  end.

(** Three stored pictures, 800 by 600 and twice 1024 by 1024, and a
    Pillow that reads the size in the first byte. *)
Definition small : Raster := mkRaster 600 800 [x01].
Definition large : Raster := mkRaster 1024 1024 [x02].

Definition pillow : Pillow :=
  mkPillow
    (fun b => match b with
              | [x01] => Some small
              | [x02] => Some large
              | _ => None
              end)
    pixels
    (fun _ _ _ => [x03]).

Definition shot (name : string) : Analysis.Info :=
  Analysis.mkInfo (Some "current") None name "esri_world" (Some 18) None None None.

Definition shots : list Analysis.Info := [shot "a.png"; shot "b.png"; shot "c.png"].

Definition shelf : gmap string Analysis.File :=
  <["a.png" := Analysis.Raw [x01]]>
    (<["b.png" := Analysis.Raw [x02]]> (<["c.png" := Analysis.Raw [x02]]> ∅)).

(** The same catalogue when Sentinel-2 does not answer for 2015. *)
Definition world_down : Getdata.World :=
  Getdata.mkWorld (Getdata.collection world)
    (fun id year => negb (String.eqb id Getdata.S2_COLLECTION && (year =? 2015)))
    (Getdata.thumb world) (Getdata.pil_verify world) (Getdata.now world).

(** The entry of 2016 in the run above. *)
Definition entry_2016 : Getdata.Entry :=
  Getdata.mkEntry "2016-08-02" "sentinel2_2016.png" "sentinel2_2016.png" "Sentinel-2"
    1024 1024.

(** The shelf without its first picture, and with a page of HTML in place
    of the second. *)
Definition shelf_gap : gmap string Analysis.File := delete "a.png" shelf.
Definition shelf_page : gmap string Analysis.File :=
  <["b.png" := Analysis.Raw html]> shelf.

(** The local dates of two timestamps of January 2020; any other timestamp
    stands for one that [datetime] cannot hold.  The thumbnail server has a
    picture for the first of the two dates only. *)
Definition local_date (date_ms : Z) : option string :=
  if date_ms =? 1578218400000 then Some "2020-01-05"
  else if date_ms =? 1578304800000 then Some "2020-01-06"
  else None.

Definition thumbs (date_str : string) : Fetch :=
  if String.eqb date_str "2020-01-05" then Response 200 (Some "image/png") [x01]
  else Response 404 (Some "text/html") html.

(** The end of [main] of the analysis script on the three pictures. *)
Definition tail_run : Reply (option Analysis.Config) * gmap string Analysis.File :=
  Analysis.main_tail pillow "2026-01-01T00:00:00" shots shelf.

Definition tail_config : Analysis.Config :=
  match fst tail_run with
  | Returned (Some c) => c
  | _ => Analysis.mkConfig Analysis.TARAIA [] "" 0 "" ""
  end.

(** Frames for the manifest writers. *)
Definition entry (d : string) : Getdata.Entry :=
  Getdata.mkEntry d ("sentinel2_" +:+ d +:+ ".png") ("sentinel2_" +:+ d +:+ ".png")
    "Sentinel-2" 1024 1024.
Definition info (d : string) : Analysis.Info :=
  Analysis.mkInfo (Some d) None ("tile_" +:+ d +:+ ".png") "esri_world" None None None None.
Definition stamped (d : string) (ms : Z) (name : string) : Analysis.Info :=
  Analysis.mkInfo (Some d) (Some ms) name "Sentinel-2" None None None None.

Definition three_dates : list string := ["2016-03-01"; "2013-07-10"; "2020-11-05"].

(** Two frames of the same day, the later acquisition first. *)
Definition afternoon : Analysis.Info := stamped "2020-01-05" 1578232800000 "b.png".
Definition morning : Analysis.Info := stamped "2020-01-05" 1578218400000 "a.png".

End Sample.

(** * Properties *)

(** ** The stable sort *)

Section SortFacts.
Context {A K : Type} (ltb : K -> K -> bool) (key : A -> K).

(** [x] may stand before [y]: the key of [y] is not smaller. *)
Definition not_after (x y : A) : Prop := ltb (key y) (key x) = false.

Lemma insert_by_Permutation (x : A) (l : list A) :
  Permutation (Py.insert_by ltb key x l) (x :: l).
Proof.
  induction l as [|y l IH]; simpl; [reflexivity|].
  destruct (ltb (key y) (key x)); [|reflexivity].
  rewrite IH. apply perm_swap.
Qed.

Lemma sort_by_Permutation (l : list A) : Permutation (Py.sort_by ltb key l) l.
Proof.
  induction l as [|x l IH]; simpl; [reflexivity|].
  rewrite insert_by_Permutation. now constructor.
Qed.

Lemma sort_by_length (l : list A) : length (Py.sort_by ltb key l) = length l.
Proof. apply Permutation_length, sort_by_Permutation. Qed.

Lemma sort_by_nil_inv (l : list A) : Py.sort_by ltb key l = [] -> l = [].
Proof.
  intros H. apply Permutation_nil. rewrite <- H.
  apply sort_by_Permutation.
Qed.

(** A family of elements none of which is smaller than another keeps
    its order through an insertion, hence through the sort. *)
Lemma insert_by_filter (p : A -> bool) (x : A) (l : list A) :
  (forall y, In y l -> p x = true -> p y = true -> ltb (key y) (key x) = false) ->
  List.filter p (Py.insert_by ltb key x l) = List.filter p (x :: l).
Proof.
  induction l as [|y l IH]; intros Hl; [reflexivity|].
  simpl. destruct (ltb (key y) (key x)) eqn:Hyx; [|reflexivity].
  simpl. rewrite IH by (intros; apply Hl; simpl; auto). simpl.
  destruct (p x) eqn:Hx, (p y) eqn:Hy; try reflexivity.
  rewrite (Hl y) in Hyx by (simpl; auto). discriminate.
Qed.

Lemma sort_by_stable (p : A -> bool) (l : list A) :
  (forall x y, p x = true -> p y = true -> ltb (key y) (key x) = false) ->
  List.filter p (Py.sort_by ltb key l) = List.filter p l.
Proof.
  intros Hp. induction l as [|x l IH]; [reflexivity|].
  simpl Py.sort_by. rewrite insert_by_filter by (intros; now apply Hp).
  simpl. now rewrite IH.
Qed.

Section Ordered.
Hypothesis ltb_asym : forall a b, ltb a b = true -> ltb b a = false.
Hypothesis geb_trans :
  forall a b c, ltb b a = false -> ltb c b = false -> ltb c a = false.

Lemma insert_by_HdRel (a x : A) (l : list A) :
  not_after a x -> HdRel not_after a l -> HdRel not_after a (Py.insert_by ltb key x l).
Proof.
  intros Hax Hl. destruct l as [|y l]; simpl; [now constructor|].
  destruct (ltb (key y) (key x)); constructor; [|assumption].
  now inversion Hl.
Qed.

Lemma insert_by_Sorted (x : A) (l : list A) :
  Sorted not_after l -> Sorted not_after (Py.insert_by ltb key x l).
Proof.
  induction l as [|y l IH]; intros Hs; simpl.
  - repeat constructor.
  - inversion Hs as [|? ? Hl Hhd]; subst.
    destruct (ltb (key y) (key x)) eqn:Hyx.
    + constructor; [now apply IH|].
      apply insert_by_HdRel; [|assumption].
      unfold not_after. now apply ltb_asym.
    + constructor; [assumption|]. now constructor.
Qed.

Lemma sort_by_Sorted (l : list A) : Sorted not_after (Py.sort_by ltb key l).
Proof.
  induction l as [|x l IH]; simpl; [constructor|]. now apply insert_by_Sorted.
Qed.

(** Every element is not after every later one. *)
Lemma sort_by_StronglySorted (l : list A) :
  StronglySorted not_after (Py.sort_by ltb key l).
Proof.
  apply Sorted_StronglySorted; [|apply sort_by_Sorted].
  intros x y z Hxy Hyz. unfold not_after in *. eauto.
Qed.
End Ordered.
End SortFacts.

(** ** The order of Python strings *)

Lemma string_ltb_lt (s t : string) : String.ltb s t = true <-> String_as_OT.lt s t.
Proof.
  unfold String.ltb. rewrite <- String_as_OT.cmp_lt. unfold String_as_OT.cmp.
  destruct (String.compare s t); split; congruence.
Qed.

Lemma string_ltb_irrefl (s : string) : String.ltb s s = false.
Proof.
  unfold String.ltb.
  replace (String.compare s s) with Eq; [reflexivity|].
  symmetry. now apply String_as_OT.cmp_eq.
Qed.

Lemma string_ltb_asym (s t : string) : String.ltb s t = true -> String.ltb t s = false.
Proof.
  unfold String.ltb. rewrite (String.compare_antisym t s).
  destruct (String.compare s t); simpl; congruence.
Qed.

Lemma string_ltb_trans (s t u : string) :
  String.ltb s t = true -> String.ltb t u = true -> String.ltb s u = true.
Proof. rewrite !string_ltb_lt. apply String_as_OT.lt_trans. Qed.

Lemma string_ltb_total (s t : string) :
  String.ltb s t = false -> String.ltb t s = false -> s = t.
Proof.
  unfold String.ltb. rewrite (String.compare_antisym t s).
  destruct (String.compare s t) eqn:E; simpl; try discriminate.
  intros _ _. now apply String.compare_eq_iff.
Qed.

Lemma string_geb_trans (s t u : string) :
  String.ltb t s = false -> String.ltb u t = false -> String.ltb u s = false.
Proof.
  intros Hts Hut. destruct (String.ltb u s) eqn:Hus; [|reflexivity].
  destruct (String.ltb s t) eqn:Hst.
  - rewrite (string_ltb_trans u s t Hus Hst) in Hut. discriminate.
  - rewrite <- (string_ltb_total s t Hst Hts) in Hut. congruence.
Qed.

(** ** Earth Engine collections *)

Lemma Qltb_lt (x y : Q) : EE.Qltb x y = true <-> (x < y)%Q.
Proof.
  unfold EE.Qltb. rewrite negb_true_iff, <- not_true_iff_false, Qle_bool_iff.
  split; [apply Qnot_le_lt | apply Qlt_not_le].
Qed.

Lemma Qltb_ge (x y : Q) : EE.Qltb x y = false <-> (y <= x)%Q.
Proof. unfold EE.Qltb. now rewrite negb_false_iff, Qle_bool_iff. Qed.

Lemma key_ltb_asym (a b : option Q) : EE.key_ltb a b = true -> EE.key_ltb b a = false.
Proof.
  destruct a as [x|], b as [y|]; simpl; try congruence.
  rewrite Qltb_lt, Qltb_ge. apply Qlt_le_weak.
Qed.

Lemma key_geb_trans (a b c : option Q) :
  EE.key_ltb b a = false -> EE.key_ltb c b = false -> EE.key_ltb c a = false.
Proof.
  destruct a as [x|], b as [y|], c as [z|]; simpl; try congruence.
  rewrite !Qltb_ge. intros; now apply Qle_trans with y.
Qed.

Lemma sort_In (prop : string) (c : EE.ImageCollection) (i : EE.Image) :
  In i (EE.sort prop c) <-> In i c.
Proof.
  unfold EE.sort. split; apply Permutation_in;
    [|symmetry]; apply sort_by_Permutation.
Qed.

(** The first image of a sorted collection has the least value. *)
Lemma sort_first_least (prop : string) (c : EE.ImageCollection) (i j : EE.Image) (v u : Q) :
  EE.first (EE.sort prop c) = Some i -> In j c ->
  EE.properties i !! prop = Some v -> EE.properties j !! prop = Some u ->
  (v <= u)%Q.
Proof.
  intros Hfirst Hj Hv Hu.
  pose proof (sort_by_StronglySorted EE.key_ltb (EE.prop_key prop)
                key_ltb_asym key_geb_trans c) as Hs.
  apply (sort_In prop) in Hj. unfold EE.sort, EE.first in *.
  destruct (Py.sort_by EE.key_ltb (EE.prop_key prop) c) as [|i' l]; [discriminate|].
  simpl in Hfirst. injection Hfirst as ->.
  destruct Hj as [<-|Hj]; [rewrite Hv in Hu; injection Hu as ->; apply Qle_refl|].
  apply StronglySorted_inv in Hs as [_ Hall].
  rewrite List.Forall_forall in Hall. specialize (Hall j Hj).
  unfold not_after, EE.prop_key in Hall. rewrite Hv, Hu in Hall.
  simpl in Hall. now apply Qltb_ge in Hall.
Qed.

(** ** C1: the best image of a source *)

(** The images of a collection the query of a year reaches before the
    cloud bound is applied. *)
Definition pool (w : Getdata.World) (id : string) (year : Z) (roi : EE.Geometry)
  : EE.ImageCollection :=
  EE.filterDate (EE.midnight year 1 1) (EE.midnight year 12 31)
    (EE.filterBounds roi (Getdata.collection w id)).

(** An image of the pool whose cloud value is below the bound of 30. *)
Definition acceptable (w : Getdata.World) (id prop : string) (year : Z)
    (roi : EE.Geometry) (j : EE.Image) (u : Q) : Prop :=
  In j (pool w id year roi) /\ EE.properties j !! prop = Some u /\ (u < 30)%Q.

(** What a selector may answer: an acceptable image with the least cloud
    value together with its formatted date, or nothing when no image is
    acceptable. *)
Definition best_answer (w : Getdata.World) (id prop : string) (year : Z)
    (roi : EE.Geometry) (r : Reply (option (EE.Image * string))) : Prop :=
  match r with
  | Returned (Some (img, date_str)) =>
      date_str = EE.format_date (EE.time_start img) /\
      exists v, acceptable w id prop year roi img v /\
                forall j u, acceptable w id prop year roi j u -> (v <= u)%Q
  | Returned None => forall j u, ~ acceptable w id prop year roi j u
  | Raised => False
  end.

Lemma candidates_In w id prop year roi (j : EE.Image) :
  In j (Getdata.candidates w id prop year roi) <->
  exists u, acceptable w id prop year roi j u.
Proof.
  unfold Getdata.candidates, acceptable, pool. rewrite sort_In.
  unfold EE.filter_lt. rewrite List.filter_In.
  split.
  - intros [Hin Hlt]. destruct (EE.properties j !! prop) as [u|] eqn:Hu; [|discriminate].
    exists u. now rewrite <- Qltb_lt.
  - intros (u & Hin & Hu & Hlt). split; [assumption|].
    rewrite Hu. now apply Qltb_lt.
Qed.

(** The answer both selectors compute from their sorted collection. *)
Definition answer_of (coll : EE.ImageCollection) : Reply (option (EE.Image * string)) :=
  if EE.size coll =? 0 then Returned None
  else match EE.first coll with
       | Some image => Returned (Some (image, EE.format_date (EE.time_start image)))
       | None => Raised
       end.

Lemma candidates_best w id prop year roi :
  best_answer w id prop year roi (answer_of (Getdata.candidates w id prop year roi)).
Proof.
  unfold answer_of. destruct (Getdata.candidates w id prop year roi) as [|i l] eqn:Hc.
  - simpl. intros j u Hj.
    assert (In j []) as []. rewrite <- Hc. apply candidates_In. eauto.
  - replace (EE.size (i :: l) =? 0) with false
      by (symmetry; apply Z.eqb_neq; unfold EE.size; simpl length; lia).
    simpl. split; [reflexivity|].
    assert (In i (Getdata.candidates w id prop year roi)) as Hi
      by (rewrite Hc; now left).
    apply candidates_In in Hi as [v Hv]. exists v. split; [assumption|].
    intros j u Hj.
    assert (In j (Getdata.candidates w id prop year roi)) as Hjc
      by (apply candidates_In; eauto).
    unfold Getdata.candidates in Hc, Hjc. apply sort_In in Hjc.
    eapply sort_first_least; [rewrite Hc; reflexivity | exact Hjc | apply Hv | apply Hj].
Qed.

(** A selector records its query, then answers or raises; the output
    directory is not touched. *)
Lemma get_best_sentinel2_run w year roi (s : Getdata.Effects) :
  Getdata.get_best_sentinel2 w year roi s =
  ((if Getdata.getInfo_ok w Getdata.S2_COLLECTION year
    then answer_of (Getdata.candidates w Getdata.S2_COLLECTION "CLOUDY_PIXEL_PERCENTAGE" year roi)
    else Raised),
   Getdata.mkEffects (Getdata.disk s)
     (Getdata.queries s ++ [(Getdata.S2_COLLECTION, year)])).
Proof.
  unfold Getdata.get_best_sentinel2, answer_of, mbind, Getdata.M_bind, Getdata.bind,
    Getdata.query. cbv zeta.
  destruct (Getdata.getInfo_ok w Getdata.S2_COLLECTION year); [|reflexivity].
  simpl negb. cbv iota. destruct (EE.size _ =? 0); [reflexivity|].
  now destruct (EE.first _).
Qed.

Lemma get_best_landsat8_run w year roi (s : Getdata.Effects) :
  Getdata.get_best_landsat8 w year roi s =
  ((if Getdata.getInfo_ok w Getdata.L8_COLLECTION year
    then answer_of (Getdata.candidates w Getdata.L8_COLLECTION "CLOUD_COVER" year roi)
    else Raised),
   Getdata.mkEffects (Getdata.disk s)
     (Getdata.queries s ++ [(Getdata.L8_COLLECTION, year)])).
Proof.
  unfold Getdata.get_best_landsat8, answer_of, mbind, Getdata.M_bind, Getdata.bind,
    Getdata.query. cbv zeta.
  destruct (Getdata.getInfo_ok w Getdata.L8_COLLECTION year); [|reflexivity].
  simpl negb. cbv iota. destruct (EE.size _ =? 0); [reflexivity|].
  now destruct (EE.first _).
Qed.

(** C1. For every year and region, each selector, when the catalogue
    answers, returns an image of its source's pool for that year whose
    cloud value is strictly below 30 and is the least among the pool's
    images below 30, together with that image's date; it returns nothing
    exactly when no image of the pool is below 30.  When the catalogue does
    not answer, the selector raises. *)
Theorem C1_selector_picks_least_cloudy (w : Getdata.World) (year : Z)
    (roi : EE.Geometry) (s : Getdata.Effects) :
  (if Getdata.getInfo_ok w Getdata.S2_COLLECTION year
   then best_answer w Getdata.S2_COLLECTION "CLOUDY_PIXEL_PERCENTAGE" year roi
          (fst (Getdata.get_best_sentinel2 w year roi s))
   else fst (Getdata.get_best_sentinel2 w year roi s) = Raised) /\
  (if Getdata.getInfo_ok w Getdata.L8_COLLECTION year
   then best_answer w Getdata.L8_COLLECTION "CLOUD_COVER" year roi
          (fst (Getdata.get_best_landsat8 w year roi s))
   else fst (Getdata.get_best_landsat8 w year roi s) = Raised).
Proof.
  rewrite get_best_sentinel2_run, get_best_landsat8_run. simpl fst.
  split; match goal with |- if ?b then _ else _ => destruct b end;
    try reflexivity; apply candidates_best.
Qed.

(** ** C2: the fallback stops at the first source that answers *)

(** The source [main] asks first for a year: Sentinel-2 from 2015 on,
    Landsat 8 before. *)
Definition first_collection (year : Z) : string :=
  if 2015 <=? year then Getdata.S2_COLLECTION else Getdata.L8_COLLECTION.
Definition first_property (year : Z) : string :=
  if 2015 <=? year then "CLOUDY_PIXEL_PERCENTAGE" else "CLOUD_COVER".
Definition first_label (year : Z) : string :=
  if 2015 <=? year then "Sentinel-2" else "Landsat 8".

Lemma answer_of_acceptable w id prop year roi j u :
  acceptable w id prop year roi j u ->
  exists img, answer_of (Getdata.candidates w id prop year roi) =
              Returned (Some (img, EE.format_date (EE.time_start img))).
Proof.
  intros Hj. pose proof (candidates_best w id prop year roi) as H.
  destruct (answer_of _) as [[[img d]|]|]; simpl in H.
  - destruct H as [-> _]. eauto.
  - destruct (H j u Hj).
  - destruct H.
Qed.

(** C2. In a year whose first source has an image below the cloud bound
    (and answers), the selection of [main] makes exactly one catalogue
    query, to that first source, so the other source is not queried, and
    the image it selects is tagged with the first source's label. *)
Theorem C2_first_source_short_circuits (w : Getdata.World) (roi : EE.Geometry)
    (year : Z) (s : Getdata.Effects) (j : EE.Image) (u : Q)
    (Hok : Getdata.getInfo_ok w (first_collection year) year = true)
    (Hj : acceptable w (first_collection year) (first_property year) year roi j u) :
  exists sel,
    Getdata.select w roi year s =
      (Returned (Some sel),
       Getdata.mkEffects (Getdata.disk s)
         (Getdata.queries s ++ [(first_collection year, year)])) /\
    Getdata.sel_source sel = first_label year.
Proof.
  destruct (answer_of_acceptable _ _ _ _ _ _ _ Hj) as [img Himg].
  unfold first_collection, first_property, first_label in *.
  unfold Getdata.select, mbind, Getdata.M_bind, Getdata.bind, mret, Getdata.M_ret,
    Getdata.ret.
  destruct (2015 <=? year).
  - rewrite get_best_sentinel2_run, Hok, Himg. eexists. split; reflexivity.
  - rewrite get_best_landsat8_run, Hok, Himg. eexists. split; reflexivity.
Qed.

(** ** C8: the window of a year *)

Lemma dt_ltb_dec31 (t : EE.DateTime) (year : Z) :
  EE.dt_year t = year -> EE.dt_month t = 12 -> EE.dt_day t = 31 -> 0 <= EE.dt_millis t ->
  EE.dt_ltb t (EE.midnight year 12 31) = false.
Proof.
  intros Hy Hm Hd Hms. unfold EE.dt_ltb, EE.midnight. simpl.
  rewrite Hy, Hm, Hd, !Z.ltb_irrefl, !Z.eqb_refl. simpl.
  apply Z.ltb_ge. exact Hms.
Qed.

(** No image acquired on December 31 is in the pool of its year. *)
Lemma pool_misses_dec31 w id year roi (i : EE.Image) :
  EE.dt_year (EE.time_start i) = year -> EE.dt_month (EE.time_start i) = 12 ->
  EE.dt_day (EE.time_start i) = 31 -> 0 <= EE.dt_millis (EE.time_start i) ->
  ~ In i (pool w id year roi).
Proof.
  intros Hy Hm Hd Hms Hin. unfold pool, EE.filterDate in Hin.
  apply List.filter_In in Hin as [_ Hin].
  rewrite (dt_ltb_dec31 _ _ Hy Hm Hd Hms), andb_false_r in Hin. discriminate.
Qed.

(** C8, on the code: with a catalogue whose only Sentinel-2 image of 2020
    was acquired on December 31 (over the region, 5 % of cloud), the
    selector for 2020 finds nothing: the image is not in the pool. *)
Theorem C8_december_31_is_left_out :
  EE.dt_year (EE.time_start Sample.s2_dec31) = 2020 /\
  EE.intersects (EE.footprint Sample.s2_dec31) Sample.roi = true /\
  EE.properties Sample.s2_dec31 !! "CLOUDY_PIXEL_PERCENTAGE" = Some 5%Q /\
  pool Sample.world_dec31 Getdata.S2_COLLECTION 2020 Sample.roi = [] /\
  fst (Getdata.get_best_sentinel2 Sample.world_dec31 2020 Sample.roi Sample.no_effects)
    = Returned None.
Proof. repeat split; vm_compute; reflexivity. Qed.

(** The window of a year, for an instant with calendar fields in range:
    the instants of that year before December 31, 00:00. *)
Lemma window_of_year (year : Z) (t : EE.DateTime) :
  1 <= EE.dt_month t <= 12 -> 1 <= EE.dt_day t <= 31 -> 0 <= EE.dt_millis t ->
  EE.dt_leb (EE.midnight year 1 1) t && EE.dt_ltb t (EE.midnight year 12 31) = true <->
  EE.dt_year t = year /\ ~ (EE.dt_month t = 12 /\ EE.dt_day t = 31).
Proof.
  intros Hm Hd Hms. unfold EE.dt_leb, EE.dt_ltb, EE.midnight. simpl.
  rewrite andb_true_iff, negb_true_iff.
  repeat rewrite ?orb_true_iff, ?orb_false_iff, ?andb_true_iff, ?andb_false_iff,
    ?Z.ltb_lt, ?Z.ltb_ge, ?Z.eqb_eq, ?Z.eqb_neq.
  lia.
Qed.

(** ** C3: validation of a download *)

(** The body of a response that passes every check of [download_image]:
    status 200, a content type that mentions an image, bytes that Pillow
    opens and verifies. *)
Definition valid_payload (w : Getdata.World) (f : Fetch) : option (list byte) :=
  match f with
  | Transport_error => None
  | Response status_code ct content =>
      if (status_code =? 200) && Py.str_in "image" (header_or_empty ct) &&
         bool_decide (is_Some (Getdata.pil_verify w content))
      then Some content else None
  end.

(** [download_image] always returns; it writes the body under [filename]
    and answers [True] for a valid payload, and otherwise answers [False]
    and leaves everything as it was. *)
Lemma download_image_run w image roi vis filename (s : Getdata.Effects) :
  Getdata.download_image w image roi vis filename s =
  match valid_payload w (Getdata.thumb w image vis roi Getdata.IMAGE_PX) with
  | Some content =>
      (Returned true,
       Getdata.mkEffects (<[filename := Getdata.Raw content]> (Getdata.disk s))
         (Getdata.queries s))
  | None => (Returned false, s)
  end.
Proof.
  unfold Getdata.download_image, valid_payload.
  destruct (Getdata.thumb _ _ _ _ _) as [|st ct content]; [reflexivity|].
  destruct (st =? 200); simpl; [|reflexivity].
  destruct (Py.str_in _ _); simpl; [|reflexivity].
  now destruct (Getdata.pil_verify w content).
Qed.

(** The main downloader accepts a fetch exactly when the four checks
    pass, in particular not a page of HTML sent with status 200, nor bytes
    that do not decode. *)
Lemma download_image_accepts w image roi vis filename (s : Getdata.Effects) :
  fst (Getdata.download_image w image roi vis filename s) = Returned true <->
  exists status_code ct content,
    Getdata.thumb w image vis roi Getdata.IMAGE_PX = Response status_code ct content /\
    status_code = 200 /\
    Py.str_in "image" (header_or_empty ct) = true /\
    is_Some (Getdata.pil_verify w content).
Proof.
  rewrite download_image_run. unfold valid_payload. split.
  - destruct (Getdata.thumb _ _ _ _ _) as [|st ct content]; [discriminate|].
    destruct (Z.eqb_spec st 200) as [->|]; [|discriminate].
    destruct (Py.str_in _ _) eqn:Hct; [|discriminate].
    destruct (bool_decide_reflect (is_Some (Getdata.pil_verify w content)));
      [|discriminate].
    intros _. eauto 10.
  - intros (st & ct & content & -> & -> & Hct & Hv).
    rewrite Hct, (bool_decide_eq_true_2 _ Hv). reflexivity.
Qed.

Lemma download_image_rejects_html w image roi vis filename (s : Getdata.Effects) content :
  Getdata.thumb w image vis roi Getdata.IMAGE_PX = Response 200 (Some "text/html") content ->
  Getdata.download_image w image roi vis filename s = (Returned false, s).
Proof. intros H. rewrite download_image_run, H. reflexivity. Qed.

Lemma download_image_rejects_undecodable w image roi vis filename (s : Getdata.Effects)
    ct content :
  Getdata.thumb w image vis roi Getdata.IMAGE_PX = Response 200 ct content ->
  Getdata.pil_verify w content = None ->
  Getdata.download_image w image roi vis filename s = (Returned false, s).
Proof.
  intros H Hv. rewrite download_image_run, H. unfold valid_payload.
  rewrite Hv, bool_decide_eq_false_2 by (intros [? ?]; discriminate).
  now rewrite andb_false_r.
Qed.

(** C3, on the code: the download loop of the analysis script accepts a
    response with status 200 and content type [text/html].  The page is
    written as [sentinel2_20200105.png] and listed among the images. *)
Theorem C3_analysis_download_accepts_html :
  Analysis.download_sentinel2_step
    (Response 200 (Some "text/html") Sample.html) "2020-01-05" 1578182400000 [] ∅ =
  (Returned [Analysis.mkInfo (Some "2020-01-05") (Some 1578182400000)
               "sentinel2_20200105.png" "Sentinel-2" None None None None],
   {[ "sentinel2_20200105.png" := Analysis.Raw Sample.html ]}).
Proof. reflexivity. Qed.

(** ** The loop over the years *)

(** The selection of a year and the queries it makes depend on the
    catalogue only. *)
Definition select_reply (w : Getdata.World) (roi : EE.Geometry) (year : Z)
  : Reply (option Getdata.Selection) :=
  fst (Getdata.select w roi year (Getdata.mkEffects ∅ [])).

Definition select_asked (w : Getdata.World) (roi : EE.Geometry) (year : Z)
  : list (string * Z) :=
  Getdata.queries (snd (Getdata.select w roi year (Getdata.mkEffects ∅ []))).

Lemma select_run w roi year (s : Getdata.Effects) :
  Getdata.select w roi year s =
  (select_reply w roi year,
   Getdata.mkEffects (Getdata.disk s) (Getdata.queries s ++ select_asked w roi year)).
Proof.
  unfold select_reply, select_asked, Getdata.select, mbind, Getdata.M_bind, Getdata.bind,
    mret, Getdata.M_ret, Getdata.ret.
  destruct (2015 <=? year).
  - rewrite !get_best_sentinel2_run.
    destruct (Getdata.getInfo_ok w Getdata.S2_COLLECTION year); [|reflexivity].
    destruct (answer_of _) as [[[img d]|]|]; try reflexivity.
    rewrite !get_best_landsat8_run.
    destruct (Getdata.getInfo_ok w Getdata.L8_COLLECTION year);
      [destruct (answer_of _) as [[[img d]|]|]|]; simpl; now rewrite <- app_assoc.
  - rewrite !get_best_landsat8_run.
    destruct (Getdata.getInfo_ok w Getdata.L8_COLLECTION year);
      [destruct (answer_of _) as [[[img d]|]|]|]; reflexivity.
Qed.

(** The entry [main] appends for a selection. *)
Definition entry_of (sel : Getdata.Selection) : Getdata.Entry :=
  Getdata.mkEntry (Getdata.sel_date sel) (Getdata.sel_filename sel)
    (Getdata.sel_filename sel) (Getdata.sel_source sel) Getdata.IMAGE_PX Getdata.IMAGE_PX.

(** What a year comes to: an exception out of the catalogue, a skipped
    year, or an accepted entry and the bytes stored under its file name. *)
Definition year_outcome (w : Getdata.World) (roi : EE.Geometry) (year : Z)
  : Reply (option (Getdata.Entry * list byte)) :=
  match select_reply w roi year with
  | Raised => Raised
  | Returned None => Returned None
  | Returned (Some sel) =>
      match valid_payload w
              (Getdata.thumb w (Getdata.sel_image sel) (Getdata.sel_vis sel) roi
                 Getdata.IMAGE_PX) with
      | Some content => Returned (Some (entry_of sel, content))
      | None => Returned None
      end
  end.

Definition skip (l : Getdata.Lists) (year : Z) : Getdata.Lists :=
  Getdata.mkLists (Getdata.images_info l) (Getdata.failed_years l ++ [year]).
Definition accept (l : Getdata.Lists) (e : Getdata.Entry) : Getdata.Lists :=
  Getdata.mkLists (Getdata.images_info l ++ [e]) (Getdata.failed_years l).

Lemma year_body_run w roi year l (s : Getdata.Effects) :
  Getdata.year_body w roi year l s =
  match year_outcome w roi year with
  | Raised =>
      (Raised, Getdata.mkEffects (Getdata.disk s)
                 (Getdata.queries s ++ select_asked w roi year))
  | Returned None =>
      (Returned (skip l year),
       Getdata.mkEffects (Getdata.disk s) (Getdata.queries s ++ select_asked w roi year))
  | Returned (Some (e, content)) =>
      (Returned (accept l e),
       Getdata.mkEffects (<[Getdata.filename e := Getdata.Raw content]> (Getdata.disk s))
         (Getdata.queries s ++ select_asked w roi year))
  end.
Proof.
  unfold Getdata.year_body, year_outcome, mbind, Getdata.M_bind, Getdata.bind.
  rewrite select_run. destruct (select_reply w roi year) as [[sel|]|]; try reflexivity.
  rewrite download_image_run.
  destruct (valid_payload _ _); reflexivity.
Qed.

(** The loop as a function of the catalogue: lists, files and queries. *)
Fixpoint years_reply (w : Getdata.World) (roi : EE.Geometry) (years : list Z)
    (l : Getdata.Lists) : Reply Getdata.Lists :=
  match years with
  | [] => Returned l
  | year :: rest =>
      match year_outcome w roi year with
      | Raised => Raised
      | Returned None => years_reply w roi rest (skip l year)
      | Returned (Some (e, _)) => years_reply w roi rest (accept l e)
      end
  end.

Fixpoint years_files (w : Getdata.World) (roi : EE.Geometry) (years : list Z)
  : gmap string Getdata.File :=
  match years with
  | [] => ∅
  | year :: rest =>
      match year_outcome w roi year with
      | Raised => ∅
      | Returned None => years_files w roi rest
      | Returned (Some (e, content)) =>
          years_files w roi rest ∪ {[ Getdata.filename e := Getdata.Raw content ]}
      end
  end.

Fixpoint years_asked (w : Getdata.World) (roi : EE.Geometry) (years : list Z)
  : list (string * Z) :=
  match years with
  | [] => []
  | year :: rest =>
      select_asked w roi year ++
      match year_outcome w roi year with
      | Raised => []
      | Returned _ => years_asked w roi rest
      end
  end.

Lemma for_years_run w roi years : forall l (s : Getdata.Effects),
  Getdata.for_years w roi years l s =
  (years_reply w roi years l,
   Getdata.mkEffects (years_files w roi years ∪ Getdata.disk s)
     (Getdata.queries s ++ years_asked w roi years)).
Proof.
  induction years as [|year rest IH]; intros l s.
  - simpl. unfold Getdata.ret. destruct s as [d q]. simpl.
    now rewrite (left_id_L ∅ (∪)), app_nil_r.
  - simpl. unfold mbind, Getdata.M_bind, Getdata.bind. rewrite year_body_run.
    destruct (year_outcome w roi year) as [[[e content]|]|].
    + rewrite IH. simpl. f_equal. f_equal.
      * now rewrite insert_union_singleton_l, (assoc_L (∪)).
      * now rewrite <- app_assoc.
    + rewrite IH. simpl. now rewrite <- app_assoc.
    + simpl. now rewrite (left_id_L ∅ (∪)), app_nil_r.
Qed.

(** The entry of an accepted year. *)
Definition year_entry (w : Getdata.World) (roi : EE.Geometry) (year : Z)
  : option Getdata.Entry :=
  match year_outcome w roi year with
  | Returned (Some (e, _)) => Some e
  | _ => None
  end.

Definition year_skipped (w : Getdata.World) (roi : EE.Geometry) (year : Z) : bool :=
  match year_entry w roi year with Some _ => false | None => true end.

(** While the catalogue answers, the loop goes through all its years:
    the accepted entries and the skipped years, each in the order of the
    years, are added to the lists. *)
Lemma years_reply_total w roi years : forall l,
  (forall year, In year years -> year_outcome w roi year <> Raised) ->
  years_reply w roi years l =
  Returned (Getdata.mkLists
              (Getdata.images_info l ++ omap (year_entry w roi) years)
              (Getdata.failed_years l ++ List.filter (year_skipped w roi) years)).
Proof.
  induction years as [|year rest IH]; intros l Hok.
  - simpl. destruct l. simpl. now rewrite !app_nil_r.
  - assert (year_outcome w roi year <> Raised) as Hy by (apply Hok; now left).
    simpl. unfold year_skipped, year_entry.
    destruct (year_outcome w roi year) as [[[e content]|]|]; [| |congruence].
    + rewrite IH by (intros; apply Hok; now right). simpl.
      now rewrite <- app_assoc.
    + rewrite IH by (intros; apply Hok; now right). simpl.
      now rewrite <- app_assoc.
Qed.

(** The configuration [write_viewer_config] builds. *)
Definition config_of (w : Getdata.World) (images_info : list Getdata.Entry)
  : Getdata.Config :=
  let sorted := Getdata.by_date images_info in
  Getdata.mkConfig Getdata.TARAIA sorted (Getdata.now w) (Z.of_nat (length sorted))
    (match Py.first_item sorted with Some e => Getdata.date e | None => "unknown" end)
    (match Py.last_item sorted with Some e => Getdata.date e | None => "unknown" end).

Lemma write_viewer_config_run w images_info (s : Getdata.Effects) :
  Getdata.write_viewer_config w images_info s =
  (Returned (config_of w images_info),
   Getdata.mkEffects
     (<["viewer_config.json" := Getdata.Json (config_of w images_info)]> (Getdata.disk s))
     (Getdata.queries s)).
Proof. reflexivity. Qed.

Definition main_reply (w : Getdata.World) (roi : EE.Geometry) : Reply Getdata.Summary :=
  match years_reply w roi Getdata.YEARS (Getdata.mkLists [] []) with
  | Raised => Raised
  | Returned l =>
      match Getdata.images_info l with
      | [] => Returned (Getdata.mkSummary [] (Getdata.failed_years l) None)
      | _ :: _ =>
          let c := config_of w (Getdata.images_info l) in
          Returned (Getdata.mkSummary (Getdata.images c) (Getdata.failed_years l) (Some c))
      end
  end.

Definition main_files (w : Getdata.World) (roi : EE.Geometry) : gmap string Getdata.File :=
  match years_reply w roi Getdata.YEARS (Getdata.mkLists [] []) with
  | Raised => years_files w roi Getdata.YEARS
  | Returned l =>
      match Getdata.images_info l with
      | [] => years_files w roi Getdata.YEARS
      | _ :: _ =>
          <["viewer_config.json" := Getdata.Json (config_of w (Getdata.images_info l))]>
            (years_files w roi Getdata.YEARS)
      end
  end.

Lemma main_run w roi (s : Getdata.Effects) :
  Getdata.main w roi s =
  (main_reply w roi,
   Getdata.mkEffects (main_files w roi ∪ Getdata.disk s)
     (Getdata.queries s ++ years_asked w roi Getdata.YEARS)).
Proof.
  unfold Getdata.main, main_reply, main_files, mbind, Getdata.M_bind, Getdata.bind.
  rewrite for_years_run.
  destruct (years_reply w roi Getdata.YEARS _) as [l|]; [|reflexivity].
  destruct (Getdata.images_info l) as [|e es] eqn:Hl; [reflexivity|].
  rewrite write_viewer_config_run. cbn [Getdata.disk Getdata.queries].
  rewrite insert_union_l. reflexivity.
Qed.

(** ** C5: a failed year is skipped *)

(** No source that [main] asks for the year has an image below the cloud
    bound: Sentinel-2 is asked from 2015 on, Landsat 8 always. *)
Definition no_coverage (w : Getdata.World) (roi : EE.Geometry) (year : Z) : Prop :=
  (2015 <= year ->
   forall j u, ~ acceptable w Getdata.S2_COLLECTION "CLOUDY_PIXEL_PERCENTAGE" year roi j u) /\
  (forall j u, ~ acceptable w Getdata.L8_COLLECTION "CLOUD_COVER" year roi j u).

(** An image is selected and its download is rejected. *)
Definition download_fails (w : Getdata.World) (roi : EE.Geometry) (year : Z) : Prop :=
  exists sel,
    select_reply w roi year = Returned (Some sel) /\
    fst (Getdata.download_image w (Getdata.sel_image sel) roi (Getdata.sel_vis sel)
           (Getdata.sel_filename sel) (Getdata.mkEffects ∅ [])) = Returned false.

Section Answering.
Context (w : Getdata.World) (roi : EE.Geometry).
Hypothesis Hok : forall id year, Getdata.getInfo_ok w id year = true.

Lemma select_reply_cases (year : Z) :
  match select_reply w roi year with
  | Returned (Some _) => ~ no_coverage w roi year
  | Returned None => no_coverage w roi year
  | Raised => False
  end.
Proof.
  unfold select_reply, Getdata.select, mbind, Getdata.M_bind, Getdata.bind,
    mret, Getdata.M_ret, Getdata.ret, no_coverage.
  pose proof (candidates_best w Getdata.S2_COLLECTION "CLOUDY_PIXEL_PERCENTAGE" year roi)
    as Hs2.
  pose proof (candidates_best w Getdata.L8_COLLECTION "CLOUD_COVER" year roi) as Hl8.
  destruct (Z.leb_spec 2015 year) as [Hy|Hy].
  - rewrite get_best_sentinel2_run, Hok.
    destruct (answer_of _) as [[[img d]|]|]; simpl in Hs2.
    + simpl. intros [Hno _]. destruct Hs2 as (_ & v & Hv & _). exact (Hno Hy _ _ Hv).
    + rewrite get_best_landsat8_run, Hok.
      destruct (answer_of _) as [[[img d]|]|]; simpl in Hl8; simpl.
      * intros [_ Hno]. destruct Hl8 as (_ & v & Hv & _). exact (Hno _ _ Hv).
      * split; auto.
      * exact Hl8.
    + exact Hs2.
  - clear Hs2. rewrite get_best_landsat8_run, Hok.
    destruct (answer_of _) as [[[img d]|]|]; simpl in Hl8; simpl.
    + intros [_ Hno]. destruct Hl8 as (_ & v & Hv & _). exact (Hno _ _ Hv).
    + split; [lia|auto].
    + exact Hl8.
Qed.

Lemma year_outcome_returns (year : Z) : year_outcome w roi year <> Raised.
Proof.
  pose proof (select_reply_cases year) as H. unfold year_outcome.
  destruct (select_reply w roi year) as [[sel|]|]; [|congruence|destruct H].
  destruct (valid_payload _ _); congruence.
Qed.

Lemma year_skipped_iff (year : Z) :
  year_skipped w roi year = true <-> no_coverage w roi year \/ download_fails w roi year.
Proof.
  pose proof (select_reply_cases year) as H.
  unfold year_skipped, year_entry, year_outcome, download_fails.
  destruct (select_reply w roi year) as [[sel|]|]; [| |destruct H].
  - split.
    + destruct (valid_payload _ _) eqn:Hv; [discriminate|]. intros _.
      right. exists sel. split; [reflexivity|].
      now rewrite download_image_run, Hv.
    + intros [Hno|(sel' & [= <-] & Hd)]; [contradiction|].
      rewrite download_image_run in Hd.
      destruct (valid_payload _ _); [discriminate|reflexivity].
  - split; [auto|reflexivity].
Qed.
End Answering.

(** C5. While the catalogue answers: a year is skipped exactly when no
    source asked for it has an image below the cloud bound or when the
    download of the selected image is rejected; the iteration of such a
    year returns, appends the year to [failed_years] and leaves the accepted
    entries and the output directory as they were; and [main] returns with
    the skipped years in order and with the entries of all the other years,
    each entry being a function of its own year. *)
Theorem C5_failed_year_is_skipped (w : Getdata.World) (roi : EE.Geometry)
    (Hok : forall id year, Getdata.getInfo_ok w id year = true) :
  (forall year,
     year_skipped w roi year = true <-> no_coverage w roi year \/ download_fails w roi year) /\
  (forall year l s,
     year_skipped w roi year = true ->
     exists s',
       Getdata.year_body w roi year l s =
         (Returned (Getdata.mkLists (Getdata.images_info l)
                      (Getdata.failed_years l ++ [year])), s') /\
       Getdata.disk s' = Getdata.disk s) /\
  (forall s, exists r s',
     Getdata.main w roi s = (Returned r, s') /\
     Getdata.skipped r = List.filter (year_skipped w roi) Getdata.YEARS /\
     Getdata.accepted r = Getdata.by_date (omap (year_entry w roi) Getdata.YEARS)).
Proof.
  split; [|split].
  - intros year. now apply year_skipped_iff.
  - intros year l s Hskip. rewrite year_body_run.
    pose proof (year_outcome_returns w roi Hok year) as Hret.
    unfold year_skipped, year_entry in Hskip.
    destruct (year_outcome w roi year) as [[[e content]|]|];
      [discriminate| |congruence].
    eexists. split; reflexivity.
  - intros s. rewrite main_run. unfold main_reply.
    rewrite years_reply_total by (intros; now apply year_outcome_returns).
    cbn [Getdata.images_info Getdata.failed_years app].
    destruct (omap (year_entry w roi) Getdata.YEARS) as [|e es] eqn:He.
    + eexists _, _. split; [reflexivity|]. split; reflexivity.
    + eexists _, _. split; [reflexivity|]. split; reflexivity.
Qed.

(** ** C10: the entries of the main downloader *)

(** The label, the file name and the rendering of a selection go
    together, and the file name is made of the source and the year. *)
Lemma select_reply_names w roi year :
  match select_reply w roi year with
  | Returned (Some sel) =>
      (Getdata.sel_source sel = "Sentinel-2" /\
       Getdata.sel_filename sel = "sentinel2_" +:+ Py.str_of_int year +:+ ".png" /\
       Getdata.sel_vis sel = Getdata.S2_VIS) \/
      (Getdata.sel_source sel = "Landsat 8" /\
       Getdata.sel_filename sel = "landsat8_" +:+ Py.str_of_int year +:+ ".png" /\
       Getdata.sel_vis sel = Getdata.L8_VIS)
  | _ => True
  end.
Proof.
  unfold select_reply, Getdata.select, mbind, Getdata.M_bind, Getdata.bind,
    mret, Getdata.M_ret, Getdata.ret.
  destruct (2015 <=? year).
  - rewrite get_best_sentinel2_run.
    destruct (Getdata.getInfo_ok w Getdata.S2_COLLECTION year); [|exact I].
    destruct (answer_of _) as [[[img d]|]|]; simpl; auto.
    rewrite get_best_landsat8_run.
    destruct (Getdata.getInfo_ok w Getdata.L8_COLLECTION year); [|exact I].
    destruct (answer_of _) as [[[img d]|]|]; simpl; auto.
  - rewrite get_best_landsat8_run.
    destruct (Getdata.getInfo_ok w Getdata.L8_COLLECTION year); [|exact I].
    destruct (answer_of _) as [[[img d]|]|]; simpl; auto.
Qed.

(** What an entry of the main downloader looks like. *)
Definition plain_entry (e : Getdata.Entry) : Prop :=
  Getdata.aligned_filename e = Getdata.filename e /\
  Getdata.width e = 1024 /\ Getdata.height e = 1024.

(** A name the loop may write under. *)
Definition image_name (name : string) : Prop :=
  exists year, name = "sentinel2_" +:+ Py.str_of_int year +:+ ".png" \/
               name = "landsat8_" +:+ Py.str_of_int year +:+ ".png".

Lemma year_outcome_entry w roi year e content :
  year_outcome w roi year = Returned (Some (e, content)) ->
  plain_entry e /\ image_name (Getdata.filename e).
Proof.
  unfold year_outcome. pose proof (select_reply_names w roi year) as Hn.
  destruct (select_reply w roi year) as [[sel|]|]; try discriminate.
  destruct (valid_payload _ _); [|discriminate].
  intros [= <- _]. split; [repeat split|].
  exists year. simpl. destruct Hn as [(_ & -> & _)|(_ & -> & _)]; auto.
Qed.

Lemma years_reply_plain w roi years : forall l l',
  Forall plain_entry (Getdata.images_info l) ->
  years_reply w roi years l = Returned l' ->
  Forall plain_entry (Getdata.images_info l').
Proof.
  induction years as [|year rest IH]; intros l l' Hl; simpl.
  - now intros [= <-].
  - destruct (year_outcome w roi year) as [[[e content]|]|] eqn:Hy; [| |discriminate].
    + apply IH. simpl. apply Forall_app. split; [assumption|].
      constructor; [|constructor]. now apply year_outcome_entry in Hy.
    + now apply IH.
Qed.

Lemma years_files_names w roi years name :
  is_Some (years_files w roi years !! name) -> image_name name.
Proof.
  induction years as [|year rest IH]; simpl.
  - rewrite lookup_empty. intros [? ?]. discriminate.
  - destruct (year_outcome w roi year) as [[[e content]|]|] eqn:Hy; auto.
    + rewrite lookup_union_is_Some, lookup_singleton_is_Some.
      intros [H| <-]; [auto|]. now apply year_outcome_entry in Hy.
    + rewrite lookup_empty. intros [? ?]. discriminate.
Qed.

Lemma image_name_not_aligned name :
  image_name name -> String.prefix "aligned_" name = false.
Proof. intros [year [-> | ->]]; reflexivity. Qed.

Lemma main_files_names w roi name :
  is_Some (main_files w roi !! name) ->
  image_name name \/ name = "viewer_config.json".
Proof.
  unfold main_files.
  destruct (years_reply w roi Getdata.YEARS _) as [l|];
    [destruct (Getdata.images_info l)|]; cbv beta iota;
    try (intros H; left; now apply years_files_names in H).
  rewrite lookup_insert_is_Some'. intros [<-|H]; [now right|].
  left. now apply years_files_names in H.
Qed.

(** C10. When [main] returns, every entry it accepted has
    [aligned_filename] equal to [filename] and width and height 1024,
    whatever size Pillow found in the downloaded bytes, and the run wrote no
    file whose name starts with [aligned_]. *)
Theorem C10_entries_are_plain (w : Getdata.World) (roi : EE.Geometry)
    (s s' : Getdata.Effects) (r : Getdata.Summary)
    (Hmain : Getdata.main w roi s = (Returned r, s')) :
  Forall (fun e => Getdata.aligned_filename e = Getdata.filename e /\
                   Getdata.width e = Getdata.IMAGE_PX /\
                   Getdata.height e = Getdata.IMAGE_PX /\
                   Getdata.IMAGE_PX = 1024) (Getdata.accepted r) /\
  (forall name, String.prefix "aligned_" name = true ->
                Getdata.disk s' !! name = Getdata.disk s !! name).
Proof.
  rewrite main_run in Hmain. injection Hmain as Hr <-. split.
  - assert (Forall plain_entry (Getdata.accepted r)) as Hplain.
    { unfold main_reply in Hr.
      destruct (years_reply w roi Getdata.YEARS _) as [l|] eqn:Hl; [|discriminate].
      apply years_reply_plain in Hl; [|constructor].
      destruct (Getdata.images_info l) as [|e es]; injection Hr as <-;
        [constructor|].
      change (Forall plain_entry (Getdata.by_date (e :: es))).
      eapply Permutation_Forall; [|exact Hl].
      symmetry. apply sort_by_Permutation. }
    eapply Forall_impl; [exact Hplain|].
    intros e (Ha & Hw & Hh). unfold Getdata.IMAGE_PX. auto.
  - intros name Hname. cbn [Getdata.disk].
    apply lookup_union_r.
    destruct (main_files w roi !! name) eqn:Hf; [|reflexivity].
    destruct (main_files_names w roi name) as [Hi| ->]; [eauto| |discriminate].
    apply image_name_not_aligned in Hi. congruence.
Qed.

(** ** C9: fetching again *)

(** The same world at another time of the clock. *)
Definition at_time (w : Getdata.World) (t : string) : Getdata.World :=
  Getdata.mkWorld (Getdata.collection w) (Getdata.getInfo_ok w) (Getdata.thumb w)
    (Getdata.pil_verify w) t.

(** The file name [main] builds for a source label and a year. *)
Definition file_name (label : string) (year : Z) : string :=
  (if String.eqb label "Sentinel-2" then "sentinel2_" else "landsat8_")
  +:+ Py.str_of_int year +:+ ".png".

Lemma year_outcome_at_time w t roi year :
  year_outcome (at_time w t) roi year = year_outcome w roi year.
Proof. reflexivity. Qed.

Lemma years_reply_at_time w t roi years : forall l,
  years_reply (at_time w t) roi years l = years_reply w roi years l.
Proof.
  induction years as [|year rest IH]; intros l; [reflexivity|].
  simpl. rewrite year_outcome_at_time.
  destruct (year_outcome w roi year) as [[[e content]|]|]; auto.
Qed.

Lemma years_files_at_time w t roi years :
  years_files (at_time w t) roi years = years_files w roi years.
Proof.
  induction years as [|year rest IH]; [reflexivity|].
  simpl. rewrite year_outcome_at_time, IH. reflexivity.
Qed.

(** The files of a run are those of the loop, and the manifest when an
    image was accepted; the clock only shows in the manifest. *)
Lemma main_files_at_time w t roi :
  dom (main_files (at_time w t) roi) = dom (main_files w roi) /\
  delete "viewer_config.json" (main_files (at_time w t) roi) =
  delete "viewer_config.json" (main_files w roi).
Proof.
  unfold main_files. rewrite years_reply_at_time, years_files_at_time.
  destruct (years_reply w roi Getdata.YEARS _) as [l|]; [|split; reflexivity].
  destruct (Getdata.images_info l); [split; reflexivity|]. cbv beta iota. split.
  - now rewrite !dom_insert_L.
  - now rewrite !delete_insert_eq.
Qed.

(** C9. A fetch that is accepted stores the body of the response under
    the given file name.  Fetching the image again under the same file name
    returns the same answer and leaves the output directory exactly as the
    first fetch left it: after the second accepted fetch the file of that
    name still holds the body, no other file has changed since before the
    first fetch, and a fetch that is rejected twice has written nothing.
    The file name of a selection is made of its source label and its year;
    and a second run, at any later time of the clock, ends with the same set
    of files as the first run ended with, all of them but the manifest with
    the same content. *)
Theorem C9_refetch_overwrites (w : Getdata.World) (roi : EE.Geometry) :
  (forall image vis filename s,
     let s1 := snd (Getdata.download_image w image roi vis filename s) in
     let s2 := snd (Getdata.download_image w image roi vis filename s1) in
     Getdata.download_image w image roi vis filename s1 =
     (fst (Getdata.download_image w image roi vis filename s), s1) /\
     match fst (Getdata.download_image w image roi vis filename s) with
     | Returned true =>
         exists status_code ct content,
           Getdata.thumb w image vis roi Getdata.IMAGE_PX =
             Response status_code ct content /\
           Getdata.disk s1 !! filename = Some (Getdata.Raw content) /\
           Getdata.disk s2 !! filename = Some (Getdata.Raw content) /\
           delete filename (Getdata.disk s2) = delete filename (Getdata.disk s)
     | Returned false => s1 = s /\ s2 = s
     | Raised => False
     end) /\
  (forall year s,
     match fst (Getdata.select w roi year s) with
     | Returned (Some sel) =>
         Getdata.sel_filename sel = file_name (Getdata.sel_source sel) year
     | _ => True
     end) /\
  (forall s t,
     let s1 := snd (Getdata.main w roi s) in
     let s2 := snd (Getdata.main (at_time w t) roi s1) in
     dom (Getdata.disk s2) = dom (Getdata.disk s1) /\
     delete "viewer_config.json" (Getdata.disk s2) =
     delete "viewer_config.json" (Getdata.disk s1)).
Proof.
  split; [|split].
  - intros image vis filename s. cbv zeta. rewrite !download_image_run.
    unfold valid_payload.
    destruct (Getdata.thumb w image vis roi Getdata.IMAGE_PX) as [|st ct content];
      [repeat split|].
    destruct (_ && _ && _); [|repeat split].
    cbn [fst snd Getdata.disk Getdata.queries]. rewrite insert_insert_eq.
    split; [reflexivity|]. exists st, ct, content.
    split; [reflexivity|]. split; [apply lookup_insert_eq|].
    split; [apply lookup_insert_eq|apply delete_insert_eq].
  - intros year s. rewrite select_run. cbn [fst].
    pose proof (select_reply_names w roi year) as Hn.
    destruct (select_reply w roi year) as [[sel|]|]; auto.
    destruct Hn as [(-> & -> & _)|(-> & -> & _)]; reflexivity.
  - intros s t. cbv zeta. rewrite !main_run. cbn [snd Getdata.disk].
    destruct (main_files_at_time w t roi) as [Hdom Hdel]. split.
    + rewrite !dom_union_L, Hdom, (assoc_L (∪)), (idemp_L (∪)). reflexivity.
    + rewrite !delete_union, Hdel, (assoc_L (∪)), (idemp_L (∪)). reflexivity.
Qed.

(** ** C4 and C7: the two manifest writers *)

(** Ascending by date: the date of a later entry is not smaller. *)
Definition date_ascending (l : list Getdata.Entry) : Prop :=
  StronglySorted (fun a b => String.ltb (Getdata.date b) (Getdata.date a) = false) l.

Definition dated (d : string) (e : Getdata.Entry) : bool :=
  String.eqb (Getdata.date e) d.

Lemma by_date_ascending (l : list Getdata.Entry) : date_ascending (Getdata.by_date l).
Proof.
  apply (sort_by_StronglySorted String.ltb Getdata.date).
  - apply string_ltb_asym.
  - apply string_geb_trans.
Qed.

Lemma by_date_stable (d : string) (l : list Getdata.Entry) :
  List.filter (dated d) (Getdata.by_date l) = List.filter (dated d) l.
Proof.
  apply sort_by_stable. unfold dated. intros x y Hx Hy.
  apply String.eqb_eq in Hx, Hy. rewrite Hx, Hy. apply string_ltb_irrefl.
Qed.

#[global] Instance Key_eq_dec : EqDecision Analysis.Key.
Proof. solve_decision. Defined.

(** The order of two keys of one kind. *)
Definition key_le (a b : Analysis.Key) : Prop :=
  match a, b with
  | Analysis.KInt m, Analysis.KInt n => m <= n
  | Analysis.KStr s, Analysis.KStr t => String.ltb t s = false
  | _, _ => False
  end.

Definition key_ascending (l : list Analysis.Info) : Prop :=
  StronglySorted (fun a b => key_le (Analysis.sort_key a) (Analysis.sort_key b)) l.

Definition keyed (k : Analysis.Key) (x : Analysis.Info) : bool :=
  bool_decide (Analysis.sort_key x = k).

Lemma analysis_key_ltb_irrefl (k : Analysis.Key) : Analysis.key_ltb k k = false.
Proof. destruct k; simpl; [apply Z.ltb_irrefl | apply string_ltb_irrefl]. Qed.

Lemma analysis_key_ltb_asym (a b : Analysis.Key) :
  Analysis.key_ltb a b = true -> Analysis.key_ltb b a = false.
Proof.
  destruct a, b; simpl; try congruence.
  - rewrite Z.ltb_lt, Z.ltb_ge. lia.
  - apply string_ltb_asym.
Qed.

Lemma same_kind_sym (a b : Analysis.Key) :
  Analysis.same_kind a b = Analysis.same_kind b a.
Proof. now destruct a, b. Qed.

Lemma same_kind_trans (a b c : Analysis.Key) :
  Analysis.same_kind a b = true -> Analysis.same_kind b c = true ->
  Analysis.same_kind a c = true.
Proof. now destruct a, b, c. Qed.

Lemma key_le_of_not_ltb (a b : Analysis.Key) :
  Analysis.same_kind a b = true -> Analysis.key_ltb b a = false -> key_le a b.
Proof.
  destruct a, b; simpl; try congruence.
  intros _. rewrite Z.ltb_ge. lia.
Qed.

Lemma key_le_trans (a b c : Analysis.Key) : key_le a b -> key_le b c -> key_le a c.
Proof.
  destruct a, b, c; simpl; try tauto; try lia.
  apply string_geb_trans.
Qed.

(** All the keys of a comparable list are of the kind of its first one. *)
Lemma comparable_same_kind (l : list Analysis.Info) (x y : Analysis.Info) :
  Analysis.comparable l = true -> In x l -> In y l ->
  Analysis.same_kind (Analysis.sort_key x) (Analysis.sort_key y) = true.
Proof.
  destruct l as [|z l]; [intros _ []|]. simpl. rewrite forallb_forall. intros Hall.
  assert (forall u, In u (z :: l) ->
            Analysis.same_kind (Analysis.sort_key z) (Analysis.sort_key u) = true) as Hz.
  { intros u [<-|Hu]; [now destruct (Analysis.sort_key z)|now apply Hall]. }
  intros Hx Hy. apply same_kind_trans with (Analysis.sort_key z).
  - rewrite same_kind_sym. now apply Hz.
  - now apply Hz.
Qed.

Lemma sort_images_ascending (l sorted : list Analysis.Info) :
  Analysis.sort_images l = Returned sorted -> key_ascending sorted.
Proof.
  unfold Analysis.sort_images. destruct (Analysis.comparable l) eqn:Hc; [|discriminate].
  intros [= <-].
  pose proof (sort_by_Sorted Analysis.key_ltb Analysis.sort_key analysis_key_ltb_asym l) as Hs.
  assert (forall x y, In x (Py.sort_by Analysis.key_ltb Analysis.sort_key l) ->
                      In y (Py.sort_by Analysis.key_ltb Analysis.sort_key l) ->
            Analysis.same_kind (Analysis.sort_key x) (Analysis.sort_key y) = true) as Hk.
  { intros x y Hx Hy.
    apply (comparable_same_kind l); [assumption| |];
      eapply Permutation_in; try eassumption; apply sort_by_Permutation. }
  unfold key_ascending.
  induction Hs as [|x s Hs IH Hhd]; [constructor|].
  assert (StronglySorted
            (fun a b => key_le (Analysis.sort_key a) (Analysis.sort_key b)) s) as Hss
    by (apply IH; intros; apply Hk; now right).
  constructor; [assumption|].
  destruct Hhd as [|y s' Hxy]; [constructor|].
  assert (key_le (Analysis.sort_key x) (Analysis.sort_key y)) as Hle
    by (apply key_le_of_not_ltb; [apply Hk; simpl; auto|exact Hxy]).
  constructor; [assumption|].
  apply StronglySorted_inv in Hss as [_ Hall].
  eapply List.Forall_impl; [|exact Hall].
  intros z Hz. now apply key_le_trans with (Analysis.sort_key y).
Qed.

Lemma sort_images_stable (k : Analysis.Key) (l sorted : list Analysis.Info) :
  Analysis.sort_images l = Returned sorted ->
  List.filter (keyed k) sorted = List.filter (keyed k) l.
Proof.
  unfold Analysis.sort_images. destruct (Analysis.comparable l); [|discriminate].
  intros [= <-]. apply sort_by_stable. unfold keyed. intros x y Hx Hy.
  apply bool_decide_eq_true in Hx, Hy. rewrite Hx, Hy. apply analysis_key_ltb_irrefl.
Qed.

Lemma sort_images_Permutation (l sorted : list Analysis.Info) :
  Analysis.sort_images l = Returned sorted -> Permutation sorted l.
Proof.
  unfold Analysis.sort_images. destruct (Analysis.comparable l); [|discriminate].
  intros [= <-]. apply sort_by_Permutation.
Qed.

(** The second writer returns for a non-empty list of comparable keys. *)
Lemma create_viewer_config_returns now (l : list Analysis.Info) d :
  l <> [] -> Analysis.comparable l = true ->
  exists c, Analysis.create_viewer_config now l d =
            (Returned c, <["viewer_config.json" := Analysis.Json c]> d).
Proof.
  intros Hne Hc. unfold Analysis.create_viewer_config, Analysis.sort_images.
  rewrite Hc.
  destruct (Py.sort_by Analysis.key_ltb Analysis.sort_key l) as [|a s] eqn:Hs.
  - apply sort_by_nil_inv in Hs. contradiction.
  - unfold Py.first_item, Py.last_item. simpl head.
    destruct (last_is_Some (a :: s)) as [_ [b Hb]]; [discriminate|]. 
    rewrite Hb. eexists. reflexivity.
Qed.

Definition on_date (d : string) (x : Analysis.Info) : bool :=
  bool_decide (Analysis.date x = Some d).

(** C4, as the code has it. [write_viewer_config] returns a manifest whose
    images are the input entries sorted ascending by date, entries of equal
    date in their input order, with [date_range] the dates of the first and
    last image.  [create_viewer_config], when it returns, does the same with
    its own key: the timestamp when there is one that is not zero, the date
    otherwise (the empty string for a missing date); images of equal key keep
    their input order, and [date_range] holds the dates of the first and last
    image, ["unknown"] for a missing date.  It returns for every non-empty
    list whose keys can be compared.  Both put the dates 2016-03-01,
    2013-07-10, 2020-11-05 in the order 2013-07-10, 2016-03-01, 2020-11-05
    with start 2013-07-10 and end 2020-11-05. *)
Theorem C4_manifest_sorted_by_key :
  (forall w images_info s,
     exists c,
       Getdata.write_viewer_config w images_info s =
         (Returned c,
          Getdata.mkEffects (<["viewer_config.json" := Getdata.Json c]> (Getdata.disk s))
            (Getdata.queries s)) /\
       Permutation (Getdata.images c) images_info /\
       date_ascending (Getdata.images c) /\
       (forall d, List.filter (dated d) (Getdata.images c) = List.filter (dated d) images_info) /\
       Getdata.date_range_start c =
         match head (Getdata.images c) with Some e => Getdata.date e | None => "unknown" end /\
       Getdata.date_range_end c =
         match last (Getdata.images c) with Some e => Getdata.date e | None => "unknown" end) /\
  (forall now l d c d',
     Analysis.create_viewer_config now l d = (Returned c, d') ->
     Permutation (Analysis.images c) l /\
     key_ascending (Analysis.images c) /\
     (forall k, List.filter (keyed k) (Analysis.images c) = List.filter (keyed k) l) /\
     exists a b,
       head (Analysis.images c) = Some a /\ last (Analysis.images c) = Some b /\
       Analysis.date_range_start c = default "unknown" (Analysis.date a) /\
       Analysis.date_range_end c = default "unknown" (Analysis.date b)) /\
  (forall now l d,
     l <> [] -> Analysis.comparable l = true ->
     exists c, Analysis.create_viewer_config now l d =
               (Returned c, <["viewer_config.json" := Analysis.Json c]> d)) /\
  (forall w s,
     match fst (Getdata.write_viewer_config w (map Sample.entry Sample.three_dates) s) with
     | Returned c =>
         map Getdata.date (Getdata.images c) = ["2013-07-10"; "2016-03-01"; "2020-11-05"] /\
         Getdata.date_range_start c = "2013-07-10" /\
         Getdata.date_range_end c = "2020-11-05"
     | Raised => False
     end) /\
  (forall now d,
     match fst (Analysis.create_viewer_config now (map Sample.info Sample.three_dates) d) with
     | Returned c =>
         map Analysis.date (Analysis.images c) =
           [Some "2013-07-10"; Some "2016-03-01"; Some "2020-11-05"] /\
         Analysis.date_range_start c = "2013-07-10" /\
         Analysis.date_range_end c = "2020-11-05"
     | Raised => False
     end).
Proof.
  split; [|split; [|split; [|split]]].
  - intros w images_info s. exists (config_of w images_info).
    split; [apply write_viewer_config_run|]. unfold config_of. cbv zeta.
    cbn [Getdata.images Getdata.date_range_start Getdata.date_range_end].
    split; [apply sort_by_Permutation|].
    split; [apply by_date_ascending|].
    split; [intros d; apply by_date_stable|].
    split; reflexivity.
  - intros now l d c d' Hrun. unfold Analysis.create_viewer_config in Hrun.
    destruct (Analysis.sort_images l) as [sorted|] eqn:Hs; [|discriminate].
    destruct (Py.first_item sorted) as [a|] eqn:Ha; [|discriminate].
    destruct (Py.last_item sorted) as [b|] eqn:Hb; [|discriminate].
    injection Hrun as <- _. cbn [Analysis.images Analysis.date_range_start
                                  Analysis.date_range_end].
    split; [now apply sort_images_Permutation|].
    split; [now apply sort_images_ascending in Hs|].
    split; [intros k; now apply sort_images_stable|].
    exists a, b. auto.
  - intros now l d. apply create_viewer_config_returns.
  - intros w s. repeat split; reflexivity.
  - intros now d. repeat split; reflexivity.
Qed.

(** The claim as it is written fails on [create_viewer_config]: of two
    images of 2020-01-05 that keep their timestamps, the one acquired in
    the morning is put first, though it came second. *)
Lemma C4_same_day_reordered :
  ~ (forall now l d c d',
       Analysis.create_viewer_config now l d = (Returned c, d') ->
       forall day, List.filter (on_date day) (Analysis.images c) = List.filter (on_date day) l).
Proof.
  intros H.
  pose proof (H "2026-01-01T00:00:00" [Sample.afternoon; Sample.morning] ∅ _ _ eq_refl
                "2020-01-05") as C.
  vm_compute in C. discriminate C.
Qed.

(** C7, as the code has it. On an empty list the aligner returns an empty
    list and writes nothing; [write_viewer_config] returns a manifest with no
    image, [total_images] 0 and both ends of [date_range] ["unknown"];
    [create_viewer_config] raises.  [main] of the analysis script calls
    [create_viewer_config] only with what the aligner returned and only when
    that is not empty: whenever the aligner returns an empty list, for an
    empty input or for one whose files are all missing, [main] returns
    without a manifest and writes nothing more; when the aligner returns
    images, [main] does what [create_viewer_config] does on them; when the
    aligner raises, so does [main]. *)
Theorem C7_empty_input :
  (forall pil d, Analysis.align_images pil [] d = (Returned [], d)) /\
  (forall w s,
     exists c,
       Getdata.write_viewer_config w [] s =
         (Returned c,
          Getdata.mkEffects (<["viewer_config.json" := Getdata.Json c]> (Getdata.disk s))
            (Getdata.queries s)) /\
       Getdata.images c = [] /\ Getdata.total_images c = 0 /\
       Getdata.date_range_start c = "unknown" /\ Getdata.date_range_end c = "unknown") /\
  (forall now d, Analysis.create_viewer_config now [] d = (Raised, d)) /\
  (forall pil now d, Analysis.main_tail pil now [] d = (Returned None, d)) /\
  (forall pil now all_images d d',
     Analysis.align_images pil all_images d = (Returned [], d') ->
     Analysis.main_tail pil now all_images d = (Returned None, d')) /\
  (forall pil now all_images d d' o os,
     Analysis.align_images pil all_images d = (Returned (o :: os), d') ->
     Analysis.main_tail pil now all_images d =
     match Analysis.create_viewer_config now (o :: os) d' with
     | (Returned c, d'') => (Returned (Some c), d'')
     | (Raised, d'') => (Raised, d'')
     end) /\
  (forall pil now all_images d d',
     Analysis.align_images pil all_images d = (Raised, d') ->
     Analysis.main_tail pil now all_images d = (Raised, d')).
Proof.
  split; [|split; [|split; [|split; [|split; [|split]]]]].
  - reflexivity.
  - intros w s. eexists. split; [reflexivity|]. repeat split.
  - reflexivity.
  - reflexivity.
  - intros pil now all_images d d' Halign.
    unfold Analysis.main_tail, mbind, Analysis.M_bind, Analysis.bind.
    now rewrite Halign.
  - intros pil now all_images d d' o os Halign.
    unfold Analysis.main_tail, mbind, Analysis.M_bind, Analysis.bind.
    rewrite Halign.
    destruct (Analysis.create_viewer_config now (o :: os) d') as [[c|] d'']; reflexivity.
  - intros pil now all_images d d' Halign.
    unfold Analysis.main_tail, mbind, Analysis.M_bind, Analysis.bind.
    now rewrite Halign.
Qed.

(** The claim as it is written fails on [create_viewer_config]: given no
    frame it raises, and returns no manifest. *)
Lemma C7_second_writer_raises_on_empty :
  ~ (exists c d',
       Analysis.create_viewer_config "2026-01-01T00:00:00" [] ∅ = (Returned c, d') /\
       Analysis.date_range_start c = "unknown" /\ Analysis.date_range_end c = "unknown" /\
       Analysis.total_images c = 0).
Proof. intros (c & d' & H & _). discriminate H. Qed.

(** ** C6: the aligner *)

(** A frame: a dictionary whose file is in the output directory and opens
    as the array [img]. *)
Definition stored (pil : Pillow) (d : gmap string Analysis.File)
    (info : Analysis.Info) (img : Raster) : Prop :=
  exists b, d !! Analysis.filename info = Some (Analysis.Raw b) /\ pil_open pil b = Some img.

(** The dictionary and the file the aligner makes of a frame. *)
Definition aligned_info (ref_height ref_width : Z) (img : Raster) (info : Analysis.Info)
  : Analysis.Info :=
  Analysis.mkInfo (Analysis.date info) (Analysis.timestamp info) (Analysis.filename info)
    (Analysis.source info) (Analysis.zoom info)
    (Some ("aligned_" +:+ Analysis.filename info)) (Some ref_width) (Some ref_height).

Definition aligned_file (pil : Pillow) (ref_height ref_width : Z) (img : Raster)
    (info : Analysis.Info) : string * Analysis.File :=
  ("aligned_" +:+ Analysis.filename info,
   Analysis.Raw (pil_save pil (Analysis.fit pil ref_height ref_width img))).

Definition write_all (files : list (string * Analysis.File)) (d : gmap string Analysis.File)
  : gmap string Analysis.File :=
  foldl (fun d f => <[f.1 := f.2]> d) d files.

Lemma load_images_stored pil d (infos : list Analysis.Info) (imgs : list Raster) :
  Forall2 (stored pil d) infos imgs -> Analysis.load_images pil d infos = Returned imgs.
Proof.
  induction 1 as [|info img infos imgs (b & Hb & Himg) _ IH]; [reflexivity|].
  simpl. now rewrite Hb, Himg, IH.
Qed.

Lemma save_aligned_run pil h w (imgs : list Raster) : forall (infos : list Analysis.Info) d,
  Analysis.save_aligned pil h w imgs infos d =
  (Returned (zip_with (aligned_info h w) imgs infos),
   write_all (zip_with (aligned_file pil h w) imgs infos) d).
Proof.
  induction imgs as [|img imgs IH]; intros infos d; [reflexivity|].
  destruct infos as [|info infos]; [reflexivity|].
  simpl. unfold mbind, Analysis.M_bind, Analysis.bind, Analysis.write_file.
  rewrite IH. reflexivity.
Qed.

(** An array of the reference shape is written as it was loaded; any
    other is resampled to the reference width and height. *)
Lemma fit_shape pil h w (img : Raster) :
  shape2 (Analysis.fit pil h w img) = (h, w) /\
  (shape2 img = (h, w) -> Analysis.fit pil h w img = img) /\
  (shape2 img <> (h, w) -> Analysis.fit pil h w img = resize pil img w h).
Proof.
  unfold Analysis.fit. destruct (decide (shape2 img = (h, w))) as [He|Hne].
  - split; [assumption|]. split; [reflexivity|contradiction].
  - split; [reflexivity|]. split; [contradiction|reflexivity].
Qed.

(** C6. For a non-empty list of frames, the aligner takes the height and
    width of the first frame's array as reference, returns one dictionary
    per frame, in order, each with the reference width and height, and
    writes for each frame an array of the reference shape: the loaded array
    itself when it has that shape, its Lanczos resampling to the reference
    width and height otherwise. *)
Theorem C6_aligner_uses_first_frame (pil : Pillow) (d : gmap string Analysis.File)
    (infos : list Analysis.Info) (imgs : list Raster)
    (Hne : infos <> [])
    (Hframes : Forall2 (stored pil d) infos imgs) :
  exists ref rest,
    imgs = ref :: rest /\
    let out := zip_with (aligned_info (rows ref) (cols ref)) imgs infos in
    Analysis.align_images pil infos d =
      (Returned out,
       write_all (zip_with (aligned_file pil (rows ref) (cols ref)) imgs infos) d) /\
    length out = length infos /\
    Forall (fun o => Analysis.width o = Some (cols ref) /\
                     Analysis.height o = Some (rows ref)) out /\
    Forall (fun img =>
              shape2 (Analysis.fit pil (rows ref) (cols ref) img) = (rows ref, cols ref) /\
              (shape2 img = (rows ref, cols ref) ->
               Analysis.fit pil (rows ref) (cols ref) img = img) /\
              (shape2 img <> (rows ref, cols ref) ->
               Analysis.fit pil (rows ref) (cols ref) img =
               resize pil img (cols ref) (rows ref))) imgs /\
    Analysis.fit pil (rows ref) (cols ref) ref = ref.
Proof.
  pose proof (load_images_stored _ _ _ _ Hframes) as Hload.
  pose proof (Forall2_length _ _ _ Hframes) as Hlen.
  destruct infos as [|info infos]; [contradiction|].
  destruct imgs as [|ref rest]; [discriminate|].
  exists ref, rest. split; [reflexivity|]. cbv zeta.
  split; [|split; [|split; [|split]]].
  - unfold Analysis.align_images, mbind, Analysis.M_bind, Analysis.bind, Analysis.read_disk.
    rewrite Hload. apply save_aligned_run.
  - rewrite length_zip_with. simpl in *. lia.
  - apply Forall_forall. intros o Ho.
    apply elem_of_lookup_zip_with in Ho as (i & img & inf & -> & _ & _).
    split; reflexivity.
  - apply Forall_forall. intros img _. apply fit_shape.
  - apply fit_shape. reflexivity.
Qed.

(** * The theorems at work on the sample data *)

(** In 2016 the clearer of the two Sentinel-2 images is chosen, and the
    Landsat 8 image of that year, though cloudless, is not looked at. *)
Example select_2016 :
  Getdata.select Sample.world Sample.roi 2016 Sample.no_effects =
  (Returned (Some (Getdata.mkSelection Sample.s2_2016_b "2016-08-02" "Sentinel-2"
                     Getdata.S2_VIS "sentinel2_2016.png")),
   Getdata.mkEffects ∅ [(Getdata.S2_COLLECTION, 2016)]).
Proof. vm_compute. reflexivity. Qed.

Lemma C2_witness :
  exists sel,
    Getdata.select Sample.world Sample.roi 2016 Sample.no_effects =
      (Returned (Some sel),
       Getdata.mkEffects (Getdata.disk Sample.no_effects)
         (Getdata.queries Sample.no_effects ++ [(first_collection 2016, 2016)])) /\
    Getdata.sel_source sel = first_label 2016.
Proof.
  apply (C2_first_source_short_circuits Sample.world Sample.roi 2016 Sample.no_effects
           Sample.s2_2016_a 12%Q).
  - reflexivity.
  - split; [vm_compute; auto|]. split; reflexivity.
Defined.

Lemma C5_witness :
  exists r s',
    Getdata.main Sample.world Sample.roi Sample.no_effects = (Returned r, s') /\
    Getdata.skipped r = [2014; 2015; 2018; 2019; 2020; 2021; 2022; 2023; 2024] /\
    map Getdata.filename (Getdata.accepted r) =
      ["landsat8_2013.png"; "sentinel2_2016.png"; "landsat8_2017.png"].
Proof.
  destruct (C5_failed_year_is_skipped Sample.world Sample.roi (fun _ _ => eq_refl))
    as (_ & _ & H).
  destruct (H Sample.no_effects) as (r & s' & Hm & Hs & Ha).
  exists r, s'. split; [exact Hm|]. rewrite Hs, Ha.
  split; vm_compute; reflexivity.
Defined.

Lemma C10_witness :
  Forall (fun e => Getdata.aligned_filename e = Getdata.filename e /\
                   Getdata.width e = Getdata.IMAGE_PX /\
                   Getdata.height e = Getdata.IMAGE_PX /\
                   Getdata.IMAGE_PX = 1024) (Getdata.accepted Sample.summary) /\
  (forall name, String.prefix "aligned_" name = true ->
                Getdata.disk (snd Sample.run) !! name =
                Getdata.disk Sample.no_effects !! name).
Proof.
  apply (C10_entries_are_plain Sample.world Sample.roi).
  vm_compute. reflexivity.
Defined.

Lemma C4_witness :
  exists c,
    Analysis.create_viewer_config "2026-01-01T00:00:00"
      (map Sample.info Sample.three_dates) ∅ =
    (Returned c, <["viewer_config.json" := Analysis.Json c]> ∅).
Proof.
  apply (proj1 (proj2 (proj2 C4_manifest_sorted_by_key))).
  - discriminate.
  - reflexivity.
Defined.

Lemma C6_witness :
  exists ref rest,
    [Sample.small; Sample.large; Sample.large] = ref :: rest /\
    let out := zip_with (aligned_info (rows ref) (cols ref))
                 [Sample.small; Sample.large; Sample.large] Sample.shots in
    Analysis.align_images Sample.pillow Sample.shots Sample.shelf =
      (Returned out,
       write_all (zip_with (aligned_file Sample.pillow (rows ref) (cols ref))
                    [Sample.small; Sample.large; Sample.large] Sample.shots)
         Sample.shelf) /\
    length out = length Sample.shots /\
    Forall (fun o => Analysis.width o = Some (cols ref) /\
                     Analysis.height o = Some (rows ref)) out /\
    Forall (fun img =>
              shape2 (Analysis.fit Sample.pillow (rows ref) (cols ref) img) =
                (rows ref, cols ref) /\
              (shape2 img = (rows ref, cols ref) ->
               Analysis.fit Sample.pillow (rows ref) (cols ref) img = img) /\
              (shape2 img <> (rows ref, cols ref) ->
               Analysis.fit Sample.pillow (rows ref) (cols ref) img =
               resize Sample.pillow img (cols ref) (rows ref)))
      [Sample.small; Sample.large; Sample.large] /\
    Analysis.fit Sample.pillow (rows ref) (cols ref) ref = ref.
Proof.
  apply (C6_aligner_uses_first_frame Sample.pillow Sample.shelf Sample.shots).
  - discriminate.
  - repeat constructor; [exists [x01] | exists [x02] | exists [x02]];
      split; vm_compute; reflexivity.
Defined.

(** With the first frame 800 by 600, the reference is 800 by 600: the two
    frames of 1024 by 1024 are the ones resampled. *)
Example align_three_frames :
  fst (Analysis.align_images Sample.pillow Sample.shots Sample.shelf) =
  Returned
    [aligned_info 600 800 Sample.small (Sample.shot "a.png");
     aligned_info 600 800 Sample.large (Sample.shot "b.png");
     aligned_info 600 800 Sample.large (Sample.shot "c.png")] /\
  snd (Analysis.align_images Sample.pillow Sample.shots Sample.shelf) !! "aligned_a.png" =
    Some (Analysis.Raw (pil_save Sample.pillow Sample.small)) /\
  snd (Analysis.align_images Sample.pillow Sample.shots Sample.shelf) !! "aligned_b.png" =
    Some (Analysis.Raw (pil_save Sample.pillow (resize Sample.pillow Sample.large 800 600))).
Proof. repeat split; vm_compute; reflexivity. Qed.

(** The page accepted by the download loop of the analysis script stops
    the aligner: Pillow cannot open it. *)
Example html_page_stops_the_aligner :
  let '(r, d) := Analysis.download_sentinel2_step
                   (Response 200 (Some "text/html") Sample.html) "2020-01-05"
                   1578182400000 [] ∅ in
  match r with
  | Returned images_info =>
      Analysis.main_tail Sample.pillow "2026-01-01T00:00:00" images_info d = (Raised, d)
  | Raised => False
  end.
Proof. vm_compute. reflexivity. Qed.

Lemma C7_witness :
  Analysis.main_tail Sample.pillow "2026-01-01T00:00:00" Sample.shots ∅ = (Returned None, ∅) /\
  Analysis.main_tail Sample.pillow "2026-01-01T00:00:00" Sample.shots Sample.shelf_page =
    (Raised, Sample.shelf_page).
Proof.
  destruct C7_empty_input as (_ & _ & _ & _ & Hnone & _ & Hraised). split.
  - apply Hnone. reflexivity.
  - apply Hraised. vm_compute. reflexivity.
Defined.

Lemma C9_witness :
  exists status_code ct content,
    Getdata.thumb Sample.world Sample.s2_2016_b Getdata.S2_VIS Sample.roi Getdata.IMAGE_PX =
      Response status_code ct content /\
    Getdata.disk
      (snd (Getdata.download_image Sample.world Sample.s2_2016_b Sample.roi Getdata.S2_VIS
              "sentinel2_2016.png" Sample.no_effects))
      !! "sentinel2_2016.png" = Some (Getdata.Raw content).
Proof.
  pose proof (proj1 (C9_refetch_overwrites Sample.world Sample.roi) Sample.s2_2016_b
                Getdata.S2_VIS "sentinel2_2016.png" Sample.no_effects) as [_ H].
  assert (fst (Getdata.download_image Sample.world Sample.s2_2016_b Sample.roi Getdata.S2_VIS
                 "sentinel2_2016.png" Sample.no_effects) = Returned true) as Hfst
    by (vm_compute; reflexivity).
  rewrite Hfst in H. destruct H as (st & ct & content & Hthumb & Hfirst & _).
  exists st, ct, content. split; assumption.
Defined.

(** * Further properties of the two scripts *)

(** ** Substrings *)

Lemma prefix_spec (n h : string) :
  String.prefix n h = true <-> exists post, h = n +:+ post.
Proof.
  revert h. induction n as [|a n IH]; intros h.
  - split; [intros _; now exists h|intros _; now destruct h].
  - destruct h as [|b h]; simpl; [split; [discriminate|intros [? [=]]]|].
    destruct (ascii_dec a b) as [->|Hab].
    + rewrite IH. split; intros [post Hp]; exists post; [now rewrite Hp|now injection Hp].
    + split; [discriminate|]. intros [post [= <- _]]. contradiction.
Qed.


(** ** The main downloader: one download *)


(** X2. A download that is accepted stores the body of the response,
    byte for byte, under the given file name and changes no other file; a
    download that is rejected leaves the output directory as it was.  No
    catalogue query is made either way. *)
Theorem X2_download_touches_one_file (w : Getdata.World) (image : EE.Image)
    (roi : EE.Geometry) (vis : Getdata.VisParams) (filename : string)
    (s : Getdata.Effects) :
  let '(r, s') := Getdata.download_image w image roi vis filename s in
  Getdata.queries s' = Getdata.queries s /\
  match r with
  | Returned true =>
      exists status_code ct content,
        Getdata.thumb w image vis roi Getdata.IMAGE_PX = Response status_code ct content /\
        Getdata.disk s' !! filename = Some (Getdata.Raw content) /\
        delete filename (Getdata.disk s') = delete filename (Getdata.disk s)
  | Returned false => s' = s
  | Raised => False
  end.
Proof.
  rewrite download_image_run. unfold valid_payload.
  destruct (Getdata.thumb _ _ _ _ _) as [|st ct content]; [split; reflexivity|].
  destruct (_ && _ && _); [|split; reflexivity].
  split; [reflexivity|]. exists st, ct, content. cbn [Getdata.disk].
  split; [reflexivity|]. split; [apply lookup_insert_eq|apply delete_insert_eq].
Qed.


(** ** The main downloader: the selection of a year *)

Lemma window_year (year : Z) (t : EE.DateTime) :
  EE.dt_leb (EE.midnight year 1 1) t && EE.dt_ltb t (EE.midnight year 12 31) = true ->
  EE.dt_year t = year.
Proof.
  unfold EE.dt_leb, EE.dt_ltb, EE.midnight. simpl.
  rewrite andb_true_iff, negb_true_iff.
  repeat rewrite ?orb_true_iff, ?orb_false_iff, ?andb_true_iff, ?andb_false_iff,
    ?Z.ltb_lt, ?Z.ltb_ge, ?Z.eqb_eq, ?Z.eqb_neq.
  lia.
Qed.

Lemma pool_In w id year roi (i : EE.Image) :
  In i (pool w id year roi) ->
  In i (Getdata.collection w id) /\
  EE.intersects (EE.footprint i) roi = true /\
  EE.dt_year (EE.time_start i) = year.
Proof.
  unfold pool, EE.filterDate, EE.filterBounds.
  rewrite !List.filter_In. intros [[Hin Hroi] Hwin].
  repeat split; try assumption. now apply window_year.
Qed.

(** Where a selection comes from: the least cloudy acceptable image of
    Sentinel-2, from 2015 on, or that of Landsat 8, with the label, the
    rendering and the file name of that source. *)
Lemma select_reply_origin w roi year :
  match select_reply w roi year with
  | Returned (Some sel) =>
      Getdata.sel_date sel = EE.format_date (EE.time_start (Getdata.sel_image sel)) /\
      ((2015 <= year /\
        Getdata.sel_source sel = "Sentinel-2" /\ Getdata.sel_vis sel = Getdata.S2_VIS /\
        exists v,
          acceptable w Getdata.S2_COLLECTION "CLOUDY_PIXEL_PERCENTAGE" year roi
            (Getdata.sel_image sel) v) \/
       (Getdata.sel_source sel = "Landsat 8" /\ Getdata.sel_vis sel = Getdata.L8_VIS /\
        exists v,
          acceptable w Getdata.L8_COLLECTION "CLOUD_COVER" year roi
            (Getdata.sel_image sel) v))
  | _ => True
  end.
Proof.
  unfold select_reply, Getdata.select, mbind, Getdata.M_bind, Getdata.bind,
    mret, Getdata.M_ret, Getdata.ret.
  pose proof (candidates_best w Getdata.S2_COLLECTION "CLOUDY_PIXEL_PERCENTAGE" year roi)
    as Hs2.
  pose proof (candidates_best w Getdata.L8_COLLECTION "CLOUD_COVER" year roi) as Hl8.
  destruct (Z.leb_spec 2015 year) as [Hy|Hy].
  - rewrite get_best_sentinel2_run.
    destruct (Getdata.getInfo_ok w Getdata.S2_COLLECTION year); [|exact I].
    destruct (answer_of (Getdata.candidates w Getdata.S2_COLLECTION _ _ _))
      as [[[img d]|]|]; simpl in Hs2; [| |exact I].
    + simpl. destruct Hs2 as (-> & v & Hv & _). split; [reflexivity|]. left. eauto.
    + clear Hs2. rewrite get_best_landsat8_run.
      destruct (Getdata.getInfo_ok w Getdata.L8_COLLECTION year); [|exact I].
      destruct (answer_of _) as [[[img d]|]|]; simpl in Hl8; simpl; auto.
      destruct Hl8 as (-> & v & Hv & _). split; [reflexivity|]. right. eauto.
  - clear Hs2. rewrite get_best_landsat8_run.
    destruct (Getdata.getInfo_ok w Getdata.L8_COLLECTION year); [|exact I].
    destruct (answer_of _) as [[[img d]|]|]; simpl in Hl8; simpl; auto.
    destruct Hl8 as (-> & v & Hv & _). split; [reflexivity|]. right. eauto.
Qed.

(** X4. The image selected for a year was acquired in that year and lies
    over the region, and the date that goes into the manifest is the date
    of that image. *)
Theorem X4_selection_is_of_its_year (w : Getdata.World) (roi : EE.Geometry) (year : Z)
    (s : Getdata.Effects) (sel : Getdata.Selection)
    (Hsel : fst (Getdata.select w roi year s) = Returned (Some sel)) :
  EE.dt_year (EE.time_start (Getdata.sel_image sel)) = year /\
  EE.intersects (EE.footprint (Getdata.sel_image sel)) roi = true /\
  Getdata.sel_date sel = EE.format_date (EE.time_start (Getdata.sel_image sel)).
Proof.
  rewrite select_run in Hsel. cbn [fst] in Hsel.
  pose proof (select_reply_origin w roi year) as H. rewrite Hsel in H.
  destruct H as [Hd [(_ & _ & _ & v & Hv & _)|(_ & _ & v & Hv & _)]];
    apply pool_In in Hv as (_ & Hroi & Hy); auto.
Qed.

(** X5. The rendering goes with the source: a selection labelled
    Sentinel-2 is an image of the Sentinel-2 collection, rendered with
    [S2_VIS], and is made from 2015 on only; a selection labelled Landsat 8
    is an image of the Landsat 8 collection, rendered with [L8_VIS].  There
    is no other label. *)
Theorem X5_rendering_matches_source (w : Getdata.World) (roi : EE.Geometry) (year : Z)
    (s : Getdata.Effects) (sel : Getdata.Selection)
    (Hsel : fst (Getdata.select w roi year s) = Returned (Some sel)) :
  (Getdata.sel_source sel = "Sentinel-2" /\ 2015 <= year /\
   In (Getdata.sel_image sel) (Getdata.collection w Getdata.S2_COLLECTION) /\
   Getdata.sel_vis sel = Getdata.S2_VIS) \/
  (Getdata.sel_source sel = "Landsat 8" /\
   In (Getdata.sel_image sel) (Getdata.collection w Getdata.L8_COLLECTION) /\
   Getdata.sel_vis sel = Getdata.L8_VIS).
Proof.
  rewrite select_run in Hsel. cbn [fst] in Hsel.
  pose proof (select_reply_origin w roi year) as H. rewrite Hsel in H.
  destruct H as [_ [(Hy & Hl & Hvis & v & Hv & _)|(Hl & Hvis & v & Hv & _)]];
    apply pool_In in Hv as (Hin & _ & _); [left|right]; auto.
Qed.

(** X6. The catalogue queries of a year: before 2015 Landsat 8 alone is
    asked; from 2015 on Sentinel-2 is asked first, and Landsat 8 is asked
    after it exactly when Sentinel-2 answered and had no image below the
    cloud bound. *)
Theorem X6_queries_of_a_year (w : Getdata.World) (roi : EE.Geometry) (year : Z)
    (s : Getdata.Effects) :
  exists asked,
    Getdata.queries (snd (Getdata.select w roi year s)) = (Getdata.queries s ++ asked)%list /\
    Getdata.disk (snd (Getdata.select w roi year s)) = Getdata.disk s /\
    if 2015 <=? year then
      if Getdata.getInfo_ok w Getdata.S2_COLLECTION year then
        (asked = [(Getdata.S2_COLLECTION, year); (Getdata.L8_COLLECTION, year)] /\
         forall j u,
           ~ acceptable w Getdata.S2_COLLECTION "CLOUDY_PIXEL_PERCENTAGE" year roi j u) \/
        (asked = [(Getdata.S2_COLLECTION, year)] /\
         exists j u,
           acceptable w Getdata.S2_COLLECTION "CLOUDY_PIXEL_PERCENTAGE" year roi j u)
      else asked = [(Getdata.S2_COLLECTION, year)]
    else asked = [(Getdata.L8_COLLECTION, year)].
Proof.
  exists (select_asked w roi year). rewrite select_run. cbn [snd Getdata.queries Getdata.disk].
  split; [reflexivity|]. split; [reflexivity|].
  unfold select_asked, Getdata.select, mbind, Getdata.M_bind, Getdata.bind,
    mret, Getdata.M_ret, Getdata.ret.
  pose proof (candidates_best w Getdata.S2_COLLECTION "CLOUDY_PIXEL_PERCENTAGE" year roi)
    as Hs2.
  destruct (2015 <=? year).
  - rewrite get_best_sentinel2_run.
    destruct (Getdata.getInfo_ok w Getdata.S2_COLLECTION year); [|reflexivity].
    destruct (answer_of _) as [[[img d]|]|]; simpl in Hs2; [| |destruct Hs2].
    + right. split; [reflexivity|]. destruct Hs2 as (_ & v & Hv & _). eauto.
    + left. split; [|exact Hs2]. rewrite get_best_landsat8_run.
      destruct (Getdata.getInfo_ok w Getdata.L8_COLLECTION year);
        [destruct (answer_of _) as [[[img d]|]|]|]; reflexivity.
  - clear Hs2. rewrite get_best_landsat8_run.
    destruct (Getdata.getInfo_ok w Getdata.L8_COLLECTION year);
      [destruct (answer_of _) as [[[img d]|]|]|]; reflexivity.
Qed.

(** ** The main downloader: a whole run *)

Lemma string_length_app (a b : string) :
  String.length (a +:+ b) = (String.length a + String.length b)%nat.
Proof. induction a as [|x a IH]; simpl; [reflexivity|now rewrite IH]. Qed.

Lemma string_app_inv_tail (a b c : string) : a +:+ c = b +:+ c -> a = b.
Proof.
  revert b. induction a as [|x a IH]; intros [|y b] H; simpl in H.
  - reflexivity.
  - apply (f_equal String.length) in H. simpl in H. rewrite ?string_length_app in H.
    simpl in H. lia.
  - apply (f_equal String.length) in H. simpl in H. rewrite ?string_length_app in H.
    simpl in H. lia.
  - injection H as -> H. f_equal. now apply IH.
Qed.

(** The file names of two years differ, and so do those of the two
    sources. *)
Lemma image_file_inj (y1 y2 : Z) :
  ("sentinel2_" +:+ Py.str_of_int y1 +:+ ".png" =
   "sentinel2_" +:+ Py.str_of_int y2 +:+ ".png" -> y1 = y2) /\
  ("landsat8_" +:+ Py.str_of_int y1 +:+ ".png" =
   "landsat8_" +:+ Py.str_of_int y2 +:+ ".png" -> y1 = y2) /\
  "sentinel2_" +:+ Py.str_of_int y1 +:+ ".png" <>
  "landsat8_" +:+ Py.str_of_int y2 +:+ ".png".
Proof.
  unfold Py.str_of_int. repeat split.
  - intros H. apply (inj (String.append "sentinel2_")) in H.
    apply string_app_inv_tail in H. now apply (inj pretty) in H.
  - intros H. apply (inj (String.append "landsat8_")) in H.
    apply string_app_inv_tail in H. now apply (inj pretty) in H.
  - discriminate.
Qed.

Lemma year_outcome_file w roi year e content :
  year_outcome w roi year = Returned (Some (e, content)) ->
  Getdata.filename e = "sentinel2_" +:+ Py.str_of_int year +:+ ".png" \/
  Getdata.filename e = "landsat8_" +:+ Py.str_of_int year +:+ ".png".
Proof.
  unfold year_outcome. pose proof (select_reply_names w roi year) as Hn.
  destruct (select_reply w roi year) as [[sel|]|]; try discriminate.
  destruct (valid_payload _ _); [|discriminate].
  intros [= <- _]. simpl. destruct Hn as [(_ & -> & _)|(_ & -> & _)]; auto.
Qed.

Lemma years_files_years w roi years name :
  is_Some (years_files w roi years !! name) ->
  exists year, In year years /\
    (name = "sentinel2_" +:+ Py.str_of_int year +:+ ".png" \/
     name = "landsat8_" +:+ Py.str_of_int year +:+ ".png").
Proof.
  induction years as [|year rest IH]; simpl.
  - rewrite lookup_empty. intros [? ?]. discriminate.
  - destruct (year_outcome w roi year) as [[[e content]|]|] eqn:Hy.
    + rewrite lookup_union_is_Some, lookup_singleton_is_Some.
      intros [H| <-].
      * destruct (IH H) as (y & Hin & Hname). eauto.
      * apply year_outcome_file in Hy. eauto.
    + intros H. destruct (IH H) as (y & Hin & Hname). eauto.
    + rewrite lookup_empty. intros [? ?]. discriminate.
Qed.

(** In a loop that came to its end, the file of an accepted year holds
    the bytes downloaded for that year: no other year writes under its
    name. *)
Lemma years_files_lookup w roi years : forall l l' year e content,
  NoDup years ->
  years_reply w roi years l = Returned l' ->
  In year years ->
  year_outcome w roi year = Returned (Some (e, content)) ->
  years_files w roi years !! Getdata.filename e = Some (Getdata.Raw content).
Proof.
  induction years as [|y rest IH]; intros l l' year e content Hnd Hrun Hin Hy;
    [destruct Hin|].
  apply NoDup_cons in Hnd as [Hy_rest Hnd]. simpl in Hrun |- *.
  destruct Hin as [->|Hin].
  - rewrite Hy in Hrun |- *.
    rewrite lookup_union_r; [apply lookup_singleton_eq|].
    apply eq_None_not_Some. intros Hsome.
    apply years_files_years in Hsome as (y' & Hy' & Hname).
    assert (y' = year) as ->.
    { destruct (year_outcome_file _ _ _ _ _ Hy) as [He|He]; rewrite He in Hname;
        destruct (image_file_inj year y') as (Hs & Hl & Hsl);
        destruct (image_file_inj y' year) as (_ & _ & Hls);
        destruct Hname as [Hn|Hn]; try (symmetry; auto; fail);
        [destruct (Hsl Hn)|symmetry in Hn; destruct (Hls Hn)]. }
    apply Hy_rest. now apply list_elem_of_In.
  - destruct (year_outcome w roi y) as [[[e0 c0]|]|]; [| |discriminate].
    + apply lookup_union_Some_l. eapply IH; eauto.
    + eapply IH; eauto.
Qed.

Lemma years_reply_returned w roi years : forall l l',
  years_reply w roi years l = Returned l' ->
  l' = Getdata.mkLists
         (Getdata.images_info l ++ omap (year_entry w roi) years)
         (Getdata.failed_years l ++ List.filter (year_skipped w roi) years).
Proof.
  induction years as [|year rest IH]; intros l l'; simpl.
  - intros [= <-]. destruct l. simpl. now rewrite !app_nil_r.
  - unfold year_skipped, year_entry.
    destruct (year_outcome w roi year) as [[[e content]|]|]; [| |discriminate];
      intros Hrun; apply IH in Hrun; rewrite Hrun; simpl; now rewrite <- app_assoc.
Qed.

Lemma omap_year_entry_In w roi years e :
  In e (omap (year_entry w roi) years) ->
  exists year content,
    In year years /\ year_outcome w roi year = Returned (Some (e, content)).
Proof.
  rewrite <- list_elem_of_In, list_elem_of_omap. intros (year & Hin & He).
  unfold year_entry in He.
  destruct (year_outcome w roi year) as [[[e' content]|]|] eqn:Hy; try discriminate.
  injection He as ->. exists year, content. split; [now apply list_elem_of_In|assumption].
Qed.

Lemma viewer_config_not_image (year : Z) :
  "viewer_config.json" <> "sentinel2_" +:+ Py.str_of_int year +:+ ".png" /\
  "viewer_config.json" <> "landsat8_" +:+ Py.str_of_int year +:+ ".png".
Proof. split; discriminate. Qed.

Lemma NoDup_YEARS : NoDup Getdata.YEARS.
Proof. apply NoDup_seqZ. Qed.

Lemma year_outcome_raised w roi year :
  Getdata.getInfo_ok w (first_collection year) year = false ->
  year_outcome w roi year = Raised.
Proof.
  unfold first_collection, year_outcome, select_reply, Getdata.select, mbind,
    Getdata.M_bind, Getdata.bind, mret, Getdata.M_ret, Getdata.ret.
  destruct (2015 <=? year); intros Hdown.
  - now rewrite get_best_sentinel2_run, Hdown.
  - now rewrite get_best_landsat8_run, Hdown.
Qed.

Lemma years_reply_raised w roi years : forall l year,
  In year years -> year_outcome w roi year = Raised ->
  years_reply w roi years l = Raised.
Proof.
  induction years as [|y rest IH]; intros l year Hin Hy; [destruct Hin|].
  simpl. destruct Hin as [->|Hin]; [now rewrite Hy|].
  destruct (year_outcome w roi y) as [[[e c]|]|]; eauto.
Qed.

Lemma select_asked_year w roi year id y :
  In (id, y) (select_asked w roi year) -> y = year.
Proof.
  unfold select_asked, Getdata.select, mbind, Getdata.M_bind, Getdata.bind,
    mret, Getdata.M_ret, Getdata.ret.
  destruct (2015 <=? year).
  - rewrite get_best_sentinel2_run.
    destruct (Getdata.getInfo_ok w Getdata.S2_COLLECTION year);
      [destruct (answer_of _) as [[[img d]|]|]|]; simpl;
      try (intros [[= _ <-]|[]]; reflexivity).
    rewrite get_best_landsat8_run.
    destruct (Getdata.getInfo_ok w Getdata.L8_COLLECTION year);
      [destruct (answer_of _) as [[[img d]|]|]|]; simpl;
      intros [[= _ <-]|[[= _ <-]|[]]]; reflexivity.
  - rewrite get_best_landsat8_run.
    destruct (Getdata.getInfo_ok w Getdata.L8_COLLECTION year);
      [destruct (answer_of _) as [[[img d]|]|]|]; simpl;
      intros [[= _ <-]|[]]; reflexivity.
Qed.

(** In a loop over ascending years, no year after one that raised is
    queried. *)
Lemma years_asked_stop w roi years : forall year id y,
  StronglySorted Z.lt years ->
  In year years -> year_outcome w roi year = Raised ->
  In (id, y) (years_asked w roi years) -> y <= year.
Proof.
  induction years as [|y0 rest IH]; intros year id y Hs Hin Hy Hq; [destruct Hin|].
  apply StronglySorted_inv in Hs as [Hs Hall]. rewrite List.Forall_forall in Hall.
  simpl in Hq. apply in_app_or in Hq as [Hq|Hq].
  - apply select_asked_year in Hq as ->.
    destruct Hin as [->|Hin]; [lia|]. specialize (Hall _ Hin). lia.
  - destruct Hin as [->|Hin]; [rewrite Hy in Hq; destruct Hq|].
    destruct (year_outcome w roi y0); [|destruct Hq]. eauto.
Qed.

Lemma YEARS_ascending : StronglySorted Z.lt Getdata.YEARS.
Proof.
  change Getdata.YEARS with (seqZ 2013 12).
  repeat (rewrite seqZ_cons by lia; simpl Z.succ; simpl Z.pred).
  rewrite seqZ_nil by lia.
  repeat (constructor; [|repeat constructor; lia]). constructor.
Qed.

(** X7. An exception out of the catalogue is not caught: when the first
    source of some year of the range does not answer, [main] raises, writes
    no manifest, and asks nothing about any later year. *)
Theorem X7_catalogue_failure_aborts_the_run (w : Getdata.World) (roi : EE.Geometry)
    (s : Getdata.Effects) (year : Z)
    (Hin : In year Getdata.YEARS)
    (Hdown : Getdata.getInfo_ok w (first_collection year) year = false) :
  fst (Getdata.main w roi s) = Raised /\
  Getdata.disk (snd (Getdata.main w roi s)) !! "viewer_config.json" =
    Getdata.disk s !! "viewer_config.json" /\
  (forall id y, year < y ->
     In (id, y) (Getdata.queries (snd (Getdata.main w roi s))) ->
     In (id, y) (Getdata.queries s)).
Proof.
  pose proof (year_outcome_raised w roi year Hdown) as Hy.
  pose proof (years_reply_raised w roi Getdata.YEARS (Getdata.mkLists [] []) year Hin Hy)
    as Hrun.
  rewrite main_run. cbn [fst snd Getdata.disk Getdata.queries].
  unfold main_reply, main_files. rewrite Hrun. split; [reflexivity|]. split.
  - apply lookup_union_r. apply eq_None_not_Some. intros Hsome.
    apply years_files_years in Hsome as (y & _ & [Hn|Hn]);
      now apply (viewer_config_not_image y) in Hn.
  - intros id y Hlt Hq. apply in_app_or in Hq as [Hq|Hq]; [assumption|].
    pose proof (years_asked_stop w roi _ _ _ _ YEARS_ascending Hin Hy Hq). lia.
Qed.

Lemma omap_filter_length w roi years :
  (length (omap (year_entry w roi) years) +
   length (List.filter (year_skipped w roi) years) = length years)%nat.
Proof.
  induction years as [|year rest IH]; [reflexivity|].
  simpl. unfold year_skipped at 1.
  destruct (year_entry w roi year); simpl.
  - f_equal. exact IH.
  - rewrite Nat.add_succ_r. f_equal. exact IH.
Qed.

Lemma filter_StronglySorted {A} (R : A -> A -> Prop) (p : A -> bool) (l : list A) :
  StronglySorted R l -> StronglySorted R (List.filter p l).
Proof.
  induction 1 as [|x l Hs IH Hall]; simpl; [constructor|].
  destruct (p x); [|assumption]. constructor; [assumption|].
  rewrite List.Forall_forall in *. intros y Hy.
  apply List.filter_In in Hy as [Hy _]. auto.
Qed.

(** What [main] returns when it returns. *)
Lemma main_returned w roi (s s' : Getdata.Effects) (r : Getdata.Summary) :
  Getdata.main w roi s = (Returned r, s') ->
  years_reply w roi Getdata.YEARS (Getdata.mkLists [] []) =
    Returned (Getdata.mkLists (omap (year_entry w roi) Getdata.YEARS)
                (List.filter (year_skipped w roi) Getdata.YEARS)) /\
  Getdata.skipped r = List.filter (year_skipped w roi) Getdata.YEARS /\
  Getdata.accepted r = Getdata.by_date (omap (year_entry w roi) Getdata.YEARS) /\
  Getdata.disk s' = main_files w roi ∪ Getdata.disk s.
Proof.
  rewrite main_run. intros [= Hr <-]. unfold main_reply in Hr.
  destruct (years_reply w roi Getdata.YEARS _) as [l|] eqn:Hl; [|discriminate].
  pose proof (years_reply_returned _ _ _ _ _ Hl) as El.
  cbn [Getdata.images_info Getdata.failed_years app] in El.
  assert (Getdata.images_info l = omap (year_entry w roi) Getdata.YEARS) as Hi
    by now rewrite El.
  assert (Getdata.failed_years l = List.filter (year_skipped w roi) Getdata.YEARS) as Hf
    by now rewrite El.
  split; [now rewrite <- El|].
  rewrite <- Hi, <- Hf.
  destruct (Getdata.images_info l) as [|e es]; injection Hr as <-;
    (split; [reflexivity|split; reflexivity]).
Qed.

(** X8. When [main] returns, every year of 2013 to 2024 is accounted for
    once: the accepted entries and the skipped years add up to twelve, and
    the skipped years are years of the range in ascending order. *)
Theorem X8_every_year_is_accounted_for (w : Getdata.World) (roi : EE.Geometry)
    (s s' : Getdata.Effects) (r : Getdata.Summary)
    (Hmain : Getdata.main w roi s = (Returned r, s')) :
  (length (Getdata.accepted r) + length (Getdata.skipped r) = 12)%nat /\
  StronglySorted Z.lt (Getdata.skipped r) /\
  (forall year, In year (Getdata.skipped r) -> 2013 <= year <= 2024).
Proof.
  apply main_returned in Hmain as (_ & -> & -> & _).
  unfold Getdata.by_date. rewrite sort_by_length. split; [|split].
  - rewrite omap_filter_length. reflexivity.
  - apply filter_StronglySorted, YEARS_ascending.
  - intros year Hy. apply List.filter_In in Hy as [Hy _].
    apply list_elem_of_In, elem_of_seqZ in Hy.
    unfold Getdata.START_YEAR, Getdata.END_YEAR in Hy. lia.
Qed.

Lemma same_file_same_year w roi y1 y2 e1 e2 c1 c2 :
  year_outcome w roi y1 = Returned (Some (e1, c1)) ->
  year_outcome w roi y2 = Returned (Some (e2, c2)) ->
  Getdata.filename e1 = Getdata.filename e2 -> y1 = y2.
Proof.
  intros H1 H2 Heq.
  apply year_outcome_file in H1, H2.
  destruct (image_file_inj y1 y2) as (Hs & Hl & Hsl).
  destruct (image_file_inj y2 y1) as (_ & _ & Hls).
  destruct H1 as [H1|H1], H2 as [H2|H2]; rewrite H1, H2 in Heq; auto.
  - destruct (Hsl Heq).
  - symmetry in Heq. destruct (Hls Heq).
Qed.

Lemma omap_year_entry_NoDup w roi years :
  NoDup years -> NoDup (map Getdata.filename (omap (year_entry w roi) years)).
Proof.
  induction years as [|year rest IH]; intros Hnd; [constructor|].
  apply NoDup_cons in Hnd as [Hnot Hnd]. simpl.
  unfold year_entry at 1.
  destruct (year_outcome w roi year) as [[[e content]|]|] eqn:Hy; auto.
  simpl. apply NoDup_cons. split; [|auto].
  rewrite list_elem_of_In, in_map_iff. intros (e' & Heq & He').
  apply omap_year_entry_In in He' as (y' & c' & Hy'in & Hy').
  assert (y' = year) as -> by (eapply same_file_same_year; eauto).
  apply Hnot. now apply list_elem_of_In.
Qed.

(** X9. When [main] returns, no two entries of the manifest have the same
    file name. *)
Theorem X9_file_names_are_distinct (w : Getdata.World) (roi : EE.Geometry)
    (s s' : Getdata.Effects) (r : Getdata.Summary)
    (Hmain : Getdata.main w roi s = (Returned r, s')) :
  NoDup (map Getdata.filename (Getdata.accepted r)).
Proof.
  apply main_returned in Hmain as (_ & _ & -> & _).
  assert (Permutation
            (map Getdata.filename
               (Getdata.by_date (omap (year_entry w roi) Getdata.YEARS)))
            (map Getdata.filename (omap (year_entry w roi) Getdata.YEARS))) as Hp
    by apply Permutation_map, sort_by_Permutation.
  rewrite Hp. apply omap_year_entry_NoDup, NoDup_YEARS.
Qed.

(** X10. When [main] returns, every entry of the manifest is the entry of
    one year of the range: its date, label and file name are those of the
    selection of that year, and the file of that name in the output
    directory holds the body of the response to the request for the selected
    image, byte for byte. *)
Theorem X10_entries_point_at_their_downloads (w : Getdata.World) (roi : EE.Geometry)
    (s s' : Getdata.Effects) (r : Getdata.Summary)
    (Hmain : Getdata.main w roi s = (Returned r, s'))
    (e : Getdata.Entry) (He : In e (Getdata.accepted r)) :
  exists year sel status_code ct content,
    In year Getdata.YEARS /\
    fst (Getdata.select w roi year s) = Returned (Some sel) /\
    Getdata.thumb w (Getdata.sel_image sel) (Getdata.sel_vis sel) roi Getdata.IMAGE_PX =
      Response status_code ct content /\
    Getdata.date e = Getdata.sel_date sel /\
    Getdata.source e = Getdata.sel_source sel /\
    Getdata.filename e = Getdata.sel_filename sel /\
    Getdata.disk s' !! Getdata.filename e = Some (Getdata.Raw content).
Proof.
  apply main_returned in Hmain as (Hrun & _ & Hacc & ->). rewrite Hacc in He.
  apply (Permutation_in _ (sort_by_Permutation _ _ _)) in He.
  pose proof He as Hin.
  apply omap_year_entry_In in Hin as (year & content & Hyear & Hy).
  pose proof (years_files_lookup _ _ _ _ _ _ _ _ NoDup_YEARS Hrun Hyear Hy) as Hfile.
  pose proof Hy as Hy'. unfold year_outcome in Hy'.
  destruct (select_reply w roi year) as [[sel|]|] eqn:Hsel; try discriminate.
  destruct (Getdata.thumb _ _ _ _ _) as [|st ct body] eqn:Hthumb; [discriminate|].
  simpl in Hy'. destruct (_ && _ && _); [|discriminate].
  injection Hy' as <- <-.
  exists year, sel, st, ct, body. repeat split; try assumption.
  { rewrite select_run. exact Hsel. }
  apply lookup_union_Some_l. unfold main_files. rewrite Hrun.
  cbn [Getdata.images_info].
  destruct (omap (year_entry w roi) Getdata.YEARS) as [|e0 es]; [destruct He|].
  rewrite lookup_insert_ne; [exact Hfile|].
  apply year_outcome_file in Hy.
  destruct Hy as [Hn|Hn]; rewrite Hn; apply (viewer_config_not_image year).
Qed.

(** X11. The manifest and the summary agree.  A run that accepted
    nothing writes no manifest and leaves a manifest of an earlier run in
    place; a run that accepted an entry writes [viewer_config.json], which
    lists exactly the accepted entries and counts them in [total_images]. *)
Theorem X11_manifest_matches_summary (w : Getdata.World) (roi : EE.Geometry)
    (s s' : Getdata.Effects) (r : Getdata.Summary)
    (Hmain : Getdata.main w roi s = (Returned r, s')) :
  match Getdata.config r with
  | None =>
      Getdata.accepted r = [] /\
      Getdata.disk s' !! "viewer_config.json" = Getdata.disk s !! "viewer_config.json"
  | Some c =>
      Getdata.accepted r <> [] /\
      Getdata.disk s' !! "viewer_config.json" = Some (Getdata.Json c) /\
      Getdata.images c = Getdata.accepted r /\
      Getdata.total_images c = Z.of_nat (length (Getdata.accepted r)) /\
      Getdata.generated c = Getdata.now w
  end.
Proof.
  rewrite main_run in Hmain. injection Hmain as Hr <-.
  unfold main_reply in Hr. cbn [Getdata.disk]. unfold main_files.
  destruct (years_reply w roi Getdata.YEARS _) as [l|]; [|discriminate].
  destruct (Getdata.images_info l) as [|e es] eqn:Hl; injection Hr as <-;
    cbn [Getdata.config Getdata.accepted].
  - split; [reflexivity|]. apply lookup_union_r. apply eq_None_not_Some. intros Hsome.
    apply years_files_years in Hsome as (y & _ & [Hn|Hn]);
      now apply (viewer_config_not_image y) in Hn.
  - split; [|split; [|repeat split]].
    + intros Hnil. change (Py.sort_by String.ltb Getdata.date (e :: es) = []) in Hnil.
      apply sort_by_nil_inv in Hnil. discriminate.
    + apply lookup_union_Some_l. apply lookup_insert_eq.
Qed.

(** A list that is in order already is left as it is. *)
Lemma sort_by_sorted {A K : Type} (ltb : K -> K -> bool) (key : A -> K) (l : list A) :
  Sorted (not_after ltb key) l -> Py.sort_by ltb key l = l.
Proof.
  induction 1 as [|x l Hs IH Hhd]; [reflexivity|].
  simpl. rewrite IH. destruct Hhd as [|y l' Hxy]; [reflexivity|].
  simpl. unfold not_after in Hxy. now rewrite Hxy.
Qed.

(** X12. [write_viewer_config] does not reorder entries whose dates are
    ascending already, equal dates included; so the images of a manifest,
    written again, come out in the same order. *)
Theorem X12_sorted_entries_stay_in_place (w : Getdata.World)
    (images_info : list Getdata.Entry) (s : Getdata.Effects) :
  (Sorted (fun a b => String.ltb (Getdata.date b) (Getdata.date a) = false) images_info ->
   exists c, fst (Getdata.write_viewer_config w images_info s) = Returned c /\
             Getdata.images c = images_info) /\
  (exists c c',
     fst (Getdata.write_viewer_config w images_info s) = Returned c /\
     fst (Getdata.write_viewer_config w (Getdata.images c) s) = Returned c' /\
     Getdata.images c' = Getdata.images c).
Proof.
  rewrite write_viewer_config_run. cbn [fst]. split.
  - intros Hs. eexists. split; [reflexivity|].
    unfold config_of. cbn [Getdata.images]. now apply sort_by_sorted.
  - eexists _, _. split; [reflexivity|]. rewrite write_viewer_config_run. cbn [fst].
    split; [reflexivity|]. unfold config_of. cbn [Getdata.images].
    apply sort_by_sorted. apply sort_by_Sorted. apply string_ltb_asym.
Qed.

(** X13. [initialize_ee] and the start of [main].  Without a project
    identifier (the variable unset or empty) an exception is raised before
    anything is asked of Earth Engine.  Otherwise the session opens exactly
    when the first [ee.Initialize] returns, or when it raises
    [ee.EEException] and both [ee.Authenticate] and the second
    [ee.Initialize] return; [ee.Authenticate] is called only after an
    [ee.EEException].  When the session does not open, [main] queries no
    catalogue and writes no file. *)
Theorem X13_session_before_any_year (e : Getdata.Session) (w : Getdata.World)
    (roi : EE.Geometry) (s : Getdata.Effects) :
  ((Getdata.project_id e = None \/ Getdata.project_id e = Some "") ->
   Getdata.initialize_ee e = (Raised, [])) /\
  (fst (Getdata.initialize_ee e) = Returned tt <->
   exists project,
     Getdata.project_id e = Some project /\ project <> "" /\
     (Getdata.first_init e = Getdata.Init_ok \/
      (Getdata.first_init e = Getdata.Init_EEException /\
       Getdata.authenticate_ok e = true /\
       Getdata.second_init e = Getdata.Init_ok))) /\
  (In Getdata.Authenticate (snd (Getdata.initialize_ee e)) ->
   Getdata.first_init e = Getdata.Init_EEException) /\
  (fst (Getdata.initialize_ee e) = Raised ->
   fst (Getdata.main_with_init e w roi s) = (Raised, s)).
Proof.
  split; [|split; [|split]].
  - intros [H|H]; unfold Getdata.initialize_ee; rewrite H; reflexivity.
  - unfold Getdata.initialize_ee.
    destruct (Getdata.project_id e) as [p|]; [|split; [discriminate|intros (q & [=] & _)]].
    destruct (String.eqb_spec p "") as [->|Hne].
    { split; [discriminate|]. intros (q & [= <-] & Hq & _). contradiction. }
    destruct (Getdata.first_init e) eqn:Hf;
      [|destruct (Getdata.authenticate_ok e) eqn:Ha;
        [destruct (Getdata.second_init e) eqn:Hs|]|];
      cbn [fst]; split; try discriminate;
      try (intros _; exists p; split; [reflexivity|split; [assumption|auto]]);
      intros (q & _ & _ & [Hc|(Hc1 & Hc2 & Hc3)]); congruence.
  - unfold Getdata.initialize_ee.
    destruct (Getdata.project_id e) as [p|]; [|intros []].
    destruct (String.eqb p ""); [intros []|].
    destruct (Getdata.first_init e); [|reflexivity|]; simpl;
      intros [[=]|[]].
  - unfold Getdata.main_with_init.
    destruct (Getdata.initialize_ee e) as [[[]|] calls]; [discriminate|reflexivity].
Qed.

(** ** The analysis script: the aligner *)

(** The dictionary's file is in the output directory. *)
Definition present (d : gmap string Analysis.File) (info : Analysis.Info) : bool :=
  bool_decide (is_Some (d !! Analysis.filename info)).

(** The arrays loaded are those of the dictionaries whose file exists, in
    order. *)
Lemma load_images_present pil d (infos : list Analysis.Info) : forall imgs,
  Analysis.load_images pil d infos = Returned imgs ->
  Forall2 (stored pil d) (List.filter (present d) infos) imgs.
Proof.
  induction infos as [|info infos IH]; intros imgs; simpl.
  - intros [= <-]. constructor.
  - unfold present at 1.
    destruct (d !! Analysis.filename info) as [[b|c]|] eqn:Hd; [| discriminate |].
    + rewrite bool_decide_eq_true_2 by eauto.
      destruct (pil_open pil b) as [a|] eqn:Ha; [|discriminate].
      destruct (Analysis.load_images pil d infos) as [l|]; [|discriminate].
      intros [= <-]. constructor; [exists b; auto|now apply IH].
    + rewrite bool_decide_eq_false_2 by (intros [? ?]; discriminate). apply IH.
Qed.

Lemma load_images_length pil d (infos : list Analysis.Info) : forall imgs,
  Analysis.load_images pil d infos = Returned imgs -> (length imgs <= length infos)%nat.
Proof.
  induction infos as [|info infos IH]; intros imgs; simpl.
  - intros [= <-]. simpl. lia.
  - destruct (d !! Analysis.filename info) as [[b|c]|]; [| discriminate |].
    + destruct (pil_open pil b); [|discriminate].
      destruct (Analysis.load_images pil d infos) as [l|]; [|discriminate].
      intros [= <-]. specialize (IH l eq_refl). simpl. lia.
    + intros H. specialize (IH imgs H). lia.
Qed.

Lemma align_images_run pil d (infos : list Analysis.Info) (ref : Raster)
    (rest : list Raster) :
  Analysis.load_images pil d infos = Returned (ref :: rest) ->
  Analysis.align_images pil infos d =
  (Returned (zip_with (aligned_info (rows ref) (cols ref)) (ref :: rest) infos),
   write_all (zip_with (aligned_file pil (rows ref) (cols ref)) (ref :: rest) infos) d).
Proof.
  intros Hload. destruct infos as [|info infos]; [discriminate|].
  unfold Analysis.align_images, mbind, Analysis.M_bind, Analysis.bind, Analysis.read_disk.
  rewrite Hload. apply save_aligned_run.
Qed.

(** X14. The aligner opens the files that exist, in order, and attaches
    the i-th array it loaded to the i-th dictionary of the list, whether or
    not that dictionary's file is the one the array came from: the output
    has one dictionary per loaded array, and their file names are the first
    file names of the input. *)
Theorem X14_arrays_go_with_the_first_dictionaries (pil : Pillow)
    (d : gmap string Analysis.File) (infos : list Analysis.Info)
    (ref : Raster) (rest : list Raster)
    (Hload : Analysis.load_images pil d infos = Returned (ref :: rest)) :
  Forall2 (stored pil d) (List.filter (present d) infos) (ref :: rest) /\
  exists out,
    fst (Analysis.align_images pil infos d) = Returned out /\
    out = zip_with (aligned_info (rows ref) (cols ref)) (ref :: rest) infos /\
    map Analysis.filename out =
      take (length (ref :: rest)) (map Analysis.filename infos).
Proof.
  split; [now apply load_images_present|].
  rewrite (align_images_run _ _ _ _ _ Hload). eexists. split; [reflexivity|].
  split; [reflexivity|].
  pose proof (load_images_length _ _ _ _ Hload) as Hlen.
  clear Hload. generalize dependent infos. generalize (ref :: rest) as imgs.
  generalize (rows ref), (cols ref). intros h w imgs.
  induction imgs as [|img imgs IH]; intros infos Hlen; [reflexivity|].
  destruct infos as [|info infos]; [simpl in Hlen; lia|].
  simpl. f_equal. apply IH. simpl in Hlen. lia.
Qed.

Lemma load_images_raises pil d (infos : list Analysis.Info) (info : Analysis.Info) :
  In info infos ->
  (exists b, d !! Analysis.filename info = Some (Analysis.Raw b) /\ pil_open pil b = None) \/
  (exists c, d !! Analysis.filename info = Some (Analysis.Json c)) ->
  Analysis.load_images pil d infos = Raised.
Proof.
  induction infos as [|i0 infos IH]; intros Hin Hbad; [destruct Hin|].
  simpl. destruct Hin as [->|Hin].
  - destruct Hbad as [(b & -> & ->)|(c & ->)]; reflexivity.
  - rewrite (IH Hin Hbad).
    destruct (d !! Analysis.filename i0) as [[b|c]|]; try reflexivity.
    now destruct (pil_open pil b).
Qed.

(** X15. A stored file that Pillow cannot open stops the aligner: when
    the file of any dictionary of the list is there and is no picture, the
    aligner raises, and it has written nothing. *)
Theorem X15_unreadable_file_stops_the_aligner (pil : Pillow)
    (d : gmap string Analysis.File) (infos : list Analysis.Info)
    (info : Analysis.Info) (b : list byte)
    (Hin : In info infos)
    (Hfile : d !! Analysis.filename info = Some (Analysis.Raw b))
    (Hbad : pil_open pil b = None) :
  Analysis.align_images pil infos d = (Raised, d).
Proof.
  destruct infos as [|i0 infos]; [destruct Hin|].
  unfold Analysis.align_images, mbind, Analysis.M_bind, Analysis.bind, Analysis.read_disk.
  rewrite (load_images_raises pil d (i0 :: infos) info Hin); [reflexivity|].
  left. eauto.
Qed.

Lemma write_all_other (files : list (string * Analysis.File)) : forall d name,
  (forall f, In f files -> f.1 <> name) -> write_all files d !! name = d !! name.
Proof.
  induction files as [|f files IH]; intros d name Hname; [reflexivity|].
  unfold write_all in *. simpl. rewrite IH by (intros; apply Hname; now right).
  apply lookup_insert_ne. apply Hname. now left.
Qed.

Lemma aligned_file_In pil h w (imgs : list Raster) : forall (infos : list Analysis.Info) f,
  In f (zip_with (aligned_file pil h w) imgs infos) ->
  exists img info, In info infos /\ f = aligned_file pil h w img info.
Proof.
  induction imgs as [|img imgs IH]; intros [|info infos] f; simpl; try tauto.
  intros [<-|Hf]; [exists img, info; auto|].
  destruct (IH _ _ Hf) as (img' & info' & Hin & ->). exists img', info'. auto.
Qed.

Lemma aligned_prefix (x : string) : String.prefix "aligned_" ("aligned_" +:+ x) = true.
Proof. apply prefix_spec. now exists x. Qed.

(** X16. The aligner writes under names that start with [aligned_] only:
    every other file of the output directory, the downloads included, is
    left as it was, whatever the aligner returns. *)
Theorem X16_aligner_writes_aligned_names_only (pil : Pillow)
    (d : gmap string Analysis.File) (infos : list Analysis.Info) (name : string)
    (Hname : String.prefix "aligned_" name = false) :
  snd (Analysis.align_images pil infos d) !! name = d !! name.
Proof.
  destruct infos as [|i0 infos]; [reflexivity|].
  destruct (Analysis.load_images pil d (i0 :: infos)) as [[|ref rest]|] eqn:Hload.
  - unfold Analysis.align_images, mbind, Analysis.M_bind, Analysis.bind,
      Analysis.read_disk. now rewrite Hload.
  - rewrite (align_images_run _ _ _ _ _ Hload). cbn [snd].
    apply write_all_other. intros f Hf.
    apply aligned_file_In in Hf as (img & info & _ & ->). cbn [fst aligned_file].
    intros <-. rewrite aligned_prefix in Hname. discriminate.
  - unfold Analysis.align_images, mbind, Analysis.M_bind, Analysis.bind,
      Analysis.read_disk. now rewrite Hload.
Qed.

(** ** The analysis script: the manifest *)

Lemma mixed_keys_not_comparable (l : list Analysis.Info) (x y : Analysis.Info) (n : Z) :
  In x l -> In y l ->
  Analysis.timestamp x = Some n -> n <> 0 ->
  (Analysis.timestamp y = None \/ Analysis.timestamp y = Some 0) ->
  Analysis.comparable l = false.
Proof.
  intros Hx Hy Htx Hn Hty.
  destruct (Analysis.comparable l) eqn:Hc; [|reflexivity].
  pose proof (comparable_same_kind l x y Hc Hx Hy) as Hk.
  unfold Analysis.sort_key in Hk. rewrite Htx in Hk.
  destruct (Z.eqb_spec n 0); [contradiction|].
  destruct Hty as [Hty|Hty]; rewrite Hty in Hk; discriminate.
Qed.

Lemma create_viewer_config_mixed (now : string) (l : list Analysis.Info)
    (d : gmap string Analysis.File) (x y : Analysis.Info) (n : Z) :
  In x l -> In y l ->
  Analysis.timestamp x = Some n -> n <> 0 ->
  (Analysis.timestamp y = None \/ Analysis.timestamp y = Some 0) ->
  Analysis.create_viewer_config now l d = (Raised, d).
Proof.
  intros Hx Hy Htx Hn Hty.
  unfold Analysis.create_viewer_config, Analysis.sort_images.
  now rewrite (mixed_keys_not_comparable l x y n).
Qed.

(** X18. [create_viewer_config] cannot sort a list that holds both an
    image with a timestamp other than zero and an image without one (or
    with the timestamp zero): its keys are a number for the first and a
    string for the second, the comparison raises, and no manifest is
    written. *)
Theorem X18_mixed_keys_raise (now : string) (l : list Analysis.Info)
    (d : gmap string Analysis.File) (x y : Analysis.Info) (n : Z)
    (Hx : In x l) (Hy : In y l)
    (Htx : Analysis.timestamp x = Some n) (Hn : n <> 0)
    (Hty : Analysis.timestamp y = None \/ Analysis.timestamp y = Some 0) :
  Analysis.create_viewer_config now l d = (Raised, d).
Proof.
  unfold Analysis.create_viewer_config, Analysis.sort_images.
  now rewrite (mixed_keys_not_comparable l x y n).
Qed.

(** A name that was written, or held a download before, holds a download
    afterwards. *)
Definition is_raw (f : option Analysis.File) : Prop := exists b, f = Some (Analysis.Raw b).

Lemma write_all_raw (files : list (string * Analysis.File)) : forall d name,
  (forall f, In f files -> exists b, f.2 = Analysis.Raw b) ->
  is_raw (d !! name) \/ (exists f, In f files /\ f.1 = name) ->
  is_raw (write_all files d !! name).
Proof.
  induction files as [|g files IH]; intros d name Hraw Hname.
  - destruct Hname as [H|(f & [] & _)]. exact H.
  - unfold write_all in *. simpl. apply IH; [intros; apply Hraw; now right|].
    destruct (decide (g.1 = name)) as [<-|Hne].
    + left. rewrite lookup_insert_eq. destruct (Hraw g) as [b Hb]; [now left|].
      exists b. now rewrite Hb.
    + rewrite lookup_insert_ne by assumption.
      destruct Hname as [H|(f & [->|Hf] & Hk)]; [now left|contradiction|eauto].
Qed.

Lemma aligned_info_In h w (imgs : list Raster) : forall (infos : list Analysis.Info) o,
  In o (zip_with (aligned_info h w) imgs infos) ->
  exists img info, In info infos /\ o = aligned_info h w img info.
Proof.
  induction imgs as [|img imgs IH]; intros [|info infos] o; simpl; try tauto.
  intros [<-|Ho]; [exists img, info; auto|].
  destruct (IH _ _ Ho) as (img' & info' & Hin & ->). exists img', info'. auto.
Qed.

Lemma aligned_file_of_info pil h w (imgs : list Raster) : forall (infos : list Analysis.Info) o,
  In o (zip_with (aligned_info h w) imgs infos) ->
  exists f, In f (zip_with (aligned_file pil h w) imgs infos) /\
            f.1 = "aligned_" +:+ Analysis.filename o.
Proof.
  induction imgs as [|img imgs IH]; intros [|info infos] o; simpl; try tauto.
  intros [<-|Ho].
  - eexists. split; [left; reflexivity|reflexivity].
  - destruct (IH _ _ Ho) as (f & Hf & Hk). eauto.
Qed.

(** X17. When the end of [main] writes a manifest, all its images have
    the same width and height, those of the first array loaded; each names
    its aligned file, [aligned_] followed by its file name, and that file is
    in the output directory; and the manifest on disk is the one
    returned. *)
Theorem X17_manifest_images_share_a_size (pil : Pillow) (now : string)
    (infos : list Analysis.Info) (d d' : gmap string Analysis.File) (c : Analysis.Config)
    (Hrun : Analysis.main_tail pil now infos d = (Returned (Some c), d')) :
  exists ref rest,
    Analysis.load_images pil d infos = Returned (ref :: rest) /\
    Forall (fun o =>
              Analysis.width o = Some (cols ref) /\
              Analysis.height o = Some (rows ref) /\
              Analysis.aligned_filename o = Some ("aligned_" +:+ Analysis.filename o) /\
              is_raw (d' !! ("aligned_" +:+ Analysis.filename o)))
      (Analysis.images c) /\
    d' !! "viewer_config.json" = Some (Analysis.Json c) /\
    Analysis.total_images c = Z.of_nat (length (Analysis.images c)).
Proof.
  unfold Analysis.main_tail, mbind, Analysis.M_bind, Analysis.bind in Hrun.
  destruct infos as [|i0 infos]; [discriminate|].
  destruct (Analysis.load_images pil d (i0 :: infos)) as [[|ref rest]|] eqn:Hload.
  - unfold Analysis.align_images, mbind, Analysis.M_bind, Analysis.bind,
      Analysis.read_disk in Hrun. rewrite Hload in Hrun. discriminate.
  - rewrite (align_images_run _ _ _ _ _ Hload) in Hrun.
    exists ref, rest. split; [reflexivity|].
    remember (zip_with (aligned_info (rows ref) (cols ref)) (ref :: rest) (i0 :: infos))
      as out eqn:Hout.
    remember (write_all (zip_with (aligned_file pil (rows ref) (cols ref)) (ref :: rest)
                           (i0 :: infos)) d) as d1 eqn:Hd1.
    destruct out as [|o os]; [discriminate|].
    unfold Analysis.create_viewer_config, mret, Analysis.M_ret, Analysis.ret,
      mbind, Analysis.M_bind, Analysis.bind, Analysis.write_file in Hrun.
    destruct (Analysis.sort_images (o :: os)) as [sorted|] eqn:Hsort; [|discriminate].
    destruct (Py.first_item sorted) as [a|]; [|discriminate].
    destruct (Py.last_item sorted) as [b|]; [|discriminate].
    injection Hrun as <- <-. cbn [Analysis.images Analysis.total_images].
    split; [|split; [apply lookup_insert_eq|reflexivity]].
    apply sort_images_Permutation in Hsort.
    eapply Permutation_Forall; [symmetry; exact Hsort|].
    apply Forall_forall. intros x Hx. apply list_elem_of_In in Hx. rewrite Hout in Hx.
    pose proof (aligned_file_of_info pil _ _ _ _ _ Hx) as (f & Hf & Hk).
    apply aligned_info_In in Hx as (img & info & _ & ->).
    repeat split.
    rewrite lookup_insert_ne by discriminate. rewrite Hd1.
    apply write_all_raw; [|right; eauto].
    intros g Hg. apply aligned_file_In in Hg as (img' & info' & _ & ->). eexists. reflexivity.
  - unfold Analysis.align_images, mbind, Analysis.M_bind, Analysis.bind,
      Analysis.read_disk in Hrun. rewrite Hload in Hrun. discriminate.
Qed.

(** ** The analysis script: the downloads and [main] *)

(** The body of a response that the download loops of the analysis script
    keep: the status is 200. *)
Definition served (f : Fetch) : option (list byte) :=
  match f with
  | Transport_error => None
  | Response status_code _ content => if status_code =? 200 then Some content else None
  end.

Definition s2_name (date_str : string) : string :=
  "sentinel2_" +:+ Py.remove_char "-"%char date_str +:+ ".png".

Definition s2_info (p : Z * string) : Analysis.Info :=
  Analysis.mkInfo (Some p.2) (Some p.1) (s2_name p.2) "Sentinel-2" None None None None.

Definition s2_hit (fetch : string -> Fetch) (p : Z * string) : bool :=
  match served (fetch p.2) with Some _ => true | None => false end.

Definition s2_files (fetch : string -> Fetch) (l : list (Z * string))
  : list (string * Analysis.File) :=
  omap (fun p => (fun content => (s2_name p.2, Analysis.Raw content)) <$> served (fetch p.2)) l.

Definition tile_name (name : string) : string :=
  name +:+ "_z" +:+ Py.str_of_int 18 +:+ ".png".

Definition tile_info (name : string) : Analysis.Info :=
  Analysis.mkInfo (Some "current") None (tile_name name) name (Some 18) None None None.

Definition tile_infos (name : string) (f : Fetch) : list Analysis.Info :=
  match served f with Some _ => [tile_info name] | None => [] end.

Definition tile_files (name : string) (f : Fetch) : list (string * Analysis.File) :=
  match served f with Some content => [(tile_name name, Analysis.Raw content)] | None => [] end.

Lemma write_all_app (f1 f2 : list (string * Analysis.File)) d :
  write_all (f1 ++ f2) d = write_all f2 (write_all f1 d).
Proof. unfold write_all. apply foldl_app. Qed.

Lemma download_step_run (f : Fetch) (date_str : string) (date_ms : Z)
    (images_info : list Analysis.Info) d :
  Analysis.download_sentinel2_step f date_str date_ms images_info d =
  match served f with
  | Some content =>
      (Returned (images_info ++
                   [Analysis.mkInfo (Some date_str) (Some date_ms) (s2_name date_str)
                      "Sentinel-2" None None None None])%list,
       <[s2_name date_str := Analysis.Raw content]> d)
  | None => (Returned images_info, d)
  end.
Proof.
  destruct f as [|st ct content]; [reflexivity|]. simpl.
  destruct (st =? 200); reflexivity.
Qed.

Lemma s2_files_cons fetch (p : Z * string) (l : list (Z * string)) :
  s2_files fetch (p :: l) =
  match served (fetch p.2) with
  | Some content => (s2_name p.2, Analysis.Raw content) :: s2_files fetch l
  | None => s2_files fetch l
  end.
Proof. unfold s2_files. simpl. now destruct (served _). Qed.

(** The loop when the date of every timestamp can be taken: [strs] are the
    dates. *)
Lemma download_each_run local_date fetch (dates : list Z) : forall strs acc d,
  map local_date dates = map Some strs ->
  Analysis.download_each local_date fetch dates acc d =
  (Returned (acc ++ map s2_info (List.filter (s2_hit fetch) (zip dates strs)))%list,
   write_all (s2_files fetch (zip dates strs)) d).
Proof.
  induction dates as [|ms dates IH]; intros [|s strs] acc d Hconv; try discriminate.
  - simpl. unfold Analysis.ret. now rewrite app_nil_r.
  - injection Hconv as Hs Hrest.
    simpl Analysis.download_each. rewrite Hs.
    unfold mbind, Analysis.M_bind, Analysis.bind.
    rewrite download_step_run. change (zip (ms :: dates) (s :: strs)) with ((ms, s) :: zip dates strs).
    rewrite s2_files_cons. simpl List.filter. unfold s2_hit at 1. cbn [fst snd].
    destruct (served (fetch s)) as [content|]; rewrite (IH _ _ _ Hrest); [|reflexivity].
    simpl. now rewrite <- app_assoc.
Qed.

(** The loop at the first timestamp whose date cannot be taken: it raises
    with the files of the earlier timestamps written. *)
Lemma download_each_stops local_date fetch (pre : list Z) :
  forall strs (date_ms : Z) (post : list Z) acc d,
  map local_date pre = map Some strs ->
  local_date date_ms = None ->
  Analysis.download_each local_date fetch (pre ++ date_ms :: post) acc d =
  (Raised, write_all (s2_files fetch (zip pre strs)) d).
Proof.
  induction pre as [|ms pre IH]; intros [|s strs] date_ms post acc d Hconv Hnone;
    try discriminate.
  - simpl. now rewrite Hnone.
  - injection Hconv as Hs Hrest.
    simpl Analysis.download_each. rewrite Hs.
    unfold mbind, Analysis.M_bind, Analysis.bind.
    rewrite download_step_run. change (zip (ms :: pre) (s :: strs)) with ((ms, s) :: zip pre strs).
    rewrite s2_files_cons. cbn [fst snd].
    destruct (served (fetch s)) as [content|]; now rewrite (IH _ _ _ _ _ Hrest Hnone).
Qed.

Lemma download_each_None local_date fetch (dates : list Z) :
  In None (map local_date dates) ->
  forall acc d, fst (Analysis.download_each local_date fetch dates acc d) = Raised.
Proof.
  induction dates as [|ms dates IH]; intros Hin acc d; [destruct Hin|].
  simpl Analysis.download_each.
  destruct (local_date ms) as [s|] eqn:Hs; [|reflexivity].
  unfold mbind, Analysis.M_bind, Analysis.bind. rewrite download_step_run.
  destruct Hin as [Hin|Hin]; [simpl in Hin; congruence|].
  destruct (served (fetch s)); now apply IH.
Qed.

(** X19. The download loop of the analysis script goes through the first
    fifty timestamps only.  When the local date of each of them can be
    taken, it returns, in order, one dictionary for each of them whose
    request came back with status 200, whatever the content type and the
    body, with the local date of the timestamp, the timestamp, and a file
    name made of the date without its dashes; the list has at most fifty
    dictionaries.  When the date of one of them cannot be taken (a timestamp
    out of the range of [datetime], converted before the [try]), the
    function raises instead of returning a list: it stops at the first such
    timestamp, with the files of the earlier ones written. *)
Theorem X19_download_loop_keeps_status_200 (local_date : Z -> option string)
    (fetch : string -> Fetch) (dates : list Z) (d : gmap string Analysis.File) :
  (forall strs,
     map local_date (take 50 dates) = map Some strs ->
     exists out,
       fst (Analysis.download_sentinel2_images local_date fetch dates d) = Returned out /\
       out = map s2_info
               (List.filter (fun p => match fetch p.2 with
                                      | Response 200 _ _ => true
                                      | _ => false
                                      end) (zip (take 50 dates) strs)) /\
       (length out <= 50)%nat) /\
  (In None (map local_date (take 50 dates)) ->
   fst (Analysis.download_sentinel2_images local_date fetch dates d) = Raised) /\
  (forall pre date_ms post strs,
     take 50 dates = (pre ++ date_ms :: post)%list ->
     map local_date pre = map Some strs ->
     local_date date_ms = None ->
     Analysis.download_sentinel2_images local_date fetch dates d =
     (Raised, write_all (s2_files fetch (zip pre strs)) d)).
Proof.
  unfold Analysis.download_sentinel2_images. split; [|split].
  - intros strs Hconv. rewrite (download_each_run _ _ _ _ _ _ Hconv). cbn [fst app].
    eexists. split; [reflexivity|].
    assert (forall l, List.filter (s2_hit fetch) l =
                      List.filter (fun p : Z * string =>
                                     match fetch p.2 with
                                     | Response 200 _ _ => true
                                     | _ => false
                                     end) l) as Hsame.
    { intros l. apply List.filter_ext. intros p. unfold s2_hit, served.
      destruct (fetch p.2) as [|st ct content]; [reflexivity|].
      destruct (Z.eqb_spec st 200) as [->|Hne]; [reflexivity|].
      destruct st as [|q|q]; try reflexivity.
      repeat (destruct q as [q|q|]; try reflexivity); contradiction. }
    rewrite Hsame. split; [reflexivity|].
    rewrite length_map. etransitivity; [apply List.filter_length_le|].
    rewrite length_zip_with, length_take. lia.
  - intros Hin. now apply download_each_None.
  - intros pre date_ms post strs -> Hconv Hnone. now apply download_each_stops.
Qed.

Lemma static_tile_step_run (name : string) (f : Fetch) (images_info : list Analysis.Info) d :
  Analysis.static_tile_step name f images_info d =
  (Returned (images_info ++ tile_infos name f)%list, write_all (tile_files name f) d).
Proof.
  unfold Analysis.static_tile_step, tile_infos, tile_files, served.
  destruct f as [|st ct content]; [simpl; unfold Analysis.ret; now rewrite app_nil_r|].
  destruct (st =? 200); [reflexivity|].
  simpl. unfold Analysis.ret. now rewrite app_nil_r.
Qed.

Lemma download_static_run (esri google : Fetch) d :
  Analysis.download_static_satellite_tiles esri google d =
  (Returned (tile_infos "esri_world" esri ++ tile_infos "google_satellite" google)%list,
   write_all (tile_files "esri_world" esri ++ tile_files "google_satellite" google) d).
Proof.
  unfold Analysis.download_static_satellite_tiles, mbind, Analysis.M_bind, Analysis.bind.
  rewrite !static_tile_step_run, write_all_app. reflexivity.
Qed.

(** A file that Pillow opens. *)
Definition opens (pil : Pillow) (f : Analysis.File) : Prop :=
  exists b, f = Analysis.Raw b /\ is_Some (pil_open pil b).

Lemma write_all_sat (P : Analysis.File -> Prop) (files : list (string * Analysis.File)) :
  forall d name,
  (forall f, In f files -> P f.2) ->
  (exists x, d !! name = Some x /\ P x) \/ (exists f, In f files /\ f.1 = name) ->
  exists x, write_all files d !! name = Some x /\ P x.
Proof.
  induction files as [|g files IH]; intros d name HP Hname.
  - destruct Hname as [H|(f & [] & _)]. exact H.
  - unfold write_all in *. simpl. apply IH; [intros; apply HP; now right|].
    destruct (decide (g.1 = name)) as [<-|Hne].
    + left. rewrite lookup_insert_eq. exists g.2. split; [reflexivity|apply HP; now left].
    + rewrite lookup_insert_ne by assumption.
      destruct Hname as [H|(f & [->|Hf] & Hk)]; [now left|contradiction|eauto].
Qed.

(** When the file of every dictionary is one that Pillow opens, one array
    is loaded per dictionary. *)
Lemma stored_frames pil d (infos : list Analysis.Info) :
  (forall info, In info infos ->
     exists x, d !! Analysis.filename info = Some x /\ opens pil x) ->
  exists imgs, Forall2 (stored pil d) infos imgs.
Proof.
  induction infos as [|info infos IH]; intros H.
  - exists []. constructor.
  - destruct IH as [imgs Himgs]; [intros; apply H; now right|].
    destruct (H info) as (x & Hx & b & -> & a & Ha); [now left|].
    exists (a :: imgs). constructor; [|assumption]. exists b. auto.
Qed.

(** When every dictionary's file is a download, the aligner loads one array
    per dictionary or raises. *)
Lemma load_images_one_each pil d (infos : list Analysis.Info) : forall imgs,
  (forall info, In info infos -> is_raw (d !! Analysis.filename info)) ->
  Analysis.load_images pil d infos = Returned imgs -> length imgs = length infos.
Proof.
  induction infos as [|info infos IH]; intros imgs Hraw Hload.
  - injection Hload as <-. reflexivity.
  - simpl in Hload. destruct (Hraw info) as [b Hb]; [now left|]. rewrite Hb in Hload.
    destruct (pil_open pil b); [|discriminate].
    destruct (Analysis.load_images pil d infos) as [l|] eqn:Hl; [|discriminate].
    injection Hload as <-. simpl. f_equal.
    apply IH; [intros; apply Hraw; now right|reflexivity].
Qed.

Lemma align_images_raises pil d (infos : list Analysis.Info) :
  Analysis.load_images pil d infos = Raised ->
  Analysis.align_images pil infos d = (Raised, d).
Proof.
  intros Hload. destruct infos as [|info infos]; [discriminate|].
  unfold Analysis.align_images, mbind, Analysis.M_bind, Analysis.bind, Analysis.read_disk.
  now rewrite Hload.
Qed.

Lemma aligned_info_of_info h w (imgs : list Raster) : forall (infos : list Analysis.Info) info,
  length imgs = length infos -> In info infos ->
  exists img, In (aligned_info h w img info) (zip_with (aligned_info h w) imgs infos).
Proof.
  induction imgs as [|img imgs IH]; intros [|i0 infos] info Hlen Hin;
    try discriminate; [destruct Hin|].
  destruct Hin as [->|Hin].
  - exists img. now left.
  - destruct (IH infos info) as [img' H']; [simpl in Hlen; lia|assumption|].
    exists img'. now right.
Qed.

Lemma tile_files_In (name : string) (x : Fetch) (f : string * Analysis.File) :
  In f (tile_files name x) <->
  exists c, served x = Some c /\ f = (tile_name name, Analysis.Raw c).
Proof.
  unfold tile_files. destruct (served x) as [c|]; simpl.
  - split; [intros [<-|[]]; eauto|]. intros (c' & [= <-] & ->). now left.
  - split; [intros []|intros (c & [=] & _)].
Qed.

Lemma tile_infos_In (name : string) (x : Fetch) (info : Analysis.Info) :
  In info (tile_infos name x) <-> is_Some (served x) /\ info = tile_info name.
Proof.
  unfold tile_infos. destruct (served x) as [c|]; simpl.
  - split; [intros [<-|[]]; eauto|]. intros [_ ->]. now left.
  - split; [intros []|intros [[? [=]] _]].
Qed.

Lemma s2_files_In fetch (l : list (Z * string)) (f : string * Analysis.File) :
  In f (s2_files fetch l) <->
  exists p c, In p l /\ served (fetch p.2) = Some c /\ f = (s2_name p.2, Analysis.Raw c).
Proof.
  unfold s2_files. rewrite <- list_elem_of_In, list_elem_of_omap. split.
  - intros (p & Hin & Hf). destruct (served _) as [c|] eqn:Hc; [|discriminate].
    injection Hf as <-. exists p, c. split; [now apply list_elem_of_In|auto].
  - intros (p & c & Hin & Hc & ->). exists p. split; [now apply list_elem_of_In|].
    now rewrite Hc.
Qed.

(** X20. [main] of the analysis script cannot finish when both kinds of
    download succeed: if the local date of each of the first fifty
    timestamps can be taken, one of them (not zero) gets a response with
    status 200, and one of the two tile servers answers with status 200,
    then [main] raises and leaves the manifest as it was, whatever Pillow
    makes of the bodies received: either it cannot open one of them and the
    aligner raises, or the aligned images carry both a timestamp key and a
    date key and the sort of the manifest raises. *)
Theorem X20_both_sources_break_the_manifest (pil : Pillow) (now : string)
    (local_date : Z -> option string) (fetch : string -> Fetch) (dates : list Z)
    (strs : list string)
    (esri_world google_satellite : Fetch) (d : gmap string Analysis.File)
    (date_ms : Z) (date_str : string)
    (Hconv : map local_date (take 50 dates) = map Some strs)
    (Hms : In (date_ms, date_str) (zip (take 50 dates) strs)) (Hnz : date_ms <> 0)
    (Hs2 : is_Some (served (fetch date_str)))
    (Htile : is_Some (served esri_world) \/ is_Some (served google_satellite)) :
  fst (Analysis.main pil now local_date fetch (Some dates) esri_world google_satellite d)
    = Raised /\
  snd (Analysis.main pil now local_date fetch (Some dates) esri_world google_satellite d)
    !! "viewer_config.json" = d !! "viewer_config.json".
Proof.
  unfold Analysis.main, Analysis.try_extend, Analysis.download_sentinel2_images, mbind,
    Analysis.M_bind, Analysis.bind.
  rewrite (download_each_run _ _ _ _ _ _ Hconv), download_static_run. cbn [app].
  set (gee := map s2_info (List.filter (s2_hit fetch) (zip (take 50 dates) strs))).
  set (tiles := (tile_infos "esri_world" esri_world ++
                 tile_infos "google_satellite" google_satellite)%list).
  set (files := (tile_files "esri_world" esri_world ++
                 tile_files "google_satellite" google_satellite)%list).
  set (d2 := write_all files (write_all (s2_files fetch (zip (take 50 dates) strs)) d)).
  assert (In (s2_info (date_ms, date_str)) (gee ++ tiles)) as Hx.
  { apply in_or_app. left. apply in_map. apply List.filter_In. split; [assumption|].
    unfold s2_hit. cbn [snd]. now destruct Hs2 as [c ->]. }
  assert (exists name, In (tile_info name) (gee ++ tiles)) as [name Hy].
  { destruct Htile as [Hc|Hc]; [exists "esri_world"|exists "google_satellite"];
      apply in_or_app; right; apply in_or_app; [left|right];
      apply tile_infos_In; auto. }
  assert (forall f, In f files -> exists b, f.2 = Analysis.Raw b) as Hfiles.
  { intros f Hf. apply in_app_or in Hf as [Hf|Hf];
      apply tile_files_In in Hf as (c & _ & ->); eexists; reflexivity. }
  assert (forall info, In info (gee ++ tiles) -> is_raw (d2 !! Analysis.filename info))
    as Hraw.
  { intros info Hin. unfold d2. apply write_all_raw; [exact Hfiles|].
    apply in_app_or in Hin as [Hin|Hin].
    - left. apply write_all_raw.
      + intros f Hf. apply s2_files_In in Hf as (p & c & _ & _ & ->).
        eexists. reflexivity.
      + right. apply in_map_iff in Hin as (p & <- & Hin).
        apply List.filter_In in Hin as [Hin Hhit]. unfold s2_hit in Hhit.
        destruct (served (fetch p.2)) as [c|] eqn:Hc; [|discriminate].
        exists (s2_name p.2, Analysis.Raw c). split; [|reflexivity].
        apply s2_files_In. eauto.
    - right. apply in_app_or in Hin as [Hin|Hin];
        apply tile_infos_In in Hin as [[c Hc] ->].
      + exists (tile_name "esri_world", Analysis.Raw c). split; [|reflexivity].
        apply in_or_app. left. apply tile_files_In. eauto.
      + exists (tile_name "google_satellite", Analysis.Raw c). split; [|reflexivity].
        apply in_or_app. right. apply tile_files_In. eauto. }
  assert (d2 !! "viewer_config.json" = d !! "viewer_config.json") as Hd2.
  { unfold d2. rewrite !write_all_other; [reflexivity| |].
    - intros f Hf. apply s2_files_In in Hf as (p & c & _ & _ & ->). discriminate.
    - intros f Hf. apply in_app_or in Hf as [Hf|Hf];
        apply tile_files_In in Hf as (c & _ & ->); discriminate. }
  unfold Analysis.main_tail, mbind, Analysis.M_bind, Analysis.bind.
  destruct (Analysis.load_images pil d2 (gee ++ tiles)) as [imgs|] eqn:Hload.
  - pose proof (load_images_one_each pil d2 _ _ Hraw Hload) as Hlen.
    destruct imgs as [|ref rest].
    { destruct (gee ++ tiles)%list; [destruct Hx|discriminate]. }
    rewrite (align_images_run _ _ _ _ _ Hload).
    destruct (aligned_info_of_info (rows ref) (cols ref) _ _ _ Hlen Hx) as [ix Hax].
    destruct (aligned_info_of_info (rows ref) (cols ref) _ _ _ Hlen Hy) as [iy Hay].
    set (out := zip_with (aligned_info (rows ref) (cols ref)) (ref :: rest)
                  (gee ++ tiles)%list) in *.
    set (d3 := write_all _ d2).
    assert (Analysis.create_viewer_config now out d3 = (Raised, d3)) as Hraise.
    { apply (create_viewer_config_mixed now out d3 _ _ date_ms Hax Hay);
        [reflexivity|assumption|now left]. }
    destruct out as [|o os]; [destruct Hax|]. rewrite Hraise. cbn [fst snd].
    split; [reflexivity|].
    unfold d3. rewrite write_all_other; [exact Hd2|].
    intros f Hf. apply aligned_file_In in Hf as (img & info & _ & ->). discriminate.
  - rewrite (align_images_raises _ _ _ Hload). cbn [fst snd]. split; [reflexivity|exact Hd2].
Qed.

Lemma forallb_aligned (p : Analysis.Key -> bool) h w (imgs : list Raster) :
  forall infos : list Analysis.Info,
  length imgs = length infos ->
  forallb (fun y => p (Analysis.sort_key y)) (zip_with (aligned_info h w) imgs infos) =
  forallb (fun y => p (Analysis.sort_key y)) infos.
Proof.
  induction imgs as [|img imgs IH]; intros [|info infos] Hlen; try discriminate;
    [reflexivity|].
  simpl. f_equal. apply IH. simpl in Hlen. lia.
Qed.

(** The aligner keeps the sort keys. *)
Lemma comparable_aligned h w (imgs : list Raster) (infos : list Analysis.Info) :
  length imgs = length infos ->
  Analysis.comparable (zip_with (aligned_info h w) imgs infos) = Analysis.comparable infos.
Proof.
  destruct imgs as [|img imgs], infos as [|info infos]; intros Hlen; try discriminate;
    [reflexivity|].
  simpl. apply (forallb_aligned (Analysis.same_kind (Analysis.sort_key info))).
  simpl in Hlen. lia.
Qed.

(** X22. A rejected download is not made up for by the other source: in a
    year for which an image is selected and its download is rejected, the
    iteration adds the year to [failed_years], leaves the accepted entries
    and the output directory as they were, and makes no catalogue query
    beyond those of the selection. *)
Theorem X22_no_fallback_after_a_rejected_download (w : Getdata.World)
    (roi : EE.Geometry) (year : Z) (l : Getdata.Lists) (s : Getdata.Effects)
    (sel : Getdata.Selection)
    (Hsel : fst (Getdata.select w roi year s) = Returned (Some sel))
    (Hrej : fst (Getdata.download_image w (Getdata.sel_image sel) roi (Getdata.sel_vis sel)
                   (Getdata.sel_filename sel) (snd (Getdata.select w roi year s)))
            = Returned false) :
  Getdata.year_body w roi year l s =
  (Returned (Getdata.mkLists (Getdata.images_info l) (Getdata.failed_years l ++ [year])),
   snd (Getdata.select w roi year s)) /\
  Getdata.disk (snd (Getdata.select w roi year s)) = Getdata.disk s.
Proof.
  rewrite year_body_run. unfold year_outcome.
  rewrite select_run in *. cbn [fst snd] in *. rewrite Hsel.
  rewrite download_image_run in Hrej.
  destruct (valid_payload _ _); [discriminate|]. split; reflexivity.
Qed.

(** What the end of [main] does on frames that are stored, open as
    pictures and have keys of one kind. *)
Lemma main_tail_returns (pil : Pillow) (now : string)
    (infos : list Analysis.Info) (imgs : list Raster) (d : gmap string Analysis.File) :
  Forall2 (stored pil d) infos imgs ->
  infos <> [] ->
  Analysis.comparable infos = true ->
  exists ref rest c,
    imgs = ref :: rest /\
    Analysis.main_tail pil now infos d =
      (Returned (Some c),
       <["viewer_config.json" := Analysis.Json c]>
         (write_all (zip_with (aligned_file pil (rows ref) (cols ref)) (ref :: rest) infos)
            d)) /\
    Permutation (Analysis.images c)
      (zip_with (aligned_info (rows ref) (cols ref)) (ref :: rest) infos) /\
    exists a b,
      In a (Analysis.images c) /\ In b (Analysis.images c) /\
      Analysis.date_range_start c = default "unknown" (Analysis.date a) /\
      Analysis.date_range_end c = default "unknown" (Analysis.date b).
Proof.
  intros Hstored Hne Hkeys.
  pose proof (load_images_stored _ _ _ _ Hstored) as Hload.
  pose proof (Forall2_length _ _ _ Hstored) as Hlen. symmetry in Hlen.
  destruct imgs as [|ref rest]; [destruct infos; [contradiction|discriminate]|].
  exists ref, rest.
  unfold Analysis.main_tail, mbind, Analysis.M_bind, Analysis.bind.
  rewrite (align_images_run _ _ _ _ _ Hload).
  pose proof (comparable_aligned (rows ref) (cols ref) _ _ Hlen) as Hcmp.
  rewrite Hkeys in Hcmp.
  remember (zip_with (aligned_info (rows ref) (cols ref)) (ref :: rest) infos) as out.
  remember (write_all _ d) as d1.
  destruct out as [|o os]; [destruct infos; [contradiction|discriminate]|].
  unfold Analysis.create_viewer_config, Analysis.sort_images. rewrite Hcmp.
  pose proof (sort_by_Permutation Analysis.key_ltb Analysis.sort_key (o :: os)) as Hperm.
  destruct (Py.sort_by Analysis.key_ltb Analysis.sort_key (o :: os)) as [|a sorted] eqn:Hs;
    [apply Permutation_nil in Hperm; discriminate|].
  unfold Py.first_item, Py.last_item. simpl head.
  destruct (last_is_Some (a :: sorted)) as [_ [b Hb]]; [discriminate|]. rewrite Hb.
  eexists. split; [reflexivity|]. split; [reflexivity|].
  cbn [Analysis.images Analysis.date_range_start Analysis.date_range_end].
  split; [exact Hperm|]. exists a, b. split; [now left|].
  split; [|split; reflexivity].
  apply list_elem_of_In. apply last_Some_elem_of. exact Hb.
Qed.

(** X21. The end of [main] succeeds on frames that are stored, open as
    pictures and have keys of one kind (all with a timestamp, or all
    without): for a non-empty list of frames whose files hold what Pillow
    opens as [imgs], it aligns every one of them and writes a manifest that
    lists as many images as there were frames. *)
Theorem X21_one_kind_of_frames_gets_a_manifest (pil : Pillow) (now : string)
    (infos : list Analysis.Info) (imgs : list Raster) (d : gmap string Analysis.File)
    (Hstored : Forall2 (stored pil d) infos imgs)
    (Hne : infos <> [])
    (Hkeys : Analysis.comparable infos = true) :
  exists c d',
    Analysis.main_tail pil now infos d = (Returned (Some c), d') /\
    length (Analysis.images c) = length infos /\
    d' !! "viewer_config.json" = Some (Analysis.Json c).
Proof.
  destruct (main_tail_returns pil now infos imgs d Hstored Hne Hkeys)
    as (ref & rest & c & -> & Hrun & Hperm & _).
  exists c. eexists. split; [exact Hrun|]. split; [|apply lookup_insert_eq].
  apply Permutation_length in Hperm. rewrite Hperm, length_zip_with.
  apply Forall2_length in Hstored. lia.
Qed.

(** X23. With the Sentinel-2 download failing the analysis script still
    makes its manifest from the tiles: when [download_sentinel2_images]
    raises, before its loop ([dates] is [None]) or inside it (the date of
    one of the first fifty timestamps cannot be taken), Pillow opens the
    tile bodies received and a tile server answers with status 200, [main]
    returns a manifest with one image per server that answered, each dated
    ["current"] and without a timestamp, and with both ends of [date_range]
    equal to ["current"]. *)
Theorem X23_tiles_alone_make_a_manifest (pil : Pillow) (now : string)
    (local_date : Z -> option string) (fetch : string -> Fetch) (dates : option (list Z))
    (esri_world google_satellite : Fetch) (d : gmap string Analysis.File)
    (Hdown : match dates with
             | Some ds => In None (map local_date (take 50 ds))
             | None => True
             end)
    (Hdec : forall c, served esri_world = Some c \/ served google_satellite = Some c ->
                      is_Some (pil_open pil c))
    (Htile : is_Some (served esri_world) \/ is_Some (served google_satellite)) :
  exists c d',
    Analysis.main pil now local_date fetch dates esri_world google_satellite d =
      (Returned (Some c), d') /\
    length (Analysis.images c) =
      length (tile_infos "esri_world" esri_world ++
              tile_infos "google_satellite" google_satellite)%list /\
    Forall (fun o => Analysis.date o = Some "current" /\ Analysis.timestamp o = None)
      (Analysis.images c) /\
    Analysis.date_range_start c = "current" /\
    Analysis.date_range_end c = "current".
Proof.
  unfold Analysis.main, Analysis.try_extend, mbind, Analysis.M_bind, Analysis.bind.
  assert (exists d1,
            match dates with
            | Some ds => Analysis.download_sentinel2_images local_date fetch ds
            | None => Analysis.raise
            end d = (Raised, d1)) as [d1 Hd1].
  { destruct dates as [ds|]; [|eexists; reflexivity].
    pose proof (download_each_None local_date fetch (take 50 ds) Hdown [] d) as Hr.
    unfold Analysis.download_sentinel2_images.
    destruct (Analysis.download_each _ _ _ _ _) as [r d1]. simpl in Hr. subst r.
    now exists d1. }
  rewrite Hd1. rewrite download_static_run. cbn [app].
  set (tiles := (tile_infos "esri_world" esri_world ++
                 tile_infos "google_satellite" google_satellite)%list).
  set (files := (tile_files "esri_world" esri_world ++
                 tile_files "google_satellite" google_satellite)%list).
  assert (forall info, In info tiles ->
            Analysis.date info = Some "current" /\ Analysis.timestamp info = None) as Hcur.
  { intros info Hin. apply in_app_or in Hin as [Hin|Hin];
      apply tile_infos_In in Hin as [_ ->]; split; reflexivity. }
  assert (tiles <> []) as Hne.
  { unfold tiles, tile_infos. destruct Htile as [[c ->]|[c ->]];
      [discriminate|destruct (served esri_world); discriminate]. }
  assert (Analysis.comparable tiles = true) as Hkeys.
  { destruct tiles as [|x tiles'] eqn:Ht; [reflexivity|]. simpl. apply forallb_forall.
    intros y Hy. unfold Analysis.sort_key.
    destruct (Hcur x) as [_ ->]; [now left|].
    destruct (Hcur y) as [_ ->]; [now right|]. reflexivity. }
  assert (forall info, In info tiles ->
            exists x, write_all files d1 !! Analysis.filename info = Some x /\ opens pil x)
    as Hopen.
  { intros info Hin. apply write_all_sat.
    - intros f Hf. apply in_app_or in Hf as [Hf|Hf];
        apply tile_files_In in Hf as (c & Hc & ->); exists c; split; auto.
    - right. apply in_app_or in Hin as [Hin|Hin];
        apply tile_infos_In in Hin as [[c Hc] ->].
      + exists (tile_name "esri_world", Analysis.Raw c). split; [|reflexivity].
        apply in_or_app. left. apply tile_files_In. eauto.
      + exists (tile_name "google_satellite", Analysis.Raw c). split; [|reflexivity].
        apply in_or_app. right. apply tile_files_In. eauto. }
  destruct (stored_frames pil _ _ Hopen) as [imgs Hstored].
  destruct (main_tail_returns pil now tiles imgs (write_all files d1) Hstored Hne Hkeys)
    as (ref & rest & c & -> & Hrun & Hperm & a & b & Ha & Hb & Hstart & Hend).
  exists c. eexists. split; [exact Hrun|].
  assert (forall o, In o (Analysis.images c) ->
            Analysis.date o = Some "current" /\ Analysis.timestamp o = None) as Himg.
  { intros o Ho. apply (Permutation_in _ Hperm) in Ho.
    apply aligned_info_In in Ho as (img & info & Hin & ->). exact (Hcur info Hin). }
  split; [|split; [|split]].
  - apply Permutation_length in Hperm. rewrite Hperm, length_zip_with.
    apply Forall2_length in Hstored. lia.
  - apply Forall_forall. intros o Ho. apply Himg. now apply list_elem_of_In.
  - rewrite Hstart. destruct (Himg a Ha) as [-> _]. reflexivity.
  - rewrite Hend. destruct (Himg b Hb) as [-> _]. reflexivity.
Qed.

(** X24. A run of the main downloader touches nothing but its own files:
    a file of the output directory that is neither [viewer_config.json] nor
    the image file of a year of the range is the same after [main] as
    before, whether [main] returns or raises. *)
Theorem X24_other_files_are_left_alone (w : Getdata.World) (roi : EE.Geometry)
    (s : Getdata.Effects) (name : string)
    (Hmanifest : name <> "viewer_config.json")
    (Himage : forall year, In year Getdata.YEARS ->
                name <> "sentinel2_" +:+ Py.str_of_int year +:+ ".png" /\
                name <> "landsat8_" +:+ Py.str_of_int year +:+ ".png") :
  Getdata.disk (snd (Getdata.main w roi s)) !! name = Getdata.disk s !! name.
Proof.
  rewrite main_run. cbn [snd Getdata.disk]. apply lookup_union_r.
  apply eq_None_not_Some. intros Hsome.
  assert (is_Some (years_files w roi Getdata.YEARS !! name)) as Hy.
  { unfold main_files in Hsome.
    destruct (years_reply w roi Getdata.YEARS _) as [l|]; [|assumption].
    destruct (Getdata.images_info l); [assumption|].
    apply lookup_insert_is_Some' in Hsome as [Heq|H]; [|assumption].
    symmetry in Heq. contradiction. }
  apply years_files_years in Hy as (year & Hin & Hn).
  destruct (Himage year Hin) as [H1 H2]. destruct Hn; contradiction.
Qed.

(** * The further properties at work on the sample data *)

Lemma sample_run :
  Getdata.main Sample.world Sample.roi Sample.no_effects =
  (Returned Sample.summary, snd Sample.run).
Proof. vm_compute. reflexivity. Qed.

Lemma sample_select_2016 :
  fst (Getdata.select Sample.world Sample.roi 2016 Sample.no_effects) =
  Returned (Some (Getdata.mkSelection Sample.s2_2016_b "2016-08-02" "Sentinel-2"
                    Getdata.S2_VIS "sentinel2_2016.png")).
Proof. vm_compute. reflexivity. Qed.


Lemma X4_witness :
  EE.dt_year (EE.time_start Sample.s2_2016_b) = 2016 /\
  EE.intersects (EE.footprint Sample.s2_2016_b) Sample.roi = true /\
  "2016-08-02" = EE.format_date (EE.time_start Sample.s2_2016_b).
Proof.
  exact (X4_selection_is_of_its_year Sample.world Sample.roi 2016 Sample.no_effects _
           sample_select_2016).
Defined.

Lemma X5_witness :
  ("Sentinel-2" = "Sentinel-2" /\ 2015 <= 2016 /\
   In Sample.s2_2016_b (Getdata.collection Sample.world Getdata.S2_COLLECTION) /\
   Getdata.S2_VIS = Getdata.S2_VIS) \/
  ("Sentinel-2" = "Landsat 8" /\
   In Sample.s2_2016_b (Getdata.collection Sample.world Getdata.L8_COLLECTION) /\
   Getdata.S2_VIS = Getdata.L8_VIS).
Proof.
  exact (X5_rendering_matches_source Sample.world Sample.roi 2016 Sample.no_effects _
           sample_select_2016).
Defined.

Lemma X7_witness :
  fst (Getdata.main Sample.world_down Sample.roi Sample.no_effects) = Raised /\
  Getdata.disk (snd (Getdata.main Sample.world_down Sample.roi Sample.no_effects))
    !! "viewer_config.json" = Getdata.disk Sample.no_effects !! "viewer_config.json" /\
  (forall id y, 2015 < y ->
     In (id, y) (Getdata.queries
                   (snd (Getdata.main Sample.world_down Sample.roi Sample.no_effects))) ->
     In (id, y) (Getdata.queries Sample.no_effects)).
Proof.
  apply (X7_catalogue_failure_aborts_the_run Sample.world_down Sample.roi
           Sample.no_effects 2015).
  - vm_compute. tauto.
  - reflexivity.
Defined.

Lemma X8_witness :
  (length (Getdata.accepted Sample.summary) + length (Getdata.skipped Sample.summary)
   = 12)%nat /\
  StronglySorted Z.lt (Getdata.skipped Sample.summary) /\
  (forall year, In year (Getdata.skipped Sample.summary) -> 2013 <= year <= 2024).
Proof. exact (X8_every_year_is_accounted_for _ _ _ _ _ sample_run). Defined.

Lemma X9_witness : NoDup (map Getdata.filename (Getdata.accepted Sample.summary)).
Proof. exact (X9_file_names_are_distinct _ _ _ _ _ sample_run). Defined.

Lemma X10_witness :
  exists year sel status_code ct content,
    In year Getdata.YEARS /\
    fst (Getdata.select Sample.world Sample.roi year Sample.no_effects)
      = Returned (Some sel) /\
    Getdata.thumb Sample.world (Getdata.sel_image sel) (Getdata.sel_vis sel) Sample.roi
      Getdata.IMAGE_PX = Response status_code ct content /\
    Getdata.date Sample.entry_2016 = Getdata.sel_date sel /\
    Getdata.source Sample.entry_2016 = Getdata.sel_source sel /\
    Getdata.filename Sample.entry_2016 = Getdata.sel_filename sel /\
    Getdata.disk (snd Sample.run) !! Getdata.filename Sample.entry_2016
      = Some (Getdata.Raw content).
Proof.
  apply (X10_entries_point_at_their_downloads _ _ _ _ _ sample_run).
  vm_compute. tauto.
Defined.

Lemma X11_witness :
  match Getdata.config Sample.summary with
  | None =>
      Getdata.accepted Sample.summary = [] /\
      Getdata.disk (snd Sample.run) !! "viewer_config.json"
        = Getdata.disk Sample.no_effects !! "viewer_config.json"
  | Some c =>
      Getdata.accepted Sample.summary <> [] /\
      Getdata.disk (snd Sample.run) !! "viewer_config.json" = Some (Getdata.Json c) /\
      Getdata.images c = Getdata.accepted Sample.summary /\
      Getdata.total_images c = Z.of_nat (length (Getdata.accepted Sample.summary)) /\
      Getdata.generated c = Getdata.now Sample.world
  end.
Proof. exact (X11_manifest_matches_summary _ _ _ _ _ sample_run). Defined.

Lemma X12_witness :
  exists c,
    fst (Getdata.write_viewer_config Sample.world
           [Sample.entry "2013-07-10"; Sample.entry "2016-03-01"] Sample.no_effects)
      = Returned c /\
    Getdata.images c = [Sample.entry "2013-07-10"; Sample.entry "2016-03-01"].
Proof.
  apply (proj1 (X12_sorted_entries_stay_in_place Sample.world
                  [Sample.entry "2013-07-10"; Sample.entry "2016-03-01"]
                  Sample.no_effects)).
  repeat constructor.
Defined.

Lemma X13_witness :
  Getdata.initialize_ee (Getdata.mkSession (Some "") Getdata.Init_ok true Getdata.Init_ok)
    = (Raised, []).
Proof.
  apply (proj1 (X13_session_before_any_year
                  (Getdata.mkSession (Some "") Getdata.Init_ok true Getdata.Init_ok)
                  Sample.world Sample.roi Sample.no_effects)).
  right. reflexivity.
Defined.

Lemma X14_witness :
  Forall2 (stored Sample.pillow Sample.shelf_gap)
    (List.filter (present Sample.shelf_gap) Sample.shots) [Sample.large; Sample.large] /\
  exists out,
    fst (Analysis.align_images Sample.pillow Sample.shots Sample.shelf_gap) = Returned out /\
    out = zip_with (aligned_info (rows Sample.large) (cols Sample.large))
            [Sample.large; Sample.large] Sample.shots /\
    map Analysis.filename out =
      take (length [Sample.large; Sample.large]) (map Analysis.filename Sample.shots).
Proof.
  apply (X14_arrays_go_with_the_first_dictionaries Sample.pillow Sample.shelf_gap
           Sample.shots Sample.large [Sample.large]).
  vm_compute. reflexivity.
Defined.

Lemma X15_witness :
  Analysis.align_images Sample.pillow Sample.shots Sample.shelf_page =
  (Raised, Sample.shelf_page).
Proof.
  apply (X15_unreadable_file_stops_the_aligner Sample.pillow Sample.shelf_page
           Sample.shots (Sample.shot "b.png") Sample.html).
  - right. left. reflexivity.
  - vm_compute. reflexivity.
  - reflexivity.
Defined.

Lemma X16_witness :
  snd (Analysis.align_images Sample.pillow Sample.shots Sample.shelf) !! "a.png" =
  Sample.shelf !! "a.png".
Proof.
  apply (X16_aligner_writes_aligned_names_only Sample.pillow Sample.shelf Sample.shots
           "a.png").
  reflexivity.
Defined.

Lemma X17_witness :
  exists ref rest,
    Analysis.load_images Sample.pillow Sample.shelf Sample.shots = Returned (ref :: rest) /\
    Forall (fun o =>
              Analysis.width o = Some (cols ref) /\
              Analysis.height o = Some (rows ref) /\
              Analysis.aligned_filename o = Some ("aligned_" +:+ Analysis.filename o) /\
              is_raw (snd Sample.tail_run !! ("aligned_" +:+ Analysis.filename o)))
      (Analysis.images Sample.tail_config) /\
    snd Sample.tail_run !! "viewer_config.json" = Some (Analysis.Json Sample.tail_config) /\
    Analysis.total_images Sample.tail_config =
      Z.of_nat (length (Analysis.images Sample.tail_config)).
Proof.
  apply (X17_manifest_images_share_a_size Sample.pillow "2026-01-01T00:00:00"
           Sample.shots Sample.shelf).
  vm_compute. reflexivity.
Defined.

Lemma X18_witness :
  Analysis.create_viewer_config "2026-01-01T00:00:00"
    [Sample.morning; Sample.info "2013-07-10"] ∅ = (Raised, ∅).
Proof.
  apply (X18_mixed_keys_raise "2026-01-01T00:00:00"
           [Sample.morning; Sample.info "2013-07-10"] ∅
           Sample.morning (Sample.info "2013-07-10") 1578218400000).
  - left. reflexivity.
  - right. left. reflexivity.
  - reflexivity.
  - discriminate.
  - left. reflexivity.
Defined.

Lemma X19_witness :
  (exists out,
     fst (Analysis.download_sentinel2_images Sample.local_date Sample.thumbs
            [1578218400000; 1578304800000] ∅) = Returned out /\
     out = map s2_info
             (List.filter (fun p : Z * string =>
                             match Sample.thumbs p.2 with
                             | Response 200 _ _ => true
                             | _ => false
                             end)
                (zip (take 50 [1578218400000; 1578304800000])
                   ["2020-01-05"; "2020-01-06"])) /\
     (length out <= 50)%nat) /\
  fst (Analysis.download_sentinel2_images Sample.local_date Sample.thumbs
         [1578218400000; 1000000000000000000] ∅) = Raised.
Proof.
  split.
  - apply (proj1 (X19_download_loop_keeps_status_200 Sample.local_date Sample.thumbs
                    [1578218400000; 1578304800000] ∅)).
    reflexivity.
  - apply (proj1 (proj2 (X19_download_loop_keeps_status_200 Sample.local_date Sample.thumbs
                           [1578218400000; 1000000000000000000] ∅))).
    right. left. reflexivity.
Defined.

Lemma X20_witness :
  fst (Analysis.main Sample.pillow "2026-01-01T00:00:00" Sample.local_date Sample.thumbs
         (Some [1578218400000]) (Response 200 (Some "image/jpeg") [x02]) Transport_error ∅)
    = Raised /\
  snd (Analysis.main Sample.pillow "2026-01-01T00:00:00" Sample.local_date Sample.thumbs
         (Some [1578218400000]) (Response 200 (Some "image/jpeg") [x02]) Transport_error ∅)
    !! "viewer_config.json" = (∅ : gmap string Analysis.File) !! "viewer_config.json".
Proof.
  apply (X20_both_sources_break_the_manifest Sample.pillow "2026-01-01T00:00:00"
           Sample.local_date Sample.thumbs [1578218400000] ["2020-01-05"]
           (Response 200 (Some "image/jpeg") [x02]) Transport_error
           ∅ 1578218400000 "2020-01-05").
  - reflexivity.
  - left. reflexivity.
  - discriminate.
  - exists [x01]. reflexivity.
  - left. exists [x02]. reflexivity.
Defined.

Lemma X21_witness :
  exists c d',
    Analysis.main_tail Sample.pillow "2026-01-01T00:00:00" Sample.shots Sample.shelf =
      (Returned (Some c), d') /\
    length (Analysis.images c) = length Sample.shots /\
    d' !! "viewer_config.json" = Some (Analysis.Json c).
Proof.
  apply (X21_one_kind_of_frames_gets_a_manifest Sample.pillow "2026-01-01T00:00:00"
           Sample.shots [Sample.small; Sample.large; Sample.large] Sample.shelf).
  - repeat constructor; [exists [x01]|exists [x02]|exists [x02]];
      (split; [vm_compute; reflexivity|reflexivity]).
  - discriminate.
  - reflexivity.
Defined.

Lemma X22_witness :
  Getdata.year_body Sample.world Sample.roi 2018 (Getdata.mkLists [] []) Sample.no_effects =
  (Returned (Getdata.mkLists [] ([] ++ [2018])),
   snd (Getdata.select Sample.world Sample.roi 2018 Sample.no_effects)) /\
  Getdata.disk (snd (Getdata.select Sample.world Sample.roi 2018 Sample.no_effects)) =
  Getdata.disk Sample.no_effects.
Proof.
  apply (X22_no_fallback_after_a_rejected_download Sample.world Sample.roi 2018
           (Getdata.mkLists [] []) Sample.no_effects
           (Getdata.mkSelection Sample.s2_2018 "2018-06-06" "Sentinel-2" Getdata.S2_VIS
              "sentinel2_2018.png")).
  - vm_compute. reflexivity.
  - vm_compute. reflexivity.
Defined.

Lemma X23_witness :
  exists c d',
    Analysis.main Sample.pillow "2026-01-01T00:00:00" Sample.local_date Sample.thumbs
      (Some [1578218400000; 1000000000000000000])
      (Response 200 (Some "image/jpeg") [x02]) Transport_error ∅ =
      (Returned (Some c), d') /\
    length (Analysis.images c) =
      length (tile_infos "esri_world" (Response 200 (Some "image/jpeg") [x02]) ++
              tile_infos "google_satellite" Transport_error)%list /\
    Forall (fun o => Analysis.date o = Some "current" /\ Analysis.timestamp o = None)
      (Analysis.images c) /\
    Analysis.date_range_start c = "current" /\
    Analysis.date_range_end c = "current".
Proof.
  apply (X23_tiles_alone_make_a_manifest Sample.pillow "2026-01-01T00:00:00"
           Sample.local_date Sample.thumbs (Some [1578218400000; 1000000000000000000])
           (Response 200 (Some "image/jpeg") [x02]) Transport_error ∅).
  - right. left. reflexivity.
  - intros c [Hc|Hc]; [|discriminate]. injection Hc as <-. exists Sample.large. reflexivity.
  - left. exists [x02]. reflexivity.
Defined.

Lemma X24_witness :
  Getdata.disk (snd (Getdata.main Sample.world Sample.roi Sample.no_effects)) !! "notes.txt"
  = Getdata.disk Sample.no_effects !! "notes.txt".
Proof.
  apply (X24_other_files_are_left_alone Sample.world Sample.roi Sample.no_effects
           "notes.txt").
  - discriminate.
  - intros year _. split; discriminate.
Defined.
